(** * krs-viewer: identity cache, JSON-RPC dispatcher, KRS client

    A shallow embedding of the request path of the KRS viewer worker.

    - [JsMap], [LRU]  the [LRUCache] class of [src/api-key-handler.ts] over
                      a JavaScript [Map];
    - [Js]            the JavaScript values the handlers compute with:
                      JSON documents and [undefined], property access,
                      truthiness, [String(v)], [String.prototype.replace],
                      [JSON.stringify] and [JSON.parse];
    - [Kv]            the [CACHE_KV] namespace;
    - [Krs]           [KrsClient.getCompany] and [transformResponse];
    - [Http], [Rpc]   [handleHTTPTransport] and the method handlers;
    - [Server]        the [view_company] tool of the OAuth lane;
    - [Router]        [isApiKeyRequest], [handleApiKeyRequest],
                      [getOrCreateServer] and the worker's [fetch].
    - [Types]         the interfaces [KrsApiResponse] and [CompanyData];
    - [Text]          [formatCompanyAsText];
    - [Ui], [Widget]  [hasUISupport] and the widgets' handling of a tool
                      result;
    - [Traffic]       the server cache over a sequence of requests.

    [Date.now()], [new Date().toISOString()] and [crypto.randomUUID()] are
    read from an explicit argument; an asynchronous function is modelled by
    its outcome, a value or a thrown error; a function that writes to the
    log returns the records it wrote.  The properties follow the
    definitions. *)

From Stdlib Require Import ZArith String Ascii Bool Lia.
From Stdlib Require Import DecimalString DecimalPos DecimalZ.
From stdpp Require Import base decidable option list gmap strings.

Local Open Scope Z_scope.
#[local] Set Warnings "-clear-no-such-hyp".

(** ** JavaScript [Map], as far as the cache uses it

    A [Map] iterates in insertion order and [set] on a present key keeps the
    key's position, so a map is an association list with distinct keys. *)

Module JsMap.
Section JsMap.
Context {K A : Type} `{EqDecision K}.

Fixpoint get (k : K) (m : list (K * A)) : option A :=
  match m with
  | [] => None
  | (k', a) :: m' => if decide (k = k') then Some a else get k m'
  end.

Definition has (k : K) (m : list (K * A)) : bool :=
  match get k m with Some _ => true | None => false end.

Fixpoint set (k : K) (a : A) (m : list (K * A)) : list (K * A) :=
  match m with
  | [] => [(k, a)]
  | (k', a') :: m' =>
      if decide (k = k') then (k', a) :: m' else (k', a') :: set k a m'
  end.

Fixpoint delete (k : K) (m : list (K * A)) : list (K * A) :=
  match m with
  | [] => []
  | (k', a') :: m' =>
      if decide (k = k') then m' else (k', a') :: delete k m'
  end.

Definition size (m : list (K * A)) : Z := Z.of_nat (length m).

Definition keys (m : list (K * A)) : list K := fst <$> m.
End JsMap.
End JsMap.

(** ** [class LRUCache<K, V>] *)

Module LRU.

(** The object handed to [logger.info] by [evictLRU]. *)
Record eviction_event := {
  evicted_user_id : string;
  cache_size : Z;
}.

Section LRUCache.
Context {K V : Type} `{EqDecision K}.
(** [String(oldestKey)]; the identity for the string keys of [serverCache]. *)
Variable String_ : K → string.

Record entry := { value : V; lastAccessed : Z }.

Record LRUCache := {
  cache : list (K * entry);
  maxSize : Z;
}.

Definition new (maxSize : Z) : LRUCache :=
  {| cache := []; maxSize := maxSize |}.

Definition with_cache (c : LRUCache) (m : list (K * entry)) : LRUCache :=
  {| cache := m; maxSize := maxSize c |}.

(** [get]: a hit refreshes the entry's timestamp in place. *)
Definition get (key : K) (now : Z) (c : LRUCache) : option V * LRUCache :=
  match JsMap.get key (cache c) with
  | Some e =>
      (Some (value e),
       with_cache c
         (JsMap.set key {| value := value e; lastAccessed := now |} (cache c)))
  | None => (None, c)
  end.

Definition has (key : K) (c : LRUCache) : bool := JsMap.has key (cache c).

Definition size (c : LRUCache) : Z := JsMap.size (cache c).

(** [entry.lastAccessed < oldestTime], where [None] stands for [Infinity]. *)
Definition older (t : Z) (oldestTime : option Z) : bool :=
  match oldestTime with
  | None => true
  | Some o => t <? o
  end.

(** The [for ... of this.cache.entries()] loop of [evictLRU], threading
    [oldestKey] and [oldestTime]. *)
Fixpoint scan (es : list (K * entry)) (oldestKey : option K)
    (oldestTime : option Z) : option K * option Z :=
  match es with
  | [] => (oldestKey, oldestTime)
  | (key, e) :: es' =>
      if older (lastAccessed e) oldestTime
      then scan es' (Some key) (Some (lastAccessed e))
      else scan es' oldestKey oldestTime
  end.

(** [evictLRU]: the log record is written before the entry is deleted. *)
Definition evictLRU (c : LRUCache) : LRUCache * list eviction_event :=
  match fst (scan (cache c) None None) with
  | Some oldestKey =>
      (with_cache c (JsMap.delete oldestKey (cache c)),
       [ {| evicted_user_id := String_ oldestKey; cache_size := size c |} ])
  | None => (c, [])
  end.

(** [set]; the second component is what the call logged. *)
Definition set (key : K) (v : V) (now : Z) (c : LRUCache)
    : LRUCache * list eviction_event :=
  let '(c1, log) :=
    if (maxSize c <=? size c) && negb (has key c)
    then evictLRU c else (c, []) in
  (with_cache c1
     (JsMap.set key {| value := v; lastAccessed := now |} (cache c1)),
   log).

(** A client of the cache: calls of [get] and [set], each at the time
    [Date.now()] returns during the call. *)
Inductive op :=
| Get (key : K) (now : Z)
| Set_ (key : K) (v : V) (now : Z).

Definition step (c : LRUCache) (o : op) : LRUCache :=
  match o with
  | Get key now => snd (get key now c)
  | Set_ key v now => fst (set key v now c)
  end.

Definition run (ops : list op) (c : LRUCache) : LRUCache :=
  fold_left step ops c.

(** The state the constructor builds and the methods maintain: the keys are
    distinct, the capacity is the one given, and the size is within it. *)
Definition inv (N : Z) (c : LRUCache) : Prop :=
  maxSize c = N ∧ NoDup (JsMap.keys (cache c)) ∧ size c ≤ N.
End LRUCache.

Arguments entry : clear implicits.
Arguments LRUCache : clear implicits.
Arguments op : clear implicits.
End LRU.

(** ** JavaScript values and the operations the handlers apply to them *)

Module Js.

(** A thrown [Error]: its [name] and [message]. *)
Record exn := { exn_name : string; exn_message : string }.

Definition TypeError (message : string) : exn :=
  {| exn_name := "TypeError"; exn_message := message |}.
Definition SyntaxError (message : string) : exn :=
  {| exn_name := "SyntaxError"; exn_message := message |}.
(** [new Error(message)] *)
Definition Error_ (message : string) : exn :=
  {| exn_name := "Error"; exn_message := message |}.

(** The outcome of evaluating an expression, or of awaiting a promise. *)
Inductive result (A : Type) :=
| Ok (a : A)
| Throw (e : exn).
Arguments Ok {A} a.
Arguments Throw {A} e.

#[global] Instance result_ret : MRet result := λ A a, Ok a.
#[global] Instance result_bind : MBind result := λ A B f m,
  match m with
  | Ok a => f a
  | Throw e => Throw e
  end.

(** [try { body } catch (error) { handler }] *)
Definition try_catch {A} (body : result A) (handler : exn → result A)
    : result A :=
  match body with
  | Ok a => Ok a
  | Throw e => handler e
  end.

(** Values: what [JSON.parse] produces, and [undefined].  Numbers are
    restricted to the integers JavaScript holds exactly and prints in full.
    An object lists its own properties in creation order (no property name
    of this program is an array index, which would come first). *)
#[warnings="-register-all"]
Inductive value :=
| JUndefined
| JNull
| JBool (b : bool)
| JNum (n : Z)
| JStr (s : string)
| JArr (elems : list value)
| JObj (props : list (string * value)).

Definition value_eqb_str (v : value) (s : string) : bool :=
  match v with
  | JStr s' => bool_decide (s' = s)
  | _ => false
  end.

(** ToBoolean *)
Definition truthy (v : value) : bool :=
  match v with
  | JUndefined | JNull => false
  | JBool b => b
  | JNum n => negb (n =? 0)
  | JStr s => negb (bool_decide (s = ""))
  | JArr _ | JObj _ => true
  end.

(** [a || b] and [a && b] *)
Definition or_ (a b : value) : value := if truthy a then a else b.
Definition and_ (a b : value) : value := if truthy a then b else a.

Fixpoint own (p : string) (props : list (string * value)) : option value :=
  match props with
  | [] => None
  | (k, v) :: props' => if decide (p = k) then Some v else own p props'
  end.

Definition nullish (v : value) : bool :=
  match v with
  | JUndefined | JNull => true
  | _ => false
  end.

Definition typename (v : value) : string :=
  match v with
  | JNull => "null"
  | _ => "undefined"
  end.

(** [v.p], for the property names of this program: none of them is a member
    of a built-in prototype, so only own properties of objects are found. *)
Definition get (v : value) (p : string) : result value :=
  match v with
  | JUndefined | JNull =>
      Throw (TypeError ("Cannot read properties of " +:+ typename v
                        +:+ " (reading '" +:+ p +:+ "')"))
  | JObj props => Ok (default JUndefined (own p props))
  | _ => Ok JUndefined
  end.

(** [v?.p] *)
Definition opt_get (v : value) (p : string) : value :=
  match v with
  | JUndefined | JNull => JUndefined
  | JObj props => default JUndefined (own p props)
  | _ => JUndefined
  end.

(** Number::toString on an integer. *)
Definition Z_to_string (n : Z) : string :=
  NilZero.string_of_int (Z.to_int n).

(** [String(v)], the conversion a template literal applies.  An object
    that has an own property [toString] (never callable in a JSON document)
    has no primitive value; an array is joined. *)
Fixpoint ToString (v : value) : result string :=
  match v with
  | JUndefined => Ok "undefined"
  | JNull => Ok "null"
  | JBool true => Ok "true"
  | JBool false => Ok "false"
  | JNum n => Ok (Z_to_string n)
  | JStr s => Ok s
  | JArr elems =>
      (fix join (l : list value) : result string :=
         match l with
         | [] => Ok ""
         | x :: l' =>
             s ← match x with
                 | JUndefined | JNull => Ok ""
                 | _ => ToString x
                 end;
             match l' with
             | [] => Ok s
             | _ => r ← join l'; Ok (s +:+ "," +:+ r)
             end
         end) elems
  | JObj props =>
      match own "toString" props with
      | Some _ => Throw (TypeError "Cannot convert object to primitive value")
      | None => Ok "[object Object]"
      end
  end.

(** [error instanceof Error ? error.message : String(error)]: everything
    thrown here is an [Error]. *)
Definition error_message (e : exn) : string := exn_message e.

(** *** Strings *)

Fixpoint drop_chars (n : nat) (s : string) : string :=
  match n, s with
  | O, _ => s
  | S n', String _ s' => drop_chars n' s'
  | S _, EmptyString => EmptyString
  end.

(** [s.replace(pattern, replacement)] with a string pattern: only the first
    occurrence is replaced.  (The replacements used here contain no [$].) *)
Fixpoint replace (pattern replacement s : string) : string :=
  if String.prefix pattern s
  then replacement +:+ drop_chars (String.length pattern) s
  else match s with
       | EmptyString => EmptyString
       | String c s' => String c (replace pattern replacement s')
       end.

(** [s.startsWith(p)] *)
Definition startsWith (s p : string) : bool := String.prefix p s.

(** [s.includes(p)] *)
Fixpoint includes (s p : string) : bool :=
  if String.prefix p s then true
  else match s with
       | EmptyString => false
       | String _ s' => includes s' p
       end.

(** [v.replace(pattern, replacement)] on an arbitrary value. *)
Definition call_replace (v : value) (pattern replacement : string)
    : result value :=
  match v with
  | JStr s => Ok (JStr (replace pattern replacement s))
  | JUndefined | JNull =>
      Throw (TypeError ("Cannot read properties of " +:+ typename v
                        +:+ " (reading 'replace')"))
  | _ => Throw (TypeError "replace is not a function")
  end.

(** The receiver of [.filter(...)] or [.map(...)]. *)
Definition as_array (method : string) (v : value) : result (list value) :=
  match v with
  | JArr elems => Ok elems
  | JUndefined | JNull =>
      Throw (TypeError ("Cannot read properties of " +:+ typename v
                        +:+ " (reading '" +:+ method +:+ "')"))
  | _ => Throw (TypeError (method +:+ " is not a function"))
  end.
(** *** [JSON.stringify] *)

Definition dquote : ascii := ascii_of_nat 34.
Definition backslash : ascii := ascii_of_nat 92.
Definition newline : string := String (ascii_of_nat 10) EmptyString.

Definition hex_digit (n : N) : ascii :=
  default "0"%char (String.get (N.to_nat n) "0123456789abcdef").

(** One code unit inside a quoted JSON string (QuoteJSONString). *)
Definition quote_char (c : ascii) : string :=
  let n := N_of_ascii c in
  if (n =? 34)%N then String backslash (String dquote EmptyString)
  else if (n =? 92)%N then String backslash (String backslash EmptyString)
  else if (n =? 8)%N then String backslash "b"
  else if (n =? 12)%N then String backslash "f"
  else if (n =? 10)%N then String backslash "n"
  else if (n =? 13)%N then String backslash "r"
  else if (n =? 9)%N then String backslash "t"
  else if (n <? 32)%N
       then String backslash
              (String "u" (String "0" (String "0"
                (String (hex_digit (n / 16)) (String (hex_digit (n mod 16))
                  EmptyString)))))
  else String c EmptyString.

Fixpoint quote_chars (s : string) : string :=
  match s with
  | EmptyString => EmptyString
  | String c s' => quote_char c +:+ quote_chars s'
  end.

Definition QuoteJSONString (s : string) : string :=
  String dquote (quote_chars s +:+ String dquote EmptyString).

Fixpoint join (sep : string) (parts : list string) : string :=
  match parts with
  | [] => EmptyString
  | [x] => x
  | x :: parts' => x +:+ sep +:+ join sep parts'
  end.

(** The text of an object or array from the texts of its members. *)
Definition enclose (opening closing gap stepback indent : string)
    (partial : list string) : string :=
  match partial with
  | [] => opening +:+ closing
  | _ =>
      if bool_decide (gap = EmptyString)
      then opening +:+ join "," partial +:+ closing
      else opening +:+ newline +:+ indent
           +:+ join ("," +:+ newline +:+ indent) partial
           +:+ newline +:+ stepback +:+ closing
  end.

(** SerializeJSONProperty: [None] is [undefined].  A property whose value is
    [undefined] is left out of an object and printed as [null] in an array. *)
Fixpoint SerializeJSONProperty (gap indent : string) (v : value)
    : option string :=
  match v with
  | JUndefined => None
  | JNull => Some "null"
  | JBool true => Some "true"
  | JBool false => Some "false"
  | JNum n => Some (Z_to_string n)
  | JStr s => Some (QuoteJSONString s)
  | JArr elems =>
      Some (enclose "[" "]" gap indent (indent +:+ gap)
        ((fix elements (l : list value) : list string :=
            match l with
            | [] => []
            | x :: l' =>
                default "null" (SerializeJSONProperty gap (indent +:+ gap) x)
                :: elements l'
            end) elems))
  | JObj props =>
      Some (enclose "{" "}" gap indent (indent +:+ gap)
        ((fix members (l : list (string * value)) : list string :=
            match l with
            | [] => []
            | (k, x) :: l' =>
                match SerializeJSONProperty gap (indent +:+ gap) x with
                | Some text =>
                    (QuoteJSONString k +:+ ":"
                     +:+ (if bool_decide (gap = EmptyString)
                          then EmptyString else " ")
                     +:+ text) :: members l'
                | None => members l'
                end
            end) props))
  end.

(** [JSON.stringify(v)] and [JSON.stringify(v, null, 2)] *)
Definition JSON_stringify (v : value) : option string :=
  SerializeJSONProperty EmptyString EmptyString v.
Definition JSON_stringify_2 (v : value) : option string :=
  SerializeJSONProperty "  " EmptyString v.

(** *** [JSON.parse]

    Integers only: a number with a fraction or an exponent is outside the
    model and is not accepted, and so is an escape [\uXXXX] of a code unit
    above 127. *)

Definition is_ws (c : ascii) : bool :=
  let n := N_of_ascii c in
  (n =? 32)%N || (n =? 9)%N || (n =? 10)%N || (n =? 13)%N.

Fixpoint skip_ws (s : string) : string :=
  match s with
  | String c s' => if is_ws c then skip_ws s' else s
  | EmptyString => EmptyString
  end.

Definition is_digit (c : ascii) : bool :=
  let n := N_of_ascii c in (48 <=? n)%N && (n <=? 57)%N.

Fixpoint span_digits (s : string) : string * string :=
  match s with
  | String c s' =>
      if is_digit c
      then let '(ds, rest) := span_digits s' in (String c ds, rest)
      else (EmptyString, s)
  | EmptyString => (EmptyString, EmptyString)
  end.

(** An integer literal: an optional sign and digits, in canonical form (no
    leading zero), or [-0]. *)
Definition parse_number (s : string) : option (value * string) :=
  let '(lexeme, rest) :=
    match s with
    | String "-" s' => let '(ds, rest) := span_digits s' in (String "-" ds, rest)
    | _ => span_digits s
    end in
  match NilZero.int_of_string lexeme with
  | Some d =>
      let n := Z.of_int d in
      if bool_decide (lexeme = Z_to_string n) || bool_decide (lexeme = "-0")
      then Some (JNum n, rest) else None
  | None => None
  end.

Definition hex_value (c : ascii) : option N :=
  let n := N_of_ascii c in
  if (48 <=? n)%N && (n <=? 57)%N then Some (n - 48)%N
  else if (97 <=? n)%N && (n <=? 102)%N then Some (n - 87)%N
  else if (65 <=? n)%N && (n <=? 70)%N then Some (n - 55)%N
  else None.

Definition simple_escape (c : ascii) : option ascii :=
  let n := N_of_ascii c in
  if (n =? 34)%N then Some dquote
  else if (n =? 92)%N then Some backslash
  else if (n =? 47)%N then Some "/"%char
  else if (n =? 98)%N then Some (ascii_of_nat 8)
  else if (n =? 102)%N then Some (ascii_of_nat 12)
  else if (n =? 110)%N then Some (ascii_of_nat 10)
  else if (n =? 114)%N then Some (ascii_of_nat 13)
  else if (n =? 116)%N then Some (ascii_of_nat 9)
  else None.

(** The characters of a string literal after its opening quote, up to and
    including the closing quote. *)
Fixpoint parse_chars (s : string) : option (string * string) :=
  match s with
  | EmptyString => None
  | String c s' =>
      if (N_of_ascii c =? 34)%N then Some (EmptyString, s')
      else if (N_of_ascii c =? 92)%N then
        match s' with
        | String e s'' =>
            match simple_escape e with
            | Some ch =>
                match parse_chars s'' with
                | Some (r, rest) => Some (String ch r, rest)
                | None => None
                end
            | None =>
                if (N_of_ascii e =? 117)%N then
                  match s'' with
                  | String h1 (String h2 (String h3 (String h4 s5))) =>
                      match hex_value h1, hex_value h2,
                            hex_value h3, hex_value h4 with
                      | Some a, Some b, Some c', Some d =>
                          let n := (((a * 16 + b) * 16 + c') * 16 + d)%N in
                          if (n <? 128)%N then
                            match parse_chars s5 with
                            | Some (r, rest) =>
                                Some (String (ascii_of_N n) r, rest)
                            | None => None
                            end
                          else None
                      | _, _, _, _ => None
                      end
                  | _ => None
                  end
                else None
            end
        | EmptyString => None
        end
      else if (N_of_ascii c <? 32)%N then None
      else match parse_chars s' with
           | Some (r, rest) => Some (String c r, rest)
           | None => None
           end
  end.

(** CreateDataProperty while parsing an object: a repeated name overwrites
    the earlier value and keeps its place. *)
Fixpoint define (k : string) (v : value) (props : list (string * value))
    : list (string * value) :=
  match props with
  | [] => [(k, v)]
  | (k', v') :: props' =>
      if decide (k = k') then (k', v) :: props'
      else (k', v') :: define k v props'
  end.

Fixpoint parse_value (fuel : nat) (s : string) : option (value * string) :=
  match fuel with
  | O => None
  | S fuel' =>
      match skip_ws s with
      | EmptyString => None
      | String c s' =>
          if (N_of_ascii c =? 34)%N then
            match parse_chars s' with
            | Some (str, rest) => Some (JStr str, rest)
            | None => None
            end
          else if (N_of_ascii c =? 91)%N then
            match skip_ws s' with
            | String "]" rest => Some (JArr [], rest)
            | _ =>
                match parse_elements fuel' s' with
                | Some (elems, rest) => Some (JArr elems, rest)
                | None => None
                end
            end
          else if (N_of_ascii c =? 123)%N then
            match skip_ws s' with
            | String "}" rest => Some (JObj [], rest)
            | _ =>
                match parse_members fuel' [] s' with
                | Some (props, rest) => Some (JObj props, rest)
                | None => None
                end
            end
          else if String.prefix "null" (String c s')
               then Some (JNull, drop_chars 4 (String c s'))
          else if String.prefix "true" (String c s')
               then Some (JBool true, drop_chars 4 (String c s'))
          else if String.prefix "false" (String c s')
               then Some (JBool false, drop_chars 5 (String c s'))
          else parse_number (String c s')
      end
  end
with parse_elements (fuel : nat) (s : string)
    : option (list value * string) :=
  match fuel with
  | O => None
  | S fuel' =>
      match parse_value fuel' s with
      | Some (v, rest) =>
          match skip_ws rest with
          | String "," rest' =>
              match parse_elements fuel' rest' with
              | Some (vs, rest'') => Some (v :: vs, rest'')
              | None => None
              end
          | String "]" rest' => Some ([v], rest')
          | _ => None
          end
      | None => None
      end
  end
with parse_members (fuel : nat) (acc : list (string * value)) (s : string)
    : option (list (string * value) * string) :=
  match fuel with
  | O => None
  | S fuel' =>
      match skip_ws s with
      | String c s' =>
          if (N_of_ascii c =? 34)%N then
            match parse_chars s' with
            | Some (k, rest) =>
                match skip_ws rest with
                | String ":" rest' =>
                    match parse_value fuel' rest' with
                    | Some (v, rest'') =>
                        match skip_ws rest'' with
                        | String "," rest3 =>
                            parse_members fuel' (define k v acc) rest3
                        | String "}" rest3 => Some (define k v acc, rest3)
                        | _ => None
                        end
                    | None => None
                    end
                | _ => None
                end
            | None => None
            end
          else None
      | EmptyString => None
      end
  end.

(** [a?.p1?.p2 ...]: the value reached from [v] along [path], [undefined]
    when a step is missing. *)
Definition at_path (path : list string) (v : value) : value :=
  fold_left opt_get path v.

(** A default that is an empty collection, an empty string or [null]. *)
Definition empty_or_null (v : value) : bool :=
  match v with
  | JNull | JArr [] | JStr EmptyString => true
  | _ => false
  end.

(** The number of occurrences of the character [c] in [s]. *)
Fixpoint count_char (c : ascii) (s : string) : nat :=
  match s with
  | EmptyString => O
  | String c' s' => (if decide (c' = c) then 1 else 0) + count_char c s'
  end.

(** A JSON text written with single quotes in place of double quotes. *)
Fixpoint sq (s : string) : string :=
  match s with
  | EmptyString => EmptyString
  | String c s' =>
      String (if (N_of_ascii c =? 39)%N then dquote else c) (sq s')
  end.

(** A JSON document: no [undefined] inside, and the property names of
    each object distinct. *)
Fixpoint is_json (v : value) : bool :=
  match v with
  | JUndefined => false
  | JNull | JBool _ | JNum _ | JStr _ => true
  | JArr elems =>
      (fix all (l : list value) : bool :=
         match l with
         | [] => true
         | x :: l' => is_json x && all l'
         end) elems
  | JObj props =>
      bool_decide (NoDup (props.*1)) &&
      (fix all (l : list (string * value)) : bool :=
         match l with
         | [] => true
         | (_, x) :: l' => is_json x && all l'
         end) props
  end.

Definition JSON_parse (text : string) : result value :=
  match parse_value (S (2 * String.length text)) text with
  | Some (v, rest) =>
      match skip_ws rest with
      | EmptyString => Ok v
      | _ => Throw (SyntaxError "Unexpected non-whitespace character after JSON")
      end
  | None => Throw (SyntaxError "Unexpected token in JSON")
  end.

(** *** Reading back what [JSON.stringify] wrote *)

(** What may follow a number: anything but a digit. *)
Definition ends_number (rest : string) : Prop :=
  match rest with
  | EmptyString => True
  | String c _ => is_digit c = false
  end.

(** The compact text of a value; [null] stands for [undefined]. *)
Definition txt (v : value) : string :=
  default "null" (SerializeJSONProperty "" "" v).

Definition member_txt (kv : string * value) : string :=
  QuoteJSONString kv.1 +:+ ":" +:+ txt kv.2.

(** The first character of the text of a value: not white space, and not
    the bracket that closes an array. *)
Definition head_ok (t : string) : Prop :=
  ∃ c t', t = String c t' ∧ is_ws c = false ∧ c ≠ "]"%char.

(** [JSON.parse] reads back the text of [v], whatever follows it (but a
    digit), with fuel to spare. *)
Definition round_trips (v : value) : Prop :=
  SerializeJSONProperty "" "" v = Some (txt v) ∧ head_ok (txt v) ∧
  ∀ rest fuel,
    ends_number rest → (2 * String.length (txt v) < fuel)%nat →
    parse_value fuel (txt v +:+ rest) = Some (v, rest).
End Js.

(** ** The [CACHE_KV] namespace *)

Module Kv.

Record kv_entry := { kv_text : string; kv_expiration : Z }.

(** Modelled from the spec: the key-value store behind [env.CACHE_KV] is a
    platform binding with no code in the repository.  Following the
    Response Cache of the spec, an entry stored with [expirationTtl] seconds
    is readable strictly before [now + expirationTtl] and absent from then
    on; a later [put] under the same key replaces the entry and restarts its
    lifetime; a read does not extend it.  Time is in seconds. *)
Definition get (kv : gmap string kv_entry) (key : string) (now : Z)
    : option string :=
  match kv !! key with
  | Some e => if now <? kv_expiration e then Some (kv_text e) else None
  | None => None
  end.

Definition put (kv : gmap string kv_entry) (key text : string)
    (expirationTtl now : Z) : gmap string kv_entry :=
  <[key := {| kv_text := text; kv_expiration := now + expirationTtl |}]> kv.
End Kv.

(** ** [KrsClient] *)

Module Krs.
Import Js.

Definition KRS_API_BASE : string := "https://api-krs.ms.gov.pl/api/krs".
Definition CACHE_TTL_SECONDS : Z := 3600.

Inductive extract_type := aktualny | pelny.

Definition type_string (type : extract_type) : string :=
  match type with
  | aktualny => "aktualny"
  | pelny => "pelny"
  end.

(** What [await fetch(url, ...)] does: it rejects, or resolves to a response
    with a status and a body, of which [response.json()] gives the outcome. *)
Inductive fetch_outcome :=
| FetchRejects (e : exn)
| FetchResponse (status : Z) (json : result value).

Definition buildPkdCode (item : value) : result string :=
  kodDzial ← get item "kodDzial";
  s1 ← ToString kodDzial;
  kodKlasa ← get item "kodKlasa";
  s2 ← ToString kodKlasa;
  kodPodklasa ← get item "kodPodklasa";
  s3 ← ToString kodPodklasa;
  Ok (s1 +:+ "." +:+ s2 +:+ "." +:+ s3).

(** [(x) => x?.imiona?.imie && x?.nazwisko?.nazwisko], as a filter test *)
Definition has_names (x : value) : bool :=
  truthy (and_ (opt_get (opt_get x "imiona") "imie")
               (opt_get (opt_get x "nazwisko") "nazwisko")).

(** [`${x.imiona.imie} ${x.nazwisko.nazwisko}`] *)
Definition full_name (x : value) : result string :=
  imiona ← get x "imiona";
  imie ← get imiona "imie";
  s1 ← ToString imie;
  nazwisko ← get x "nazwisko";
  nazwisko' ← get nazwisko "nazwisko";
  s2 ← ToString nazwisko';
  Ok (s1 +:+ " " +:+ s2).

Definition shareholder (s : value) : result value :=
  name ← full_name s;
  posiadaneUdzialy ← get s "posiadaneUdzialy";
  Ok (JObj [("name", JStr name);
            ("shares", or_ posiadaneUdzialy (JStr "Brak danych"))]).

Definition boardMember (m : value) : result value :=
  name ← full_name m;
  funkcjaWOrganie ← get m "funkcjaWOrganie";
  Ok (JObj [("name", JStr name);
            ("function", or_ funkcjaWOrganie (JStr "Brak danych"))]).

Definition activity (a : value) : result value :=
  code ← buildPkdCode a;
  opis ← get a "opis";
  Ok (JObj [("code", JStr code); ("description", opis)]).

(** [transformResponse(raw)]; [nowIso] is [new Date().toISOString()]. *)
Definition transformResponse (nowIso : string) (raw : value)
    : result value :=
  odpis ← get raw "odpis";
  dane ← get odpis "dane";
  dzial1 ← get dane "dzial1";
  dzial2 ← get dane "dzial2";
  dzial3 ← get dane "dzial3";
  wspolnicySpzoo ← get dzial1 "wspolnicySpzoo";
  wspolnicy ← as_array "filter" (or_ wspolnicySpzoo (JArr []));
  shareholders ← mapM shareholder (filter has_names wspolnicy);
  sklad ← as_array "filter"
    (or_ (opt_get (opt_get dzial2 "reprezentacja") "sklad") (JArr []));
  boardMembers ← mapM boardMember (filter has_names sklad);
  przewazajaca ← as_array "map"
    (or_ (opt_get (opt_get dzial3 "przedmiotDzialalnosci")
            "przedmiotPrzewazajacejDzialalnosci") (JArr []));
  mainActivities ← mapM activity przewazajaca;
  pozostala ← as_array "map"
    (or_ (opt_get (opt_get dzial3 "przedmiotDzialalnosci")
            "przedmiotPozostalejDzialalnosci") (JArr []));
  otherActivities ← mapM activity pozostala;
  danePodmiotu ← get dzial1 "danePodmiotu";
  nazwa ← get danePodmiotu "nazwa";
  naglowekA ← get odpis "naglowekA";
  numerKRS ← get naglowekA "numerKRS";
  identyfikatory ← get danePodmiotu "identyfikatory";
  formaPrawna ← get danePodmiotu "formaPrawna";
  siedzibaIAdres ← get dzial1 "siedzibaIAdres";
  let siedziba := opt_get siedzibaIAdres "siedziba" in
  let adres := opt_get siedzibaIAdres "adres" in
  kapital ← get dzial1 "kapital";
  capital ←
    (if truthy (opt_get kapital "wysokoscKapitaluZakladowego")
     then
       wysokosc ← get kapital "wysokoscKapitaluZakladowego";
       wartosc ← get wysokosc "wartosc";
       value ← call_replace wartosc "," ".";
       waluta ← get wysokosc "waluta";
       Ok (JObj [("value", value); ("currency", waluta)])
     else Ok JNull);
  dataRejestracjiWKRS ← get naglowekA "dataRejestracjiWKRS";
  stanZDnia ← get naglowekA "stanZDnia";
  dataCzasOdpisu ← get naglowekA "dataCzasOdpisu";
  Ok (JObj [
    ("name", nazwa);
    ("krs", numerKRS);
    ("nip", or_ (opt_get identyfikatory "nip") JNull);
    ("regon", or_ (opt_get identyfikatory "regon") JNull);
    ("legalForm", formaPrawna);
    ("address", JObj [
       ("city", or_ (opt_get siedziba "miejscowosc") (JStr ""));
       ("voivodeship", or_ (opt_get siedziba "wojewodztwo") (JStr ""));
       ("street", or_ (opt_get adres "ulica") (JStr ""));
       ("building", or_ (opt_get adres "nrDomu") (JStr ""));
       ("unit", or_ (opt_get adres "nrLokalu") JNull);
       ("postalCode", or_ (opt_get adres "kodPocztowy") (JStr ""));
       ("country", or_ (opt_get siedziba "kraj") (JStr "POLSKA"))]);
    ("capital", capital);
    ("shareholders", JArr shareholders);
    ("representation", JObj [
       ("organName",
        or_ (opt_get (opt_get dzial2 "reprezentacja") "nazwaOrganu")
            (JStr "ZARZĄD"));
       ("method",
        or_ (opt_get (opt_get dzial2 "reprezentacja") "sposobReprezentacji")
            (JStr "Brak danych"));
       ("members", JArr boardMembers)]);
    ("mainActivity", JArr mainActivities);
    ("otherActivities", JArr otherActivities);
    ("registrationDate", dataRejestracjiWKRS);
    ("lastUpdate", stanZDnia);
    ("dataTimestamp", or_ dataCzasOdpisu (JStr nowIso))]).

Definition cacheKey (krs : string) (type : extract_type) : string :=
  "krs:" +:+ krs +:+ ":" +:+ type_string type.

Definition url (krs : string) (type : extract_type) : string :=
  KRS_API_BASE +:+ "/"
  +:+ (match type with aktualny => "OdpisAktualny" | pelny => "OdpisPelny" end)
  +:+ "/" +:+ krs +:+ "?rejestr=P&format=json".

(** The cache check at the head of [getCompany]: [Some] is the early
    return, [None] falls through to the registry. *)
Definition lookup (kv : gmap string Kv.kv_entry) (key : string) (now : Z)
    : option (result value) :=
  match Kv.get kv key now with
  | Some cached =>
      if bool_decide (cached = EmptyString) then None
      else Some (JSON_parse cached)
  | None => None
  end.

(** The [CACHE_KV.put] at the end of [getCompany]. *)
Definition store (kv : gmap string Kv.kv_entry) (key : string) (data : value)
    (now : Z) : result (gmap string Kv.kv_entry) :=
  match JSON_stringify data with
  | Some text => Ok (Kv.put kv key text CACHE_TTL_SECONDS now)
  | None => Throw (TypeError "KV put() accepts only strings")
  end.

(** [getCompany(krs, type)] at time [now], against the registry behaviour
    [fetch]; returns the outcome and the cache afterwards. *)
Definition getCompany (fetch : string → fetch_outcome) (now : Z)
    (nowIso : string) (krs : string) (type : extract_type)
    (kv : gmap string Kv.kv_entry)
    : result value * gmap string Kv.kv_entry :=
  match lookup kv (cacheKey krs type) now with
  | Some cached => (cached, kv)
  | None =>
      match fetch (url krs type) with
      | FetchRejects e =>
          if bool_decide (exn_name e = "TimeoutError")
          then (Throw (Error_ "KRS API timeout - please try again"), kv)
          else (Throw (Error_ "KRS API unavailable - please try again later"),
                kv)
      | FetchResponse status json =>
          if negb ((200 <=? status) && (status <=? 299)) then
            if status =? 404 then
              (Throw (Error_ ("Company with KRS " +:+ krs
                              +:+ " not found in registry")), kv)
            else if status =? 400 then
              (Throw (Error_ ("Invalid KRS number format: " +:+ krs)), kv)
            else
              (Throw (Error_ ("KRS API error: " +:+ Z_to_string status)), kv)
          else
            match json ≫= transformResponse nowIso with
            | Ok data =>
                match store kv (cacheKey krs type) data now with
                | Ok kv' => (Ok data, kv')
                | Throw e => (Throw e, kv)
                end
            | Throw e => (Throw e, kv)
            end
      end
  end.
End Krs.

(** ** The worker's environment and HTTP messages *)

Module Http.
Import Js.

(** The collaborators reached through [env]: [validateApiKey(apiKey, env)]
    of [./auth/apiKeys] (the user id and e-mail of the key's owner, or
    [null]) and [loadHtml(env.ASSETS, path)] of [./helpers/assets].  Either
    may reject. *)
Record Env := {
  validateApiKey : string → result (option (string * string));
  loadHtml : string → result string;
}.

(** An inbound request: its [Authorization] header and the outcome of
    [request.json()]. *)
Record Request := {
  authorization : option string;
  json : result value;
}.

(** [new Response(body, { status, headers })]; every response of the key
    lane carries [Content-Type: application/json]. *)
Record Response := {
  status : Z;
  body : option string;
}.

(** One call of [logger.info], [logger.warn] or [logger.error]. *)
Record log_entry := {
  level : string;
  fields : value;
}.
End Http.

(** ** JSON-RPC over HTTP: [handleHTTPTransport] and the method handlers *)

Module Rpc.
Import Js Http.

Definition SERVER_NAME : string := "{{SERVER_NAME}}".
Definition SERVER_VERSION : string := "1.0.0".

(** [TOOL_METADATA["example-tool"]] and [getToolDescription] *)
Definition example_tool_title : string := "Example Tool".
Definition part1_purpose : string :=
  "Performs an example operation on the provided input.".
Definition part2_returns : string :=
  "Returns the result object with processed data, status, and metadata fields.".
Definition part3_useCase : string :=
  "Use this when you need to demonstrate the tool pattern or test the MCP server setup.".
Definition part4_constraints : string :=
  "Note: This is a placeholder tool. Replace with your actual implementation. Input must be non-empty.".
Definition getToolDescription_example_tool : string :=
  part1_purpose +:+ " " +:+ part2_returns +:+ " " +:+ part3_useCase
  +:+ " " +:+ part4_constraints.

(** [UI_RESOURCES.widget] and [UI_MIME_TYPE] *)
Definition UI_MIME_TYPE : string := "text/html;profile=mcp-app".
Definition widget_uri : string := "ui://{{SERVER_ID}}/widget".
Definition widget_name : string := "main_widget".
Definition widget_description : string :=
  "Interactive widget for {{SERVER_NAME}}. "
  +:+ "TODO: Replace with a detailed description of what this widget displays and its features.".
Definition widget_meta : value :=
  JObj [("ui", JObj [
    ("csp", JObj [("connectDomains", JArr []); ("resourceDomains", JArr [])]);
    ("prefersBorder", JBool true)])].

(** The object [jsonRpcResponse] serialises: [error], when given, replaces
    [result]. *)
Definition envelope (id result : value) (error : option (Z * string))
    : value :=
  JObj ([("jsonrpc", JStr "2.0"); ("id", id)] ++
        match error with
        | Some (code, message) =>
            [("error", JObj [("code", JNum code); ("message", JStr message)])]
        | None => [("result", result)]
        end).

Definition jsonRpcResponse (id result : value) (error : option (Z * string))
    : Response :=
  {| status := 200; body := JSON_stringify (envelope id result error) |}.

Definition jsonError (message : string) (status : Z) : Response :=
  {| status := status;
     body := JSON_stringify (JObj [("error", JStr message)]) |}.

Definition capabilities : value :=
  JObj [("tools", JObj []);
        ("prompts", JObj [("listChanged", JBool true)]);
        ("resources", JObj [("listChanged", JBool true)])].

Definition handleInitialize (request : value) : result Response :=
  id ← get request "id";
  Ok (jsonRpcResponse id (JObj [
    ("protocolVersion", JStr "2024-11-05");
    ("capabilities", capabilities);
    ("serverInfo", JObj [("name", JStr SERVER_NAME);
                         ("version", JStr SERVER_VERSION)])]) None).

Definition handlePing (request : value) : result Response :=
  id ← get request "id";
  Ok (jsonRpcResponse id (JObj []) None).

Definition handleToolsList (request : value) : result Response :=
  id ← get request "id";
  Ok (jsonRpcResponse id (JObj [("tools", JArr [JObj [
    ("name", JStr "example-tool");
    ("title", JStr example_tool_title);
    ("description", JStr getToolDescription_example_tool);
    ("inputSchema", JObj [
       ("type", JStr "object");
       ("properties", JObj [("input", JObj [
          ("type", JStr "string");
          ("description", JStr "Input string to process")])]);
       ("required", JArr [JStr "input"])]);
    ("annotations", JObj [
       ("readOnlyHint", JBool true);
       ("destructiveHint", JBool false);
       ("idempotentHint", JBool true);
       ("openWorldHint", JBool false)])]])]) None).

(** A tool outcome with one text block; [extra] holds [structuredContent]
    or [isError]. *)
Definition tool_result (text : value) (extra : list (string * value))
    : value :=
  JObj (("content", JArr [JObj [("type", JStr "text"); ("text", text)]])
        :: extra).

Definition text_of (t : option string) : value :=
  match t with
  | Some s => JStr s
  | None => JUndefined
  end.

Definition handleToolsCall (nowIso userId : string) (request : value)
    : result Response :=
  params ← get request "params";
  name ← get (or_ params (JObj [])) "name";
  args ← get (or_ params (JObj [])) "arguments";
  if value_eqb_str name "example-tool" then
    let input := or_ (opt_get args "input") (JStr "") in
    try_catch
      (processed ← ToString input;
       let result := JObj [("message", JStr ("Processed: " +:+ processed));
                           ("timestamp", JStr nowIso);
                           ("userId", JStr userId)] in
       id ← get request "id";
       Ok (jsonRpcResponse id
             (tool_result (text_of (JSON_stringify_2 result))
                [("structuredContent", result)]) None))
      (λ error,
       id ← get request "id";
       Ok (jsonRpcResponse id
             (tool_result (JStr ("Error: " +:+ error_message error))
                [("isError", JBool true)]) None))
  else
    id ← get request "id";
    shown ← ToString name;
    Ok (jsonRpcResponse id JNull (Some (-32602, "Unknown tool: " +:+ shown))).

Definition handleResourcesList (request : value) : result Response :=
  id ← get request "id";
  Ok (jsonRpcResponse id (JObj [("resources", JArr [JObj [
    ("uri", JStr widget_uri);
    ("name", JStr widget_name);
    ("description", JStr widget_description);
    ("mimeType", JStr UI_MIME_TYPE)]])]) None).

Definition handleResourcesRead (env : Env) (request : value)
    : result Response :=
  params ← get request "params";
  uri ← get (or_ params (JObj [])) "uri";
  if value_eqb_str uri widget_uri then
    html ← loadHtml env "/widget.html";
    id ← get request "id";
    Ok (jsonRpcResponse id (JObj [("contents", JArr [JObj [
      ("uri", JStr widget_uri);
      ("mimeType", JStr UI_MIME_TYPE);
      ("text", JStr html);
      ("_meta", widget_meta)]])]) None)
  else
    id ← get request "id";
    shown ← ToString uri;
    Ok (jsonRpcResponse id JNull
          (Some (-32602, "Unknown resource: " +:+ shown))).

Definition handlePromptsList (request : value) : result Response :=
  id ← get request "id";
  Ok (jsonRpcResponse id (JObj [("prompts", JArr [])]) None).

(** The [case] labels of the [switch] in [handleHTTPTransport]. *)
Definition supported_methods : list string :=
  ["initialize"; "ping"; "tools/list"; "tools/call"; "resources/list";
   "resources/read"; "prompts/list"].

(** The [try] block of [handleHTTPTransport]. *)
Definition dispatch (env : Env) (nowIso userId : string)
    (request_json : result value) : result Response :=
  jsonRpcRequest ← request_json;
  jsonrpc ← get jsonRpcRequest "jsonrpc";
  if negb (value_eqb_str jsonrpc "2.0") then
    id ← get jsonRpcRequest "id";
    Ok (jsonRpcResponse id JNull (Some (-32600, "Invalid Request")))
  else
    method ← get jsonRpcRequest "method";
    if value_eqb_str method "initialize" then handleInitialize jsonRpcRequest
    else if value_eqb_str method "ping" then handlePing jsonRpcRequest
    else if value_eqb_str method "tools/list"
      then handleToolsList jsonRpcRequest
    else if value_eqb_str method "tools/call"
      then handleToolsCall nowIso userId jsonRpcRequest
    else if value_eqb_str method "resources/list"
      then handleResourcesList jsonRpcRequest
    else if value_eqb_str method "resources/read"
      then handleResourcesRead env jsonRpcRequest
    else if value_eqb_str method "prompts/list"
      then handlePromptsList jsonRpcRequest
    else
      id ← get jsonRpcRequest "id";
      shown ← ToString method;
      Ok (jsonRpcResponse id JNull
            (Some (-32601, "Method not found: " +:+ shown))).

(** The response of the [catch] block. *)
Definition parse_error (error : exn) : Response :=
  jsonRpcResponse (JStr "error") JNull
    (Some (-32700, "Parse error: " +:+ error_message error)).

Definition handleHTTPTransport (env : Env) (nowIso userId : string)
    (request : Request) : Response :=
  match dispatch env nowIso userId (json request) with
  | Ok response => response
  | Throw error => parse_error error
  end.
End Rpc.

(** ** The [view_company] tool of the OAuth lane ([KrsViewer.init]) *)

Module Server.
Import Js Http.

Section ViewCompany.
(** [formatCompanyAsText]: the handler's behaviour is stated for whatever
    text it returns, or error it throws, on a record. *)
Variable formatCompanyAsText : value → result string.

Definition next_steps : string :=
  newline +:+ newline
  +:+ "Next steps: Ask follow-up questions about this company's board, capital, or activities. "
  +:+ "For full historical data, call view_company again with type 'pelny'.".

(** The tool callback, without its log records.  [userId] is
    [this.props?.userId], [viewUUID] is [crypto.randomUUID()], [krs] and
    [type] are the validated arguments. *)
Definition view_company (userId : option string) (viewUUID : string)
    (fetch : string → Krs.fetch_outcome) (now : Z) (nowIso : string)
    (krs : string) (type : option Krs.extract_type)
    (kv : gmap string Kv.kv_entry)
    : result value * gmap string Kv.kv_entry :=
  if negb (truthy (default JUndefined (JStr <$> userId))) then
    (Throw (Error_ "User ID not found in authentication context"), kv)
  else
    let '(companyData, kv') :=
      Krs.getCompany fetch now nowIso krs (default Krs.aktualny type) kv in
    (try_catch
       (data ← companyData;
        text ← formatCompanyAsText data;
        Ok (JObj [
          ("content", JArr [JObj [("type", JStr "text");
                                  ("text", JStr (text +:+ next_steps))]]);
          ("structuredContent", data);
          ("_meta", JObj [("viewUUID", JStr viewUUID)])]))
       (λ error,
        Ok (Rpc.tool_result
              (JStr ("Error looking up KRS " +:+ krs +:+ ": "
                     +:+ error_message error))
              [("isError", JBool true)])),
     kv').
End ViewCompany.
End Server.

(** ** Lane selection and the key-based lane *)

Module Router.
Import Js Http.

(** What [getOrCreateServer] builds: the server's identity, the resource and
    the tool registered on it, and the user its tool closure is bound to. *)
Record McpServer := {
  server_name : string;
  server_version : string;
  resources : list string;
  tools : list string;
  bound_user : string;
}.

Definition MAX_CACHED_SERVERS : Z := 100.

(** [const serverCache = new LRUCache<string, McpServer>(MAX_CACHED_SERVERS)] *)
Definition serverCache : LRU.LRUCache string McpServer :=
  LRU.new MAX_CACHED_SERVERS.

Definition log_eviction (e : LRU.eviction_event) : log_entry :=
  {| level := "info";
     fields := JObj [("event", JStr "lru_cache_eviction");
                     ("evicted_user_id", JStr (LRU.evicted_user_id e));
                     ("cache_size", JNum (LRU.cache_size e))] |}.

Definition getOrCreateServer (userId email : string) (now : Z)
    (cache : LRU.LRUCache string McpServer)
    : McpServer * LRU.LRUCache string McpServer * list log_entry :=
  match LRU.get userId now cache with
  | (Some cached, cache') => (cached, cache', [])
  | (None, cache') =>
      let server := {| server_name := Rpc.SERVER_NAME;
                       server_version := Rpc.SERVER_VERSION;
                       resources := [Rpc.widget_uri];
                       tools := ["example-tool"];
                       bound_user := userId |} in
      let '(cache'', evicted) := LRU.set id userId server now cache' in
      (server, cache'', log_eviction <$> evicted)
  end.

(** What one request leaves behind: the response, the server cache and the
    log records written. *)
Record outcome := {
  response : Response;
  cache_after : LRU.LRUCache string McpServer;
  log : list log_entry;
}.

(** [authHeader?.replace("Bearer ", "")] *)
Definition extractApiKey (authHeader : option string) : option string :=
  replace "Bearer " "" <$> authHeader.

(** [handleApiKeyRequest] from the point where [validateApiKey] has
    resolved to [validationResult]. *)
Definition validated (env : Env) (now : Z) (nowIso : string)
    (request : Request) (pathname : string)
    (cache : LRU.LRUCache string McpServer)
    (validationResult : option (string * string)) : outcome :=
  match validationResult with
  | None =>
      {| response := Rpc.jsonError "Invalid or expired API key" 401;
         cache_after := cache;
         log := [ {| level := "warn";
                     fields := JObj [("event", JStr "auth_attempt");
                                     ("method", JStr "api_key");
                                     ("success", JBool false);
                                     ("reason",
                                      JStr "Invalid or expired API key")] |} ]
      |}
  | Some (userId, email) =>
      let '(server, cache', evictions) :=
        getOrCreateServer userId email now cache in
      {| response :=
           if bool_decide (pathname = "/mcp")
           then Rpc.handleHTTPTransport env nowIso userId request
           else Rpc.jsonError "Invalid endpoint. Use /mcp" 400;
         cache_after := cache';
         log := {| level := "info";
                   fields := JObj [("event", JStr "auth_attempt");
                                   ("method", JStr "api_key");
                                   ("user_email", JStr email);
                                   ("user_id", JStr userId);
                                   ("success", JBool true)] |}
                :: evictions |}
  end.

(** [handleApiKeyRequest] from the call [validateApiKey(apiKey, env)] on. *)
Definition validate (env : Env) (now : Z) (nowIso : string)
    (request : Request) (pathname : string)
    (cache : LRU.LRUCache string McpServer) (apiKey : string) : outcome :=
  match validateApiKey env apiKey with
  | Ok validationResult =>
      validated env now nowIso request pathname cache validationResult
  | Throw error =>
      {| response :=
           Rpc.jsonError ("Internal server error: "
                          +:+ error_message error) 500;
         cache_after := cache;
         log := [ {| level := "error";
                     fields := JObj [
                       ("event", JStr "server_error");
                       ("error", JStr (error_message error));
                       ("context", JStr "API key handler")] |} ] |}
  end.

Definition handleApiKeyRequest (env : Env) (now : Z) (nowIso : string)
    (request : Request) (pathname : string)
    (cache : LRU.LRUCache string McpServer) : outcome :=
  match extractApiKey (authorization request) with
  | None =>
      {| response := Rpc.jsonError "Missing Authorization header" 401;
         cache_after := cache; log := [] |}
  | Some apiKey =>
      if bool_decide (apiKey = "") then
        {| response := Rpc.jsonError "Missing Authorization header" 401;
           cache_after := cache; log := [] |}
      else validate env now nowIso request pathname cache apiKey
  end.

(** [isApiKeyRequest(pathname, authHeader)] *)
Definition isApiKeyRequest (pathname : string) (authHeader : option string)
    : bool :=
  if negb (bool_decide (pathname = "/mcp")) then false
  else match authHeader with
       | None => false
       | Some header =>
           if bool_decide (header = "") then false
           else startsWith (replace "Bearer " "" header) "wtyk_"
       end.

(** The worker's [fetch]: the key-based lane, or the OAuth provider, whose
    handling of the request has the outcome [oauth request]; an error it
    throws is answered with status 500. *)
Definition fetch (oauth : Request → result Response) (env : Env) (now : Z)
    (nowIso : string) (request : Request) (pathname : string)
    (cache : LRU.LRUCache string McpServer) : outcome :=
  if isApiKeyRequest pathname (authorization request) then
    let r := handleApiKeyRequest env now nowIso request pathname cache in
    {| response := response r; cache_after := cache_after r;
       log := {| level := "info";
                 fields := JObj [("event", JStr "transport_request");
                                 ("transport", JStr "http");
                                 ("method", JStr "api_key");
                                 ("user_email", JStr "")] |} :: log r |}
  else
    let transport :=
      {| level := "info";
         fields := JObj [("event", JStr "transport_request");
                         ("transport", JStr "http");
                         ("method", JStr "oauth");
                         ("user_email", JStr "")] |} in
    match oauth request with
    | Ok response =>
        {| response := response; cache_after := cache; log := [transport] |}
    | Throw error =>
        {| response :=
             {| status := 500;
                body := JSON_stringify (JObj [
                  ("error", JStr "Internal server error");
                  ("message", JStr (error_message error))]) |};
           cache_after := cache;
           log := [transport;
                   {| level := "error";
                      fields := JObj [
                        ("event", JStr "server_error");
                        ("error", JStr (exn_name error +:+ ": "
                                        +:+ exn_message error));
                        ("context", JStr "Dual auth handler")] |}] |}
    end.
End Router.

(** ** The interfaces of [types.ts] *)

Module Types.
Import Js.

(** [string] *)
Definition string_ (v : value) : bool :=
  match v with
  | JStr _ => true
  | _ => false
  end.

(** A union of string literals. *)
Definition literal (options : list string) (v : value) : bool :=
  match v with
  | JStr s => bool_decide (s ∈ options)
  | _ => false
  end.

(** [T | null] *)
Definition nullable (T : value → bool) (v : value) : bool :=
  match v with
  | JNull => true
  | _ => T v
  end.

(** [Array<T>] *)
Definition array (T : value → bool) (v : value) : bool :=
  match v with
  | JArr elems => forallb T elems
  | _ => false
  end.

(** A member [p: T] of an object type. *)
Definition field (p : string) (T : value → bool) (v : value) : bool :=
  match v with
  | JObj props =>
      match own p props with
      | Some x => T x
      | None => false
      end
  | _ => false
  end.

(** A member [p?: T]: absent, [undefined], or a [T]. *)
Definition optional (p : string) (T : value → bool) (v : value) : bool :=
  match v with
  | JObj props =>
      match own p props with
      | Some JUndefined | None => true
      | Some x => T x
      end
  | _ => false
  end.

(** An object type with the given members; other properties are
    allowed. *)
Definition object (members : list (value → bool)) (v : value) : bool :=
  match v with
  | JObj _ => forallb (λ member, member v) members
  | _ => false
  end.

(** [interface KrsApiResponse] *)
Definition KrsApiResponse : value → bool :=
  object [
    field "odpis" (object [
      field "rodzaj" (literal ["Aktualny"; "Pelny"]);
      field "naglowekA" (object [
        field "numerKRS" string_;
        field "dataRejestracjiWKRS" string_;
        field "stanZDnia" string_;
        optional "dataCzasOdpisu" string_]);
      field "dane" (object [
        field "dzial1" (object [
          field "danePodmiotu" (object [
            field "formaPrawna" string_;
            optional "identyfikatory" (object [
              optional "nip" string_;
              optional "regon" string_]);
            field "nazwa" string_]);
          field "siedzibaIAdres" (object [
            field "siedziba" (object [
              field "kraj" string_;
              field "wojewodztwo" string_;
              field "miejscowosc" string_]);
            field "adres" (object [
              field "ulica" string_;
              field "nrDomu" string_;
              optional "nrLokalu" string_;
              field "kodPocztowy" string_])]);
          optional "kapital" (object [
            field "wysokoscKapitaluZakladowego" (object [
              field "wartosc" string_;
              field "waluta" string_])]);
          optional "wspolnicySpzoo" (array (object [
            field "nazwisko" (object [field "nazwisko" string_]);
            field "imiona" (object [field "imie" string_]);
            field "posiadaneUdzialy" string_]))]);
        field "dzial2" (object [
          field "reprezentacja" (object [
            field "nazwaOrganu" string_;
            field "sposobReprezentacji" string_;
            field "sklad" (array (object [
              field "nazwisko" (object [field "nazwisko" string_]);
              field "imiona" (object [field "imie" string_]);
              field "funkcjaWOrganie" string_]))])]);
        field "dzial3" (object [
          field "przedmiotDzialalnosci" (object [
            field "przedmiotPrzewazajacejDzialalnosci" (array (object [
              field "opis" string_;
              field "kodDzial" string_;
              field "kodKlasa" string_;
              field "kodPodklasa" string_]));
            optional "przedmiotPozostalejDzialalnosci" (array (object [
              field "opis" string_;
              field "kodDzial" string_;
              field "kodKlasa" string_;
              field "kodPodklasa" string_]))])])])])].

(** [interface CompanyData] *)
Definition CompanyData : value → bool :=
  object [
    field "name" string_;
    field "krs" string_;
    field "nip" (nullable string_);
    field "regon" (nullable string_);
    field "legalForm" string_;
    field "address" (object [
      field "city" string_;
      field "voivodeship" string_;
      field "street" string_;
      field "building" string_;
      field "unit" (nullable string_);
      field "postalCode" string_;
      field "country" string_]);
    field "capital" (nullable (object [
      field "value" string_;
      field "currency" string_]));
    field "shareholders" (array (object [
      field "name" string_;
      field "shares" string_]));
    field "representation" (object [
      field "organName" string_;
      field "method" string_;
      field "members" (array (object [
        field "name" string_;
        field "function" string_]))]);
    field "mainActivity" (array (object [
      field "code" string_;
      field "description" string_]));
    field "otherActivities" (array (object [
      field "code" string_;
      field "description" string_]));
    field "registrationDate" string_;
    field "lastUpdate" string_;
    field "dataTimestamp" string_].
End Types.

(** ** [formatCompanyAsText] *)

Module Text.
Import Js.

Section Format.
(** [Number(s) > 0] for a string [s]: the comparison [x.length > 0] comes to
    it when [x] is an object that has a property [length] of its own. *)
Variable positive : string → bool.

(** [v.length > 0] *)
Definition length_positive (v : value) : result bool :=
  match v with
  | JUndefined | JNull =>
      Throw (TypeError ("Cannot read properties of " +:+ typename v
                        +:+ " (reading 'length')"))
  | JArr [] => Ok false
  | JArr (_ :: _) => Ok true
  | JStr s => Ok (negb (bool_decide (s = "")))
  | JObj props =>
      match default JUndefined (own "length" props) with
      | JUndefined | JNull => Ok false
      | JBool b => Ok b
      | JNum n => Ok (0 <? n)
      | x => s ← ToString x; Ok (positive s)
      end
  | JBool _ | JNum _ => Ok false
  end.

(** A byte that continues a character in UTF-8. *)
Definition is_continuation (c : ascii) : bool :=
  let n := N_of_ascii c in (128 <=? n)%N && (n <? 192)%N.

(** The characters of a string, which is held in UTF-8. *)
Fixpoint code_points (s : string) : list string :=
  match s with
  | EmptyString => []
  | String c s' =>
      let rest := code_points s' in
      match s' with
      | String c' _ =>
          if is_continuation c'
          then match rest with
               | p :: ps => String c p :: ps
               | [] => [String c EmptyString]
               end
          else String c EmptyString :: rest
      | EmptyString => [String c EmptyString]
      end
  end.

(** What [for (const x of v)] goes through. *)
Definition iterate (what : string) (v : value) : result (list value) :=
  match v with
  | JArr elems => Ok elems
  | JStr s => Ok (JStr <$> code_points s)
  | _ => Throw (TypeError (what +:+ " is not iterable"))
  end.

(** An element of [Array.prototype.join]. *)
Definition join_element (v : value) : result string :=
  match v with
  | JUndefined | JNull => Ok EmptyString
  | _ => ToString v
  end.

(** [`   • ${x[first]} - ${x[second]}`] *)
Definition bullet (first second : string) (x : value) : result string :=
  a ← get x first;
  s1 ← ToString a;
  b ← get x second;
  s2 ← ToString b;
  Ok ("   • " +:+ s1 +:+ " - " +:+ s2).

(** [formatCompanyAsText(data)]; [lines] is threaded through the calls of
    [lines.push]. *)
Definition formatCompanyAsText (data : value) : result string :=
  name ← get data "name";
  name ← ToString name;
  let lines := ["=== " +:+ name +:+ " ==="; ""] in
  krs ← get data "krs";
  krs ← ToString krs;
  let lines := lines ++ ["KRS: " +:+ krs] in
  nip ← get data "nip";
  lines ←
    (if truthy nip
     then nip ← get data "nip"; nip ← ToString nip;
          Ok (lines ++ ["NIP: " +:+ nip])
     else Ok lines);
  regon ← get data "regon";
  lines ←
    (if truthy regon
     then regon ← get data "regon"; regon ← ToString regon;
          Ok (lines ++ ["REGON: " +:+ regon])
     else Ok lines);
  legalForm ← get data "legalForm";
  legalForm ← ToString legalForm;
  let lines := lines ++ ["Forma prawna: " +:+ legalForm; ""] in
  let lines := lines ++ ["📍 Adres:"] in
  addr ← get data "address";
  street ← get addr "street";
  building ← get addr "building";
  let addressParts := [street; building] in
  unit ← get addr "unit";
  addressParts ←
    (if truthy unit
     then unit ← get addr "unit"; unit ← ToString unit;
          Ok (addressParts ++ [JStr ("lok. " +:+ unit)])
     else Ok addressParts);
  parts ← mapM join_element addressParts;
  let lines := lines ++ ["   " +:+ join " " parts] in
  postalCode ← get addr "postalCode";
  postalCode ← ToString postalCode;
  city ← get addr "city";
  city ← ToString city;
  let lines := lines ++ ["   " +:+ postalCode +:+ " " +:+ city] in
  voivodeship ← get addr "voivodeship";
  voivodeship ← ToString voivodeship;
  country ← get addr "country";
  country ← ToString country;
  let lines := lines ++ ["   " +:+ voivodeship +:+ ", " +:+ country; ""] in
  capital ← get data "capital";
  lines ←
    (if truthy capital
     then capital ← get data "capital";
          value ← get capital "value";
          value ← ToString value;
          capital ← get data "capital";
          currency ← get capital "currency";
          currency ← ToString currency;
          Ok (lines ++ ["💰 Kapitał zakładowy: " +:+ value +:+ " "
                        +:+ currency; ""])
     else Ok lines);
  representation ← get data "representation";
  members ← get representation "members";
  some ← length_positive members;
  lines ←
    (if some : bool
     then representation ← get data "representation";
          organName ← get representation "organName";
          organName ← ToString organName;
          let lines := lines ++ ["👥 " +:+ organName +:+ ":"] in
          representation ← get data "representation";
          members ← get representation "members";
          members ← iterate "data.representation.members" members;
          bullets ← mapM (bullet "name" "function") members;
          Ok (lines ++ bullets ++ [""])
     else Ok lines);
  mainActivity ← get data "mainActivity";
  some ← length_positive mainActivity;
  lines ←
    (if some : bool
     then let lines := lines ++ ["🏭 Działalność przeważająca:"] in
          mainActivity ← get data "mainActivity";
          activities ← iterate "data.mainActivity" mainActivity;
          bullets ← mapM (bullet "code" "description") activities;
          Ok (lines ++ bullets ++ [""])
     else Ok lines);
  registrationDate ← get data "registrationDate";
  registrationDate ← ToString registrationDate;
  let lines := lines ++ ["📅 Data rejestracji: " +:+ registrationDate] in
  lastUpdate ← get data "lastUpdate";
  lastUpdate ← ToString lastUpdate;
  let lines := lines ++ ["📅 Stan na dzień: " +:+ lastUpdate] in
  Ok (join newline lines).
End Format.
End Text.

(** ** [hasUISupport] *)

Module Ui.
Import Js.

Definition UI_EXTENSION_ID : string := "io.modelcontextprotocol/ui".

(** [typeof v === "object"] *)
Definition typeof_object (v : value) : bool :=
  match v with
  | JNull | JArr _ | JObj _ => true
  | _ => false
  end.

(** [hasUISupport(clientCapabilities)] *)
Definition hasUISupport (clientCapabilities : value) : result bool :=
  if negb (truthy clientCapabilities)
     || negb (typeof_object clientCapabilities)
  then Ok false
  else
    extensions ← get clientCapabilities "extensions";
    if negb (truthy extensions) then Ok false
    else
      uiExtension ← get extensions UI_EXTENSION_ID;
      if negb (truthy uiExtension) then Ok false
      else
        mimeTypes ← get uiExtension "mimeTypes";
        match mimeTypes with
        | JArr elems =>
            Ok (existsb (λ x, value_eqb_str x Rpc.UI_MIME_TYPE) elems)
        | _ => Ok false
        end.
End Ui.

(** ** The widgets' handling of a tool result *)

Module Widget.
Import Js.

(** [v[0]] on a value that is not [null] or [undefined], and [v?.[0]] on
    any value.  (Of a string only the first character is kept whole; the
    handlers test no more than that there is one.) *)
Definition first (v : value) : value :=
  match v with
  | JArr (x :: _) => x
  | JStr s =>
      match Text.code_points s with
      | p :: _ => JStr p
      | [] => JUndefined
      end
  | JObj props => default JUndefined (own "0" props)
  | _ => JUndefined
  end.

(** [p in v], for a name [p] that is no array index and no member of a
    built-in prototype. *)
Definition has_property (p : string) (v : value) : result bool :=
  match v with
  | JObj props => Ok (bool_decide (is_Some (own p props)))
  | JArr _ => Ok false
  | _ => Throw (TypeError ("Cannot use 'in' operator to search for '"
                           +:+ p +:+ "'"))
  end.

(** [JSON.parse(v)]: the argument is converted to a string first. *)
Definition parse (v : value) : result value :=
  text ← ToString v;
  JSON_parse text.

(** The state of [CompanyCardWidget] that [ontoolresult] writes. *)
Record card := {
  data : value;
  loading : bool;
  error : value;
}.

(** [appInstance.ontoolresult] of the company card. *)
Definition ontoolresult (result : value) (st : card) : card :=
  let st := {| data := data st; loading := false; error := error st |} in
  match
    (structuredContent ← get result "structuredContent";
     if truthy structuredContent then
       structuredContent ← get result "structuredContent";
       Ok {| data := structuredContent; loading := false; error := JNull |}
     else
       content ← get result "content";
       if truthy (first content) then
         content ← get result "content";
         let firstContent := first content in
         type ← get firstContent "type";
         has_text ←
           (if value_eqb_str type "text"
            then has_property "text" firstContent else Ok false);
         if has_text : bool then
           isError ← get result "isError";
           if truthy isError then
             text ← get firstContent "text";
             Ok {| data := data st; loading := false; error := text |}
           else
             text ← get firstContent "text";
             parsed ← parse text;
             Ok {| data := parsed; loading := false; error := error st |}
         else Ok st
       else Ok st)
  with
  | Ok st' => st'
  | Throw _ =>
      {| data := data st; loading := false;
         error := JStr "Failed to parse company data" |}
  end.

(** [extractData(result)] of the widget template; [null] when nothing is
    found or something is thrown. *)
Definition extractData (result : value) : value :=
  let from_content : Js.result value :=
    content ← get result "content";
    if truthy (first content) then
      content ← get result "content";
      let firstContent := first content in
      type ← get firstContent "type";
      if value_eqb_str type "text" then
        text ← get firstContent "text";
        if truthy text then
          text ← get firstContent "text";
          parse text
        else Ok JNull
      else Ok JNull
    else Ok JNull in
  match
    (has ← has_property "structuredContent" result;
     if has : bool then
       structuredContent ← get result "structuredContent";
       if truthy structuredContent then get result "structuredContent"
       else from_content
     else from_content)
  with
  | Ok data => data
  | Throw _ => JNull
  end.
End Widget.

(** ** Requests over time *)

Module Traffic.
Import Js Http.

(** One request reaching the worker: what the OAuth provider would answer
    to it, the environment, the clock readings, the request and its
    path. *)
Record arrival := {
  oauth : Request → result Response;
  env : Env;
  now : Z;
  nowIso : string;
  request : Request;
  pathname : string;
}.

(** The server cache after the worker has answered [a]. *)
Definition serve (cache : LRU.LRUCache string Router.McpServer)
    (a : arrival) : LRU.LRUCache string Router.McpServer :=
  Router.cache_after
    (Router.fetch (oauth a) (env a) (now a) (nowIso a) (request a)
       (pathname a) cache).

(** The server cache of an isolate that has answered [arrivals] since it
    was loaded. *)
Definition serve_all (arrivals : list arrival)
    : LRU.LRUCache string Router.McpServer :=
  fold_left serve arrivals Router.serverCache.
End Traffic.

(** ** Sample payloads *)

Module Fixtures.
Import Js.

(** A payload with the required parts and nothing else. *)
Definition minimal : value :=
  JObj [("odpis", JObj [
    ("rodzaj", JStr "Aktualny");
    ("naglowekA", JObj [("numerKRS", JStr "0000000001");
                        ("dataRejestracjiWKRS", JStr "01.02.2003");
                        ("stanZDnia", JStr "04.05.2006")]);
    ("dane", JObj [("dzial1", JObj [
       ("danePodmiotu", JObj [("formaPrawna", JStr "SPÓŁKA");
                              ("nazwa", JStr "ACME")])])])])].

(** The minimal payload with a share capital added. *)
Definition with_capital (wartosc waluta : string) : value :=
  JObj [("odpis", JObj [
    ("rodzaj", JStr "Aktualny");
    ("naglowekA", JObj [("numerKRS", JStr "0000000001");
                        ("dataRejestracjiWKRS", JStr "01.02.2003");
                        ("stanZDnia", JStr "04.05.2006")]);
    ("dane", JObj [("dzial1", JObj [
       ("danePodmiotu", JObj [("formaPrawna", JStr "SPÓŁKA");
                              ("nazwa", JStr "ACME")]);
       ("kapital", JObj [("wysokoscKapitaluZakladowego", JObj [
          ("wartosc", JStr wartosc); ("waluta", JStr waluta)])])])])])].


(** The record [transformResponse] makes of a capital of [5000,00] PLN. *)
Definition record_5000 : value :=
  Eval vm_compute in
    match Krs.transformResponse "2026-01-01T00:00:00.000Z"
            (with_capital "5000,00" "PLN") with
    | Ok record => record
    | Throw _ => JUndefined
    end.

(** A payload with every part the interface requires, one shareholder, one
    board member and one activity. *)
Definition complete : value :=
  JObj [("odpis", JObj [
    ("rodzaj", JStr "Aktualny");
    ("naglowekA", JObj [("numerKRS", JStr "0000000001");
                        ("dataRejestracjiWKRS", JStr "01.02.2003");
                        ("stanZDnia", JStr "04.05.2006")]);
    ("dane", JObj [
       ("dzial1", JObj [
          ("danePodmiotu", JObj [
             ("formaPrawna", JStr "SPÓŁKA");
             ("identyfikatory", JObj [("nip", JStr "1234567890")]);
             ("nazwa", JStr "ACME")]);
          ("siedzibaIAdres", JObj [
             ("siedziba", JObj [("kraj", JStr "POLSKA");
                                ("wojewodztwo", JStr "MAZOWIECKIE");
                                ("miejscowosc", JStr "WARSZAWA")]);
             ("adres", JObj [("ulica", JStr "PROSTA");
                             ("nrDomu", JStr "1");
                             ("kodPocztowy", JStr "00-001")])]);
          ("kapital", JObj [("wysokoscKapitaluZakladowego", JObj [
             ("wartosc", JStr "5000,00"); ("waluta", JStr "PLN")])]);
          ("wspolnicySpzoo", JArr [JObj [
             ("nazwisko", JObj [("nazwisko", JStr "NOWAK")]);
             ("imiona", JObj [("imie", JStr "JAN")]);
             ("posiadaneUdzialy", JStr "100 UDZIAŁÓW")]])]);
       ("dzial2", JObj [("reprezentacja", JObj [
          ("nazwaOrganu", JStr "ZARZĄD");
          ("sposobReprezentacji", JStr "SAMODZIELNIE");
          ("sklad", JArr [JObj [
             ("nazwisko", JObj [("nazwisko", JStr "NOWAK")]);
             ("imiona", JObj [("imie", JStr "JAN")]);
             ("funkcjaWOrganie", JStr "PREZES")]])])]);
       ("dzial3", JObj [("przedmiotDzialalnosci", JObj [
          ("przedmiotPrzewazajacejDzialalnosci", JArr [JObj [
             ("opis", JStr "PROGRAMOWANIE");
             ("kodDzial", JStr "62"); ("kodKlasa", JStr "01");
             ("kodPodklasa", JStr "Z")]])])])])])].
End Fixtures.

(** * Properties *)

(** ** The JavaScript [Map] model *)

Module JsMapFacts.
Section JsMapFacts.
Context {K A : Type} `{EqDecision K}.
Implicit Types (m : list (K * A)) (k : K) (a : A).

Lemma get_None_keys m k : JsMap.get k m = None ↔ k ∉ JsMap.keys m.
Proof.
  induction m as [|[k' a'] m IH]; simpl.
  - split; [intros _; apply not_elem_of_nil | done].
  - rewrite not_elem_of_cons. destruct (decide (k = k')); naive_solver.
Qed.

Lemma get_Some_elem m k a : JsMap.get k m = Some a → (k, a) ∈ m.
Proof.
  induction m as [|[k' a'] m IH]; simpl; [done|].
  destruct (decide (k = k')) as [->|]; intros Hg.
  - injection Hg as ->. apply list_elem_of_here.
  - apply list_elem_of_further. auto.
Qed.

Lemma elem_get_Some m k a :
  NoDup (JsMap.keys m) → (k, a) ∈ m → JsMap.get k m = Some a.
Proof.
  induction m as [|[k' a'] m IH]; simpl; intros Hnd Hin.
  - by apply elem_of_nil in Hin.
  - apply NoDup_cons in Hnd as [Hk' Hnd].
    apply elem_of_cons in Hin as [Heq|Hin].
    + injection Heq as -> ->. by rewrite decide_True.
    + destruct (decide (k = k')) as [->|]; [|auto].
      exfalso. apply Hk'. apply (list_elem_of_fmap_2 fst) in Hin. done.
Qed.

Lemma keys_set_present m k a :
  k ∈ JsMap.keys m → JsMap.keys (JsMap.set k a m) = JsMap.keys m.
Proof.
  induction m as [|[k' a'] m IH]; simpl; intros Hin.
  - by apply elem_of_nil in Hin.
  - destruct (decide (k = k')) as [->|Hne]; simpl; [done|].
    apply elem_of_cons in Hin as [?|Hin]; [done|]. by rewrite IH.
Qed.

Lemma keys_set_absent m k a :
  k ∉ JsMap.keys m → JsMap.keys (JsMap.set k a m) = JsMap.keys m ++ [k].
Proof.
  induction m as [|[k' a'] m IH]; simpl; intros Hin; [done|].
  apply not_elem_of_cons in Hin as [Hne Hin].
  rewrite decide_False by done. simpl. by rewrite IH.
Qed.

Lemma get_set m k a k' :
  JsMap.get k' (JsMap.set k a m) =
  if decide (k' = k) then Some a else JsMap.get k' m.
Proof.
  induction m as [|[k0 a0] m IH]; simpl.
  - destruct (decide (k' = k)); done.
  - destruct (decide (k = k0)) as [->|Hne]; simpl.
    + destruct (decide (k' = k0)); done.
    + destruct (decide (k' = k0)) as [->|]; [|done].
      by rewrite decide_False.
Qed.

Lemma keys_delete_sub m k k' :
  k' ∈ JsMap.keys (JsMap.delete k m) → k' ∈ JsMap.keys m.
Proof.
  induction m as [|[k0 a0] m IH]; simpl; [done|].
  destruct (decide (k = k0)); simpl.
  - apply list_elem_of_further.
  - rewrite !elem_of_cons. naive_solver.
Qed.

Lemma NoDup_delete m k :
  NoDup (JsMap.keys m) → NoDup (JsMap.keys (JsMap.delete k m)).
Proof.
  induction m as [|[k0 a0] m IH]; simpl; [done|].
  intros [Hk0 Hnd]%NoDup_cons. destruct (decide (k = k0)); simpl; [done|].
  apply NoDup_cons. split; [|auto].
  intros Hin. apply Hk0. by apply keys_delete_sub in Hin.
Qed.

Lemma get_delete m k k' :
  NoDup (JsMap.keys m) →
  JsMap.get k' (JsMap.delete k m) =
  if decide (k' = k) then None else JsMap.get k' m.
Proof.
  induction m as [|[k0 a0] m IH]; simpl; intros Hnd.
  - by destruct (decide (k' = k)).
  - apply NoDup_cons in Hnd as [Hk0 Hnd].
    destruct (decide (k = k0)) as [->|Hne]; simpl.
    + destruct (decide (k' = k0)) as [->|]; [|done].
      by apply get_None_keys.
    + rewrite IH by done.
      destruct (decide (k' = k0)) as [->|]; [|done].
      by rewrite decide_False.
Qed.

Lemma size_delete m k :
  k ∈ JsMap.keys m → JsMap.size (JsMap.delete k m) = JsMap.size m - 1.
Proof.
  unfold JsMap.size.
  induction m as [|[k0 a0] m IH]; simpl; intros Hin.
  - by apply elem_of_nil in Hin.
  - destruct (decide (k = k0)) as [->|Hne]; simpl; [lia|].
    apply elem_of_cons in Hin as [?|Hin]; [done|].
    specialize (IH Hin). lia.
Qed.

Lemma size_keys m : JsMap.size m = Z.of_nat (length (JsMap.keys m)).
Proof. unfold JsMap.size, JsMap.keys. by rewrite length_fmap. Qed.

Lemma has_true m k : JsMap.has k m = true ↔ k ∈ JsMap.keys m.
Proof.
  unfold JsMap.has. destruct (JsMap.get k m) as [a|] eqn:Hg.
  - split; [intros _|done].
    apply get_Some_elem, (list_elem_of_fmap_2 fst) in Hg. done.
  - apply get_None_keys in Hg. split; [done|]. intros; contradiction.
Qed.

Lemma has_false m k : JsMap.has k m = false ↔ k ∉ JsMap.keys m.
Proof.
  rewrite <-has_true. destruct (JsMap.has k m); naive_solver.
Qed.
End JsMapFacts.
End JsMapFacts.

(** ** The identity cache *)

Module LRUFacts.
Import JsMapFacts.

Section LRUFacts.
Context {K V : Type} `{EqDecision K}.
Variable String_ : K → string.
Local Abbreviation LRUCache := (LRU.LRUCache K V).
Local Abbreviation entry := (LRU.entry V).
Local Abbreviation inv := (@LRU.inv K V).
Implicit Types (c : LRUCache) (es : list (K * entry)).

(** What the scan of [evictLRU] has found when it ends: nothing, if and
    only if it started from nothing and saw no entry; otherwise a key whose
    time is at most the time of every entry scanned. *)
Lemma scan_spec es (oldestKey : option K) (oldestTime : option Z) :
  match LRU.scan es oldestKey oldestTime with
  | (found, None) => es = [] ∧ oldestTime = None ∧ found = oldestKey
  | (found, Some t) =>
      (∀ k e, (k, e) ∈ es → t ≤ LRU.lastAccessed e) ∧
      (∀ t0, oldestTime = Some t0 → t ≤ t0) ∧
      ((found = oldestKey ∧ oldestTime = Some t) ∨
       (∃ k e, found = Some k ∧ (k, e) ∈ es ∧ LRU.lastAccessed e = t))
  end.
Proof.
  revert oldestKey oldestTime.
  induction es as [|[k e] es IH]; intros oldestKey oldestTime; simpl.
  - destruct oldestTime as [t0|]; [|done].
    split; [intros ? ? []%elem_of_nil|].
    split; [by intros ? [= ->]|]. by left.
  - destruct (LRU.older (LRU.lastAccessed e) oldestTime) eqn:Hold.
    + specialize (IH (Some k) (Some (LRU.lastAccessed e))).
      destruct (LRU.scan es _ _) as [found [t|]]; [|by destruct IH as (_ & ? & _)].
      destruct IH as (Hmin & Hle & Hfound).
      specialize (Hle _ eq_refl).
      split; [|split].
      * intros k' e' [[= -> ->]|Hin]%elem_of_cons; [done|eauto].
      * intros t0 ->. simpl in Hold. lia.
      * right. destruct Hfound as [[-> [= <-]]|(k' & e' & -> & Hin & Ht)].
        -- exists k, e. split_and!; [done|apply list_elem_of_here|done].
        -- exists k', e'. split_and!; [done|by apply list_elem_of_further|done].
    + destruct oldestTime as [t0|]; [|done]. simpl in Hold.
      specialize (IH oldestKey (Some t0)).
      destruct (LRU.scan es _ _) as [found [t|]]; [|by destruct IH as (_ & ? & _)].
      destruct IH as (Hmin & Hle & Hfound).
      specialize (Hle _ eq_refl).
      split; [|split].
      * intros k' e' [[= -> ->]|Hin]%elem_of_cons; [lia|eauto].
      * by intros ? [= <-].
      * destruct Hfound as [[-> [= <-]]|(k' & e' & -> & Hin & Ht)].
        -- left. done.
        -- right. exists k', e'.
           split_and!; [done|by apply list_elem_of_further|done].
Qed.

(** On a cache with an entry, the scan selects an entry of least time. *)
Lemma scan_oldest es :
  es ≠ [] →
  ∃ k e, fst (LRU.scan es None None) = Some k ∧ (k, e) ∈ es ∧
         ∀ k' e', (k', e') ∈ es → LRU.lastAccessed e ≤ LRU.lastAccessed e'.
Proof.
  intros Hne. pose proof (scan_spec es None None) as Hs.
  destruct (LRU.scan es None None) as [found [t|]]; simpl.
  - destruct Hs as (Hmin & _ & [[_ [=]]|(k & e & -> & Hin & <-)]).
    exists k, e. eauto.
  - by destruct Hs as [-> _].
Qed.

Lemma scan_empty : fst (LRU.scan (@nil (K * entry)) None None) = None.
Proof. done. Qed.

Lemma inv_new N : 0 ≤ N → inv N (LRU.new N).
Proof.
  intros HN. split_and!; [done|apply NoDup_nil_2|].
  unfold LRU.size, JsMap.size. simpl. lia.
Qed.

Lemma size_set_present c key (e : entry) :
  key ∈ JsMap.keys (LRU.cache c) →
  JsMap.size (JsMap.set key e (LRU.cache c)) = LRU.size c.
Proof.
  intros Hin. unfold LRU.size. rewrite !size_keys.
  by rewrite keys_set_present.
Qed.

Lemma size_set_absent es key (e : entry) :
  key ∉ JsMap.keys es →
  JsMap.size (JsMap.set key e es) = JsMap.size es + 1.
Proof.
  intros Hin. rewrite !size_keys, keys_set_absent, length_app by done.
  simpl. lia.
Qed.

Lemma NoDup_set es key (e : entry) :
  NoDup (JsMap.keys es) → NoDup (JsMap.keys (JsMap.set key e es)).
Proof.
  intros Hnd. destruct (decide (key ∈ JsMap.keys es)) as [Hin|Hin].
  - by rewrite keys_set_present.
  - rewrite keys_set_absent by done. apply NoDup_app. split_and!; [done| |].
    + intros k Hk ->%list_elem_of_singleton. done.
    + apply NoDup_singleton.
Qed.

Lemma inv_get N c key now : inv N c → inv N (snd (LRU.get key now c)).
Proof.
  intros (Hmax & Hnd & Hsz). unfold LRU.get.
  destruct (JsMap.get key (LRU.cache c)) as [e|] eqn:Hg; simpl; [|done].
  assert (key ∈ JsMap.keys (LRU.cache c)) as Hin.
  { apply get_Some_elem, (list_elem_of_fmap_2 fst) in Hg. done. }
  split_and!; [done|by apply NoDup_set|].
  unfold LRU.size. simpl. by rewrite size_set_present.
Qed.

(** The two ways [set] goes: with an eviction (the cache is full and the
    key is new), or without. *)
Lemma set_evicting c key v now :
  (LRU.maxSize c <=? LRU.size c) && negb (LRU.has key c) = true →
  LRU.set String_ key v now c =
  let '(c1, log) := LRU.evictLRU String_ c in
  (LRU.with_cache c1
     (JsMap.set key {| LRU.value := v; LRU.lastAccessed := now |}
        (LRU.cache c1)), log).
Proof. intros Hc. unfold LRU.set. by rewrite Hc. Qed.

Lemma set_plain c key v now :
  (LRU.maxSize c <=? LRU.size c) && negb (LRU.has key c) = false →
  LRU.set String_ key v now c =
  (LRU.with_cache c
     (JsMap.set key {| LRU.value := v; LRU.lastAccessed := now |}
        (LRU.cache c)), []).
Proof. intros Hc. unfold LRU.set. by rewrite Hc. Qed.

Lemma inv_set N c key v now :
  1 ≤ N → inv N c → inv N (fst (LRU.set String_ key v now c)).
Proof.
  intros HN (Hmax & Hnd & Hsz).
  destruct ((LRU.maxSize c <=? LRU.size c) && negb (LRU.has key c)) eqn:Hc.
  - rewrite set_evicting by done.
    apply andb_true_iff in Hc as [Hfull Hnew].
    apply Z.leb_le in Hfull. apply negb_true_iff, has_false in Hnew.
    assert (LRU.cache c ≠ []) as Hne.
    { intros Heq. unfold LRU.size in *. rewrite Heq in *.
      unfold JsMap.size in *. simpl in *. lia. }
    destruct (scan_oldest _ Hne) as (k & e & Hk & Hin & _).
    unfold LRU.evictLRU. rewrite Hk. simpl.
    assert (k ∈ JsMap.keys (LRU.cache c)) as Hkin.
    { by apply (list_elem_of_fmap_2 fst) in Hin. }
    assert (key ∉ JsMap.keys (JsMap.delete k (LRU.cache c))) as Hnew'.
    { intros Hin'. by apply keys_delete_sub in Hin'. }
    split_and!; [done|by apply NoDup_set, NoDup_delete|].
    unfold LRU.size in *. simpl.
    rewrite size_set_absent, size_delete by done. lia.
  - rewrite set_plain by done. simpl.
    split_and!; [done|by apply NoDup_set|].
    unfold LRU.size in *. simpl.
    apply andb_false_iff in Hc as [Hroom|Hhas].
    + apply Z.leb_gt in Hroom.
      destruct (decide (key ∈ JsMap.keys (LRU.cache c))).
      * rewrite size_set_present by done. done.
      * rewrite size_set_absent by done. lia.
    + apply negb_false_iff, has_true in Hhas.
      by rewrite size_set_present.
Qed.


Lemma NoDup_run ops c :
  NoDup (JsMap.keys (LRU.cache c)) →
  NoDup (JsMap.keys (LRU.cache (LRU.run String_ ops c))).
Proof.
  revert c. unfold LRU.run.
  induction ops as [|[key now|key v now] ops IH]; intros c Hnd; simpl;
    [done| |]; apply IH.
  - unfold LRU.get. destruct (JsMap.get key (LRU.cache c)); simpl; [|done].
    by apply NoDup_set.
  - unfold LRU.set, LRU.evictLRU.
    destruct ((LRU.maxSize c <=? LRU.size c) && negb (LRU.has key c));
      [|by apply NoDup_set].
    destruct (fst (LRU.scan (LRU.cache c) None None)); simpl.
    + by apply NoDup_set, NoDup_delete.
    + by apply NoDup_set.
Qed.

(** What a call of [set] removes and logs, on a cache with distinct keys:
    nothing; or the entry the scan selected, which has the least time, with
    one log record that names it and carries the size before the removal. *)
Lemma set_effect c key v now :
  NoDup (JsMap.keys (LRU.cache c)) →
  let r := LRU.set String_ key v now c in
  (snd r = [] ∧
   (∀ k, LRU.has k c = true → LRU.has k (fst r) = true) ∧
   LRU.size c ≤ LRU.size (fst r)) ∨
  (∃ k e,
     JsMap.get k (LRU.cache c) = Some e ∧
     (∀ k' e', JsMap.get k' (LRU.cache c) = Some e' →
               LRU.lastAccessed e ≤ LRU.lastAccessed e') ∧
     (∀ k', LRU.has k' (fst r) = false → LRU.has k' c = true → k' = k) ∧
     LRU.has k (fst r) = false ∧
     snd r = [ {| LRU.evicted_user_id := String_ k;
                  LRU.cache_size := LRU.size c |} ] ∧
     LRU.size (fst (LRU.evictLRU String_ c)) = LRU.size c - 1 ∧
     LRU.size (fst r) = LRU.size c).
Proof.
  intros Hnd r. subst r.
  destruct ((LRU.maxSize c <=? LRU.size c) && negb (LRU.has key c)) eqn:Hc.
  - rewrite set_evicting by done.
    apply andb_true_iff in Hc as [Hfull Hnew].
    apply negb_true_iff in Hnew. pose proof Hnew as Hnew'.
    apply has_false in Hnew'.
    destruct (LRU.cache c) as [|x es] eqn:Hes.
    + left. unfold LRU.evictLRU. rewrite Hes. simpl.
      split_and!; [done| |].
      * intros k Hk. unfold LRU.has in Hk. by rewrite Hes in Hk.
      * unfold LRU.size, JsMap.size. rewrite Hes. simpl. lia.
    + right. rewrite <-Hes in *.
      assert (LRU.cache c ≠ []) as Hne by (by rewrite Hes).
      destruct (scan_oldest _ Hne) as (k & e & Hk & Hin & Hmin).
      assert (k ∈ JsMap.keys (LRU.cache c)) as Hkin.
      { by apply (list_elem_of_fmap_2 fst) in Hin. }
      assert (k ≠ key) as Hkey by (by intros ->).
      exists k, e. unfold LRU.evictLRU. rewrite Hk. simpl.
      split_and!.
      * by apply elem_get_Some.
      * intros k' e' Hg. apply (Hmin k'). by apply get_Some_elem.
      * intros k' Hgone Hwas. unfold LRU.has, JsMap.has in *. simpl in Hgone.
        rewrite get_set, get_delete in Hgone by done.
        destruct (decide (k' = key)); [done|].
        destruct (decide (k' = k)); [done|].
        by destruct (JsMap.get k' (LRU.cache c)).
      * unfold LRU.has, JsMap.has. simpl.
        rewrite get_set, get_delete by done.
        by rewrite decide_False, decide_True.
      * done.
      * unfold LRU.size. simpl. by apply size_delete.
      * unfold LRU.size. simpl.
        rewrite size_set_absent, size_delete; [lia|done|].
        intros Hin'. by apply keys_delete_sub in Hin'.
  - left. rewrite set_plain by done. simpl. split_and!; [done| |].
    + intros k. unfold LRU.has, JsMap.has. simpl. rewrite get_set.
      by destruct (decide (k = key)).
    + unfold LRU.size. simpl.
      destruct (decide (key ∈ JsMap.keys (LRU.cache c))).
      * by rewrite size_set_present.
      * rewrite size_set_absent by done. lia.
Qed.
End LRUFacts.



(** With capacity zero nothing can be evicted before the first insertion,
    so the cache holds one entry. *)
Remark lru_capacity_zero :
  LRU.size (fst (LRU.set id "a" 1%nat 10 (LRU.new 0))) = 1.
Proof. reflexivity. Qed.

(** The run behind the C1 witness evicts [a], the entry of least time. *)
Example lru_evicts_a :
  LRU.set id "c" 3%nat 30
    (LRU.run id [LRU.Set_ "a" 1%nat 10; LRU.Set_ "b" 2%nat 20] (LRU.new 2)) =
  ({| LRU.cache := [("b", {| LRU.value := 2%nat; LRU.lastAccessed := 20 |});
                    ("c", {| LRU.value := 3%nat; LRU.lastAccessed := 30 |})];
      LRU.maxSize := 2 |},
   [ {| LRU.evicted_user_id := "a"; LRU.cache_size := 2 |} ]).
Proof. reflexivity. Qed.

(** A [get] refreshes: after [a] is read at time 30, [b] is the oldest. *)
Example lru_get_refreshes :
  snd (LRU.set id "c" 3%nat 40
         (LRU.run id [LRU.Set_ "a" 1%nat 10; LRU.Set_ "b" 2%nat 20;
                      LRU.Get "a" 30] (LRU.new 2))) =
  [ {| LRU.evicted_user_id := "b"; LRU.cache_size := 2 |} ].
Proof. reflexivity. Qed.

(** Entries touched within the same millisecond tie; the one inserted
    first goes, whichever was touched last. *)
Example lru_tie_evicts_first_inserted :
  snd (LRU.set id "c" 3%nat 6
         (LRU.run id [LRU.Set_ "a" 1%nat 5; LRU.Set_ "b" 2%nat 5;
                      LRU.Get "a" 5] (LRU.new 2))) =
  [ {| LRU.evicted_user_id := "a"; LRU.cache_size := 2 |} ].
Proof. reflexivity. Qed.

(** C9, as stated, fails: a full cache of capacity one that evicts [a] logs
    [cache_size] 1, the size before the removal, while the cache holds no
    entry once [a] is removed. *)
Lemma eviction_logs_size_before_removal :
  let c := LRU.run id [LRU.Set_ "a" 1%nat 10] (LRU.new 1) in
  snd (LRU.evictLRU id c) =
    [ {| LRU.evicted_user_id := "a"; LRU.cache_size := 1 |} ] ∧
  LRU.size (fst (LRU.evictLRU id c)) = 0.
Proof. split; reflexivity. Qed.

(** C9 (amended).  After any sequence of calls, a [set] either removes
    nothing and logs nothing, or removes exactly one entry and logs exactly
    one record, which carries that entry's key and the size of the cache
    before the removal: one more than the size once the entry is removed,
    and equal to the size when [set] returns.  ([evictLRU] is a total
    function: it always returns.) *)
Theorem eviction_notification {K V : Type} `{EqDecision K}
    (String_ : K → string) (N : Z) (ops : list (LRU.op K V))
    (key : K) (v : V) (now : Z) :
  let c := LRU.run String_ ops (LRU.new N) in
  let r := LRU.set String_ key v now c in
  (snd r = [] ∧ ∀ k, LRU.has k c = true → LRU.has k (fst r) = true) ∨
  (∃ k, LRU.has k c = true ∧ LRU.has k (fst r) = false ∧
        (∀ k', LRU.has k' (fst r) = false → LRU.has k' c = true → k' = k) ∧
        snd r = [ {| LRU.evicted_user_id := String_ k;
                     LRU.cache_size := LRU.size c |} ] ∧
        LRU.size (fst (LRU.evictLRU String_ c)) = LRU.size c - 1 ∧
        LRU.size (fst r) = LRU.size c).
Proof.
  intros c r.
  assert (NoDup (JsMap.keys (LRU.cache c))) as Hnd.
  { apply NoDup_run. apply NoDup_nil_2. }
  destruct (set_effect String_ c key v now Hnd)
    as [(Hlog & Hkeep & _)|(k & e & Hk & _ & Honly & Hgone & Hlog & Hsz)].
  - left. done.
  - right. exists k. split_and!; try done.
    + unfold LRU.has, JsMap.has. by rewrite Hk.
    + apply Hsz.
    + apply Hsz.
Qed.
End LRUFacts.

(** ** Strings *)

Module StringFacts.
Import Js.

Lemma replace_unfold pattern replacement s :
  replace pattern replacement s =
  if String.prefix pattern s
  then replacement +:+ drop_chars (String.length pattern) s
  else match s with
       | EmptyString => EmptyString
       | String c s' => String c (replace pattern replacement s')
       end.
Proof. by destruct s. Qed.

Lemma includes_unfold s pattern :
  includes s pattern =
  if String.prefix pattern s then true
  else match s with
       | EmptyString => false
       | String _ s' => includes s' pattern
       end.
Proof. by destruct s. Qed.


Lemma prefix_empty s : String.prefix "" s = true.
Proof. by destruct s. Qed.

Lemma includes_count c s :
  includes s (String c EmptyString) = false ↔ count_char c s = 0%nat.
Proof.
  induction s as [|c' s IH]; [done|].
  rewrite includes_unfold. cbn [String.prefix count_char].
  destruct (ascii_dec c c') as [->|Hne].
  - rewrite prefix_empty, decide_True by done. done.
  - rewrite decide_False by done. done.
Qed.

(** [replace] with a one-character pattern removes one occurrence. *)
Lemma count_replace c d s :
  d ≠ c →
  count_char c (replace (String c EmptyString) (String d EmptyString) s) =
  Nat.pred (count_char c s).
Proof.
  intros Hd. induction s as [|c' s IH]; [done|].
  rewrite replace_unfold. cbn [String.prefix count_char].
  destruct (ascii_dec c c') as [->|Hne].
  - rewrite prefix_empty, decide_True by done. simpl.
    by rewrite decide_False.
  - cbn [count_char]. by rewrite decide_False.
Qed.

Lemma prefix_app p s : String.prefix p (p +:+ s) = true.
Proof.
  induction p as [|c p IH]; simpl; [apply prefix_empty|].
  by destruct (ascii_dec c c).
Qed.

Lemma drop_chars_app p s : drop_chars (String.length p) (p +:+ s) = s.
Proof. induction p as [|c p IH]; simpl; done. Qed.

End StringFacts.

(** ** Lane selection and authentication *)

Module RouterFacts.
Import Js Http StringFacts LRUFacts.




(** A token that contains [Bearer ] further in loses that occurrence on
    the way to validation. *)
Remark inner_bearer_is_stripped :
  Router.extractApiKey (Some "wtyk_Bearer x") = Some "wtyk_x".
Proof. reflexivity. Qed.

(** C7.  When the [Authorization] header is missing, or nothing is left of
    it once the scheme prefix is removed, or [validateApiKey] answers
    [null], the handler answers 401 with one of its two messages; the
    answer and the log do not depend on the server cache, which is returned
    as it was received. *)
Theorem unauthorized_leaves_cache (env : Env) (now : Z) (nowIso : string)
    (request : Request) (pathname : string) :
  authorization request = None ∨
  Router.extractApiKey (authorization request) = Some "" ∨
  (∃ apiKey, Router.extractApiKey (authorization request) = Some apiKey ∧
             validateApiKey env apiKey = Ok None) →
  ∃ response log,
    status response = 401 ∧
    (response = Rpc.jsonError "Missing Authorization header" 401 ∨
     response = Rpc.jsonError "Invalid or expired API key" 401) ∧
    ∀ cache,
      Router.handleApiKeyRequest env now nowIso request pathname cache =
      {| Router.response := response; Router.cache_after := cache;
         Router.log := log |}.
Proof.
  intros Hcases. unfold Router.handleApiKeyRequest.
  destruct Hcases as [Hnone|[Hempty|(apiKey & Hkey & Hinvalid)]].
  - rewrite Hnone. simpl. eexists _, _. split_and!; [|by left|done]. done.
  - rewrite Hempty. simpl. eexists _, _. split_and!; [|by left|done]. done.
  - rewrite Hkey. case_bool_decide.
    + eexists _, _. split_and!; [|by left|done]. done.
    + unfold Router.validate. rewrite Hinvalid. simpl.
      eexists _, _. split_and!; [|by right|done]. done.
Qed.

Lemma unauthorized_leaves_cache_witness :
  let env := {| validateApiKey := λ _, Ok None;
                loadHtml := λ _, Ok "<html></html>" |} in
  let request := {| authorization := Some "Bearer wtyk_revoked";
                    json := Ok JNull |} in
  ∃ response log,
    status response = 401 ∧
    (response = Rpc.jsonError "Missing Authorization header" 401 ∨
     response = Rpc.jsonError "Invalid or expired API key" 401) ∧
    ∀ cache,
      Router.handleApiKeyRequest env 0 "2026-01-01T00:00:00.000Z" request
        "/mcp" cache =
      {| Router.response := response; Router.cache_after := cache;
         Router.log := log |}.
Proof.
  apply (unauthorized_leaves_cache
           {| validateApiKey := λ _, Ok None;
              loadHtml := λ _, Ok "<html></html>" |}).
  right. right. exists "wtyk_revoked". split; reflexivity.
Defined.

(** An invalid token, in full: the answer, the cache, the log. *)
Example invalid_token :
  Router.handleApiKeyRequest
    {| validateApiKey := λ _, Ok None; loadHtml := λ _, Ok "" |}
    0 "2026-01-01T00:00:00.000Z"
    {| authorization := Some "Bearer wtyk_revoked"; json := Ok JNull |}
    "/mcp" Router.serverCache =
  {| Router.response :=
       {| status := 401;
          body := Some (sq "{'error':'Invalid or expired API key'}") |};
     Router.cache_after := Router.serverCache;
     Router.log :=
       [ {| level := "warn";
            fields := JObj [("event", JStr "auth_attempt");
                            ("method", JStr "api_key");
                            ("success", JBool false);
                            ("reason", JStr "Invalid or expired API key")] |} ]
  |}.
Proof. reflexivity. Qed.

(** The same requests with an accepted key do reach the cache. *)
Example authorized_reaches_cache :
  let env := {| validateApiKey := λ _, Ok (Some ("u1", "u1@example.com"));
                loadHtml := λ _, Ok "<html></html>" |} in
  let request := {| authorization := Some "Bearer wtyk_valid";
                    json := Ok JNull |} in
  LRU.has "u1"
    (Router.cache_after
       (Router.handleApiKeyRequest env 0 "2026-01-01T00:00:00.000Z"
          request "/mcp" Router.serverCache)) = true.
Proof. reflexivity. Qed.

(** Every request leaves the server cache within its capacity and with at
    most one server per user. *)
Lemma handleApiKeyRequest_inv env now nowIso request pathname cache :
  LRU.inv Router.MAX_CACHED_SERVERS cache →
  LRU.inv Router.MAX_CACHED_SERVERS
    (Router.cache_after
       (Router.handleApiKeyRequest env now nowIso request pathname cache)).
Proof.
  intros Hinv. unfold Router.handleApiKeyRequest.
  destruct (Router.extractApiKey _) as [apiKey|]; [|done].
  case_bool_decide; [done|]. unfold Router.validate.
  destruct (validateApiKey env apiKey) as [[[userId email]|]|error];
    [|done|done].
  unfold Router.validated, Router.getOrCreateServer.
  pose proof (inv_get _ cache userId now Hinv) as Hget.
  destruct (LRU.get userId now cache) as [[cached|] cache'] eqn:Hg;
    simpl in Hget; [done|].
  pose proof (inv_set id Router.MAX_CACHED_SERVERS cache' userId
                {| Router.server_name := Rpc.SERVER_NAME;
                   Router.server_version := Rpc.SERVER_VERSION;
                   Router.resources := [Rpc.widget_uri];
                   Router.tools := ["example-tool"];
                   Router.bound_user := userId |} now
                ltac:(done) Hget) as Hset.
  by destruct (LRU.set id userId _ now cache').
Qed.
End RouterFacts.

(** ** The dispatcher *)

Module RpcFacts.
Import Js Http.

Lemma get_object props p :
  get (JObj props) p = Ok (default JUndefined (own p props)).
Proof. done. Qed.

(** On a value that is not [null] or [undefined], [v.p] is [v?.p]. *)
Lemma get_opt_get v p : nullish v = false → get v p = Ok (opt_get v p).
Proof. by destruct v. Qed.

Lemma or_object_not_nullish v : nullish (or_ v (JObj [])) = false.
Proof. unfold or_. destruct (truthy v) eqn:Hv; [by destruct v|done]. Qed.

(** A request that parses to an object whose marker is not the string
    [2.0] is answered with -32600 and the request's id. *)
Lemma invalid_marker env nowIso userId auth props :
  own "jsonrpc" props ≠ Some (JStr "2.0") →
  Rpc.handleHTTPTransport env nowIso userId
    {| authorization := auth; json := Ok (JObj props) |} =
  Rpc.jsonRpcResponse (default JUndefined (own "id" props)) JNull
    (Some (-32600, "Invalid Request")).
Proof.
  intros Hm. unfold Rpc.handleHTTPTransport, Rpc.dispatch. simpl.
  destruct (own "jsonrpc" props) as [[| | | |s| |]|]; simpl; try done.
  case_bool_decide; [congruence|done].
Qed.

Lemma method_not_found env nowIso userId auth props method :
  own "jsonrpc" props = Some (JStr "2.0") →
  own "method" props = Some (JStr method) →
  method ∉ Rpc.supported_methods →
  Rpc.handleHTTPTransport env nowIso userId
    {| authorization := auth; json := Ok (JObj props) |} =
  Rpc.jsonRpcResponse (default JUndefined (own "id" props)) JNull
    (Some (-32601, "Method not found: " +:+ method)).
Proof.
  intros Hj Hm Hnot. unfold Rpc.handleHTTPTransport, Rpc.dispatch. simpl.
  rewrite Hj, Hm. simpl.
  unfold Rpc.supported_methods in Hnot.
  repeat (apply not_elem_of_cons in Hnot as [? Hnot]).
  rewrite !bool_decide_eq_false_2 by done. done.
Qed.

(** What the dispatcher answers is decided by the [try] block: its
    response, or the parse error built from what it threw. *)
Lemma transport_cases env nowIso userId request :
  match Rpc.dispatch env nowIso userId (json request) with
  | Ok response =>
      Rpc.handleHTTPTransport env nowIso userId request = response
  | Throw error =>
      Rpc.handleHTTPTransport env nowIso userId request =
      Rpc.parse_error error
  end.
Proof.
  unfold Rpc.handleHTTPTransport.
  by destruct (Rpc.dispatch env nowIso userId (json request)).
Qed.

(** A body that [request.json()] rejects is answered with -32700 and the
    id [error]. *)
Lemma unparsable_body env nowIso userId auth error :
  Rpc.handleHTTPTransport env nowIso userId
    {| authorization := auth; json := Throw error |} =
  Rpc.jsonRpcResponse (JStr "error") JNull
    (Some (-32700, "Parse error: " +:+ exn_message error)).
Proof. done. Qed.

(** C4.  A request object with marker [1.0] and method [ping] is answered
    with error -32600; one with marker [2.0] and a method outside the
    supported set with error -32601 and the message [Method not found: ]
    followed by the method; and the three bodies of the specification give
    the three response texts below, the last one exactly
    [{"jsonrpc":"2.0","id":3,"result":{}}]. *)
Theorem dispatcher_examples (env : Env) (nowIso userId : string)
    (auth : option string) :
  (∀ props,
     own "jsonrpc" props = Some (JStr "1.0") →
     own "method" props = Some (JStr "ping") →
     Rpc.handleHTTPTransport env nowIso userId
       {| authorization := auth; json := Ok (JObj props) |} =
     Rpc.jsonRpcResponse (default JUndefined (own "id" props)) JNull
       (Some (-32600, "Invalid Request"))) ∧
  (∀ props method,
     own "jsonrpc" props = Some (JStr "2.0") →
     own "method" props = Some (JStr method) →
     method ∉ Rpc.supported_methods →
     Rpc.handleHTTPTransport env nowIso userId
       {| authorization := auth; json := Ok (JObj props) |} =
     Rpc.jsonRpcResponse (default JUndefined (own "id" props)) JNull
       (Some (-32601, "Method not found: " +:+ method))) ∧
  Rpc.handleHTTPTransport env nowIso userId
    {| authorization := auth;
       json := JSON_parse (sq "{'jsonrpc':'1.0', 'id':1, 'method':'ping'}") |} =
  {| status := 200;
     body := Some (sq "{'jsonrpc':'2.0','id':1,'error':{'code':-32600,'message':'Invalid Request'}}") |} ∧
  Rpc.handleHTTPTransport env nowIso userId
    {| authorization := auth;
       json := JSON_parse (sq "{'jsonrpc':'2.0','id':2,'method':'no-such-method'}") |} =
  {| status := 200;
     body := Some (sq "{'jsonrpc':'2.0','id':2,'error':{'code':-32601,'message':'Method not found: no-such-method'}}") |} ∧
  Rpc.handleHTTPTransport env nowIso userId
    {| authorization := auth;
       json := JSON_parse (sq "{'jsonrpc':'2.0','id':3,'method':'ping'}") |} =
  {| status := 200; body := Some (sq "{'jsonrpc':'2.0','id':3,'result':{}}") |}.
Proof.
  split_and!.
  - intros props Hj Hm. apply invalid_marker. by rewrite Hj.
  - intros props method. apply method_not_found.
  - reflexivity.
  - reflexivity.
  - reflexivity.
Qed.

Lemma dispatcher_examples_witness :
  let env := {| validateApiKey := λ _, Ok None;
                loadHtml := λ _, Ok "<html></html>" |} in
  Rpc.handleHTTPTransport env "2026-01-01T00:00:00.000Z" "u1"
    {| authorization := None;
       json := Ok (JObj [("jsonrpc", JStr "1.0"); ("id", JStr "a");
                         ("method", JStr "ping")]) |} =
  Rpc.jsonRpcResponse (JStr "a") JNull (Some (-32600, "Invalid Request")) ∧
  Rpc.handleHTTPTransport env "2026-01-01T00:00:00.000Z" "u1"
    {| authorization := None;
       json := Ok (JObj [("jsonrpc", JStr "2.0"); ("id", JNum 5);
                         ("method", JStr "tools/run")]) |} =
  Rpc.jsonRpcResponse (JNum 5) JNull
    (Some (-32601, "Method not found: tools/run")).
Proof.
  intros env.
  pose proof (dispatcher_examples env "2026-01-01T00:00:00.000Z" "u1" None)
    as (H1 & H2 & _).
  split.
  - apply (H1 [("jsonrpc", JStr "1.0"); ("id", JStr "a");
               ("method", JStr "ping")]); reflexivity.
  - apply (H2 [("jsonrpc", JStr "2.0"); ("id", JNum 5);
               ("method", JStr "tools/run")] "tools/run");
      [reflexivity|reflexivity|].
    unfold Rpc.supported_methods.
    repeat (apply not_elem_of_cons; split; [done|]). apply not_elem_of_nil.
Defined.

(** C5 fails on the code: two requests whose bodies parse and carry the
    marker [2.0], an id and a supported method are answered with -32700
    and the id [error], because the handler of the method throws: the
    first while it formats the name of an unknown tool, the second because
    the widget asset cannot be loaded. *)
Theorem parse_error_for_handler_failure :
  let env := {| validateApiKey := λ _, Ok None;
                loadHtml := λ _, Throw (Error_ "Asset not found") |} in
  let call := sq "{'jsonrpc':'2.0','id':7,'method':'tools/call','params':{'name':{'toString':0}}}" in
  let read := sq "{'jsonrpc':'2.0','id':8,'method':'resources/read','params':{'uri':'ui://{{SERVER_ID}}/widget'}}" in
  JSON_parse call =
    Ok (JObj [("jsonrpc", JStr "2.0"); ("id", JNum 7);
              ("method", JStr "tools/call");
              ("params", JObj [("name", JObj [("toString", JNum 0)])])]) ∧
  Rpc.handleHTTPTransport env "2026-01-01T00:00:00.000Z" "u1"
    {| authorization := Some "Bearer wtyk_abc"; json := JSON_parse call |} =
  {| status := 200;
     body := Some (sq "{'jsonrpc':'2.0','id':'error','error':{'code':-32700,'message':'Parse error: Cannot convert object to primitive value'}}") |} ∧
  JSON_parse read =
    Ok (JObj [("jsonrpc", JStr "2.0"); ("id", JNum 8);
              ("method", JStr "resources/read");
              ("params", JObj [("uri", JStr Rpc.widget_uri)])]) ∧
  Rpc.handleHTTPTransport env "2026-01-01T00:00:00.000Z" "u1"
    {| authorization := Some "Bearer wtyk_abc"; json := JSON_parse read |} =
  {| status := 200;
     body := Some (sq "{'jsonrpc':'2.0','id':'error','error':{'code':-32700,'message':'Parse error: Asset not found'}}") |}.
Proof. split_and!; reflexivity. Qed.

Lemma tools_call_transport env nowIso userId auth props :
  own "jsonrpc" props = Some (JStr "2.0") →
  own "method" props = Some (JStr "tools/call") →
  Rpc.handleHTTPTransport env nowIso userId
    {| authorization := auth; json := Ok (JObj props) |} =
  match Rpc.handleToolsCall nowIso userId (JObj props) with
  | Ok response => response
  | Throw error => Rpc.parse_error error
  end.
Proof.
  intros Hj Hm. unfold Rpc.handleHTTPTransport, Rpc.dispatch. simpl.
  by rewrite Hj, Hm.
Qed.

(** [handleToolsCall] on a request object, with its property reads
    resolved. *)
Lemma handleToolsCall_unfold nowIso userId props :
  Rpc.handleToolsCall nowIso userId (JObj props) =
  let id := default JUndefined (own "id" props) in
  let params := or_ (default JUndefined (own "params" props)) (JObj []) in
  let input := or_ (opt_get (opt_get params "arguments") "input") (JStr "") in
  if value_eqb_str (opt_get params "name") "example-tool" then
    match ToString input with
    | Ok processed =>
        let result := JObj [("message", JStr ("Processed: " +:+ processed));
                            ("timestamp", JStr nowIso);
                            ("userId", JStr userId)] in
        Ok (Rpc.jsonRpcResponse id
              (Rpc.tool_result (Rpc.text_of (JSON_stringify_2 result))
                 [("structuredContent", result)]) None)
    | Throw error =>
        Ok (Rpc.jsonRpcResponse id
              (Rpc.tool_result (JStr ("Error: " +:+ exn_message error))
                 [("isError", JBool true)]) None)
    end
  else
    match ToString (opt_get params "name") with
    | Ok shown =>
        Ok (Rpc.jsonRpcResponse id JNull
              (Some (-32602, "Unknown tool: " +:+ shown)))
    | Throw error => Throw error
    end.
Proof.
  unfold Rpc.handleToolsCall. rewrite !get_object.
  cbn [mbind result_bind].
  rewrite !(get_opt_get (or_ _ _)) by apply or_object_not_nullish.
  cbn [mbind result_bind]. cbv zeta.
  destruct (value_eqb_str _ _); [|done].
  unfold try_catch. by destruct (ToString _).
Qed.



(** The registry failures [getCompany] turns into errors, on a cache
    miss. *)
Lemma getCompany_upstream_errors fetch now nowIso krs type kv :
  Krs.lookup kv (Krs.cacheKey krs type) now = None →
  match fetch (Krs.url krs type) with
  | Krs.FetchRejects e =>
      ∃ message,
        Krs.getCompany fetch now nowIso krs type kv =
        (Throw (Error_ message), kv)
  | Krs.FetchResponse 404 _ =>
      Krs.getCompany fetch now nowIso krs type kv =
      (Throw (Error_ ("Company with KRS " +:+ krs
                      +:+ " not found in registry")), kv)
  | Krs.FetchResponse 400 _ =>
      Krs.getCompany fetch now nowIso krs type kv =
      (Throw (Error_ ("Invalid KRS number format: " +:+ krs)), kv)
  | Krs.FetchResponse _ _ => True
  end.
Proof.
  intros Hmiss. unfold Krs.getCompany. rewrite Hmiss.
  destruct (fetch _) as [e|status json].
  - case_bool_decide; eauto.
  - destruct status as [|p|p]; [done| |done].
    repeat (destruct p as [p|p|]; try done).
Qed.

(** A company the registry does not know, looked up through
    [view_company]. *)
Example view_company_not_found :
  Server.view_company (λ _, Ok "")
    (Some "u1") "uuid" (λ _, Krs.FetchResponse 404 (Ok JNull)) 0
    "2026-01-01T00:00:00.000Z" "0000000000" None ∅ =
  (Ok (Rpc.tool_result
         (JStr "Error looking up KRS 0000000000: Company with KRS 0000000000 not found in registry")
         [("isError", JBool true)]), ∅).
Proof. reflexivity. Qed.

(** The example tool, called with the input [hi]. *)
Example example_tool_call :
  Rpc.handleHTTPTransport
    {| validateApiKey := λ _, Ok None; loadHtml := λ _, Ok "" |}
    "2026-01-01T00:00:00.000Z" "u1"
    {| authorization := None;
       json := JSON_parse (sq "{'jsonrpc':'2.0','id':1,'method':'tools/call','params':{'name':'example-tool','arguments':{'input':'hi'}}}") |} =
  {| status := 200;
     body := Some (sq "{'jsonrpc':'2.0','id':1,'result':{'content':[{'type':'text','text':'{\n  \'message\': \'Processed: hi\',\n  \'timestamp\': \'2026-01-01T00:00:00.000Z\',\n  \'userId\': \'u1\'\n}'}],'structuredContent':{'message':'Processed: hi','timestamp':'2026-01-01T00:00:00.000Z','userId':'u1'}}}") |}.
Proof. reflexivity. Qed.

(** In the key lane [view_company] is not a registered name. *)
Example view_company_unknown_in_key_lane :
  Rpc.handleHTTPTransport
    {| validateApiKey := λ _, Ok None; loadHtml := λ _, Ok "" |}
    "2026-01-01T00:00:00.000Z" "u1"
    {| authorization := None;
       json := JSON_parse (sq "{'jsonrpc':'2.0','id':4,'method':'tools/call','params':{'name':'view_company','arguments':{'krs':'0000000000'}}}") |} =
  {| status := 200;
     body := Some (sq "{'jsonrpc':'2.0','id':4,'error':{'code':-32602,'message':'Unknown tool: view_company'}}") |}.
Proof. reflexivity. Qed.
End RpcFacts.

(** ** The transformation *)

Module TransformFacts.
Import Js Http StringFacts RpcFacts.

Lemma get_Ok_opt_get v p x : get v p = Ok x → opt_get v p = x.
Proof. destruct v; simpl; congruence. Qed.

Lemma opt_get_present v p :
  nullish (opt_get v p) = false → nullish v = false.
Proof. by destruct v. Qed.

Lemma or_nullish v d : nullish v = true → or_ v d = d.
Proof. by destruct v. Qed.

Lemma truthy_nullish v : nullish v = true → truthy v = false.
Proof. by destruct v. Qed.

Example transform_minimal :
  Krs.transformResponse "2026-01-01T00:00:00.000Z" Fixtures.minimal =
  Ok (JObj [
    ("name", JStr "ACME");
    ("krs", JStr "0000000001");
    ("nip", JNull);
    ("regon", JNull);
    ("legalForm", JStr "SPÓŁKA");
    ("address", JObj [
       ("city", JStr ""); ("voivodeship", JStr ""); ("street", JStr "");
       ("building", JStr ""); ("unit", JNull); ("postalCode", JStr "");
       ("country", JStr "POLSKA")]);
    ("capital", JNull);
    ("shareholders", JArr []);
    ("representation", JObj [
       ("organName", JStr "ZARZĄD");
       ("method", JStr "Brak danych");
       ("members", JArr [])]);
    ("mainActivity", JArr []);
    ("otherActivities", JArr []);
    ("registrationDate", JStr "01.02.2003");
    ("lastUpdate", JStr "04.05.2006");
    ("dataTimestamp", JStr "2026-01-01T00:00:00.000Z")]).
Proof. reflexivity. Qed.

(** Without the required parts the transformation throws. *)
Example transform_needs_odpis :
  Krs.transformResponse "2026-01-01T00:00:00.000Z" (JObj []) =
  Throw (TypeError "Cannot read properties of undefined (reading 'dane')").
Proof. reflexivity. Qed.

(** C3, as stated, fails: on the minimal payload the country, the organ
    name and the representation method of the record are fixed non-empty
    texts, not empty or null. *)
Lemma transform_defaults_not_all_empty :
  ∃ record,
    Krs.transformResponse "2026-01-01T00:00:00.000Z" Fixtures.minimal = Ok record ∧
    at_path ["address"; "country"] record = JStr "POLSKA" ∧
    empty_or_null (at_path ["address"; "country"] record) = false ∧
    empty_or_null (at_path ["representation"; "organName"] record) = false ∧
    empty_or_null (at_path ["representation"; "method"] record) = false.
Proof. eexists. split; [reflexivity|]. split_and!; reflexivity. Qed.

(** C3 (amended).  On a payload that has the entity data and the header
    (whatever they hold) and in which the identifiers, the capital, the
    shareholders, the representation body, both activity lists and every
    address part are absent or null, [transformResponse] returns, and the
    record it returns has the full shape: null for NIP, REGON, capital
    and the address unit; empty lists of shareholders, board members and
    activities; empty texts for city, voivodeship, street, building and
    postal code; and the fixed texts POLSKA, ZARZĄD and "Brak danych" for
    country, organ name and representation method. *)
Theorem transform_defaults (nowIso : string) (raw : value) :
  let dzial1 := at_path ["odpis"; "dane"; "dzial1"] raw in
  let dzial2 := at_path ["odpis"; "dane"; "dzial2"] raw in
  let dzial3 := at_path ["odpis"; "dane"; "dzial3"] raw in
  let naglowekA := at_path ["odpis"; "naglowekA"] raw in
  let danePodmiotu := opt_get dzial1 "danePodmiotu" in
  nullish danePodmiotu = false →
  nullish naglowekA = false →
  nullish (at_path ["identyfikatory"; "nip"] danePodmiotu) = true →
  nullish (at_path ["identyfikatory"; "regon"] danePodmiotu) = true →
  nullish (at_path ["kapital"; "wysokoscKapitaluZakladowego"] dzial1) = true →
  nullish (opt_get dzial1 "wspolnicySpzoo") = true →
  nullish (at_path ["reprezentacja"; "sklad"] dzial2) = true →
  nullish (at_path ["reprezentacja"; "nazwaOrganu"] dzial2) = true →
  nullish (at_path ["reprezentacja"; "sposobReprezentacji"] dzial2) = true →
  nullish (at_path ["przedmiotDzialalnosci";
                    "przedmiotPrzewazajacejDzialalnosci"] dzial3) = true →
  nullish (at_path ["przedmiotDzialalnosci";
                    "przedmiotPozostalejDzialalnosci"] dzial3) = true →
  nullish (at_path ["siedzibaIAdres"; "siedziba"; "miejscowosc"] dzial1) = true →
  nullish (at_path ["siedzibaIAdres"; "siedziba"; "wojewodztwo"] dzial1) = true →
  nullish (at_path ["siedzibaIAdres"; "siedziba"; "kraj"] dzial1) = true →
  nullish (at_path ["siedzibaIAdres"; "adres"; "ulica"] dzial1) = true →
  nullish (at_path ["siedzibaIAdres"; "adres"; "nrDomu"] dzial1) = true →
  nullish (at_path ["siedzibaIAdres"; "adres"; "nrLokalu"] dzial1) = true →
  nullish (at_path ["siedzibaIAdres"; "adres"; "kodPocztowy"] dzial1) = true →
  Krs.transformResponse nowIso raw =
  Ok (JObj [
    ("name", opt_get danePodmiotu "nazwa");
    ("krs", opt_get naglowekA "numerKRS");
    ("nip", JNull);
    ("regon", JNull);
    ("legalForm", opt_get danePodmiotu "formaPrawna");
    ("address", JObj [
       ("city", JStr ""); ("voivodeship", JStr ""); ("street", JStr "");
       ("building", JStr ""); ("unit", JNull); ("postalCode", JStr "");
       ("country", JStr "POLSKA")]);
    ("capital", JNull);
    ("shareholders", JArr []);
    ("representation", JObj [
       ("organName", JStr "ZARZĄD");
       ("method", JStr "Brak danych");
       ("members", JArr [])]);
    ("mainActivity", JArr []);
    ("otherActivities", JArr []);
    ("registrationDate", opt_get naglowekA "dataRejestracjiWKRS");
    ("lastUpdate", opt_get naglowekA "stanZDnia");
    ("dataTimestamp", or_ (opt_get naglowekA "dataCzasOdpisu") (JStr nowIso))]).
Proof.
  cbv zeta. unfold at_path. cbn [fold_left].
  intros Hdane Hnag Hnip Hregon Hkap Hwsp Hsklad Hnazwa Hsposob Hmain Hother
    Hcity Hvoiv Hkraj Hulica Hdom Hlokal Hkod.
  pose proof (opt_get_present _ _ Hdane) as Hdzial1.
  pose proof (opt_get_present _ _ Hdzial1) as Hdane'.
  pose proof (opt_get_present _ _ Hdane') as Hodpis.
  pose proof (opt_get_present _ _ Hodpis) as Hraw.
  unfold Krs.transformResponse.
  rewrite !(get_opt_get raw) by done. cbn [mbind result_bind].
  rewrite !(get_opt_get (opt_get raw "odpis")) by done.
  cbn [mbind result_bind].
  rewrite !(get_opt_get (opt_get (opt_get raw "odpis") "dane")) by done.
  cbn [mbind result_bind].
  rewrite !(get_opt_get (opt_get (opt_get (opt_get raw "odpis") "dane")
                           "dzial1")) by done.
  cbn [mbind result_bind].
  rewrite (or_nullish _ _ Hwsp), (or_nullish _ _ Hsklad),
    (or_nullish _ _ Hmain), (or_nullish _ _ Hother).
  cbn [as_array mbind result_bind filter list_filter mapM].
  rewrite !(get_opt_get (opt_get (opt_get (opt_get (opt_get raw "odpis")
              "dane") "dzial1") "danePodmiotu")) by done.
  cbn [mbind result_bind].
  rewrite !(get_opt_get (opt_get (opt_get raw "odpis") "naglowekA")) by done.
  cbn [mbind result_bind].
  rewrite (truthy_nullish _ Hkap). cbn [mbind result_bind].
  rewrite (or_nullish _ _ Hnip), (or_nullish _ _ Hregon),
    (or_nullish _ _ Hcity), (or_nullish _ _ Hvoiv), (or_nullish _ _ Hkraj),
    (or_nullish _ _ Hulica), (or_nullish _ _ Hdom), (or_nullish _ _ Hlokal),
    (or_nullish _ _ Hkod), (or_nullish _ _ Hnazwa), (or_nullish _ _ Hsposob).
  reflexivity.
Qed.

Lemma transform_defaults_witness :
  Krs.transformResponse "2026-01-01T00:00:00.000Z" Fixtures.minimal =
  Ok (JObj [
    ("name", JStr "ACME");
    ("krs", JStr "0000000001");
    ("nip", JNull);
    ("regon", JNull);
    ("legalForm", JStr "SPÓŁKA");
    ("address", JObj [
       ("city", JStr ""); ("voivodeship", JStr ""); ("street", JStr "");
       ("building", JStr ""); ("unit", JNull); ("postalCode", JStr "");
       ("country", JStr "POLSKA")]);
    ("capital", JNull);
    ("shareholders", JArr []);
    ("representation", JObj [
       ("organName", JStr "ZARZĄD");
       ("method", JStr "Brak danych");
       ("members", JArr [])]);
    ("mainActivity", JArr []);
    ("otherActivities", JArr []);
    ("registrationDate", JStr "01.02.2003");
    ("lastUpdate", JStr "04.05.2006");
    ("dataTimestamp", JStr "2026-01-01T00:00:00.000Z")]).
Proof.
  apply (transform_defaults "2026-01-01T00:00:00.000Z" Fixtures.minimal);
    reflexivity.
Defined.

(** Taking a successful [x <- m; k] apart. *)
Ltac bind_ok H :=
  match type of H with
  | (?m ≫= _) = Ok _ =>
      let x := fresh "x" in
      let E := fresh "E" in
      destruct m as [x|] eqn:E; cbn [mbind result_bind] in H; [|discriminate H]
  end.

(** C8, as stated, fails: of the two commas of a share capital written
    [1,000,50] only the first becomes a dot. *)
Lemma capital_keeps_later_commas :
  ∃ record,
    Krs.transformResponse "2026-01-01T00:00:00.000Z"
      (Fixtures.with_capital "1,000,50" "PLN") = Ok record ∧
    at_path ["capital"; "value"] record = JStr "1.000,50" ∧
    includes "1.000,50" "," = true.
Proof. eexists. split_and!; reflexivity. Qed.

(** C8 (amended).  When [transformResponse] returns a record, its capital
    is null, or the source amount is a text and the record's capital value
    is that text with its first comma replaced by a dot, the other
    characters unchanged: it has one comma less than the source, hence
    none when the source has at most one. *)
Theorem capital_first_comma (nowIso : string) (raw record : value) :
  Krs.transformResponse nowIso raw = Ok record →
  opt_get record "capital" = JNull ∨
  ∃ wartosc,
    at_path ["odpis"; "dane"; "dzial1"; "kapital";
             "wysokoscKapitaluZakladowego"; "wartosc"] raw = JStr wartosc ∧
    at_path ["capital"; "value"] record = JStr (replace "," "." wartosc) ∧
    count_char "," (replace "," "." wartosc) =
      Nat.pred (count_char "," wartosc) ∧
    (count_char "," wartosc ≤ 1 →
     includes (replace "," "." wartosc) "," = false)%nat.
Proof.
  intros H. unfold Krs.transformResponse in H.
  repeat bind_ok H.
  inversion H as [Hrecord]. clear H Hrecord.
  match goal with
  | E : (if truthy ?c then _ else _) = Ok _ |- _ =>
      rename E into Hcap; destruct (truthy c)
  end.
  - right. repeat bind_ok Hcap. inversion Hcap as [Hcapital]. clear Hcap.
    match goal with
    | E : call_replace ?w _ _ = Ok _ |- _ =>
        destruct w as [| | | |wartosc| |]; try discriminate E;
        inversion E as [Hvalue]; clear E
    end.
    exists wartosc. unfold at_path. cbn [fold_left].
    repeat match goal with
           | E : get _ _ = Ok _ |- _ => apply get_Ok_opt_get in E
           end.
    repeat match goal with
           | E : opt_get ?v ?p = _ |- context [opt_get ?v ?p] => rewrite E
           end.
    split_and!; [done|done|by apply count_replace|].
    intros Hone. apply includes_count. rewrite count_replace by done. lia.
  - left. by inversion Hcap.
Qed.

Lemma capital_first_comma_witness :
  opt_get Fixtures.record_5000 "capital" = JNull ∨
  ∃ wartosc,
    at_path ["odpis"; "dane"; "dzial1"; "kapital";
             "wysokoscKapitaluZakladowego"; "wartosc"]
      (Fixtures.with_capital "5000,00" "PLN") = JStr wartosc ∧
    at_path ["capital"; "value"] Fixtures.record_5000 =
      JStr (replace "," "." wartosc) ∧
    count_char "," (replace "," "." wartosc) =
      Nat.pred (count_char "," wartosc) ∧
    (count_char "," wartosc ≤ 1 →
     includes (replace "," "." wartosc) "," = false)%nat.
Proof.
  apply (capital_first_comma "2026-01-01T00:00:00.000Z"
           (Fixtures.with_capital "5000,00" "PLN") Fixtures.record_5000).
  reflexivity.
Defined.

(** A share capital in the registry's format: one decimal comma. *)
Example capital_5000 :
  at_path ["capital"] Fixtures.record_5000 =
  JObj [("value", JStr "5000.00"); ("currency", JStr "PLN")].
Proof. reflexivity. Qed.
End TransformFacts.

(** ** [JSON.parse] after [JSON.stringify] *)

Module JsonFacts.
Import Js StringFacts.

Lemma append_String c s t : String c s +:+ t = String c (s +:+ t).
Proof. done. Qed.

Lemma append_empty t : "" +:+ t = t.
Proof. done. Qed.

Lemma append_assoc (a b c : string) : (a +:+ b) +:+ c = a +:+ b +:+ c.
Proof. induction a as [|x a IH]; [done|]. by rewrite !append_String, IH. Qed.

Lemma span_digits_uint d rest :
  ends_number rest →
  span_digits (NilEmpty.string_of_uint d +:+ rest) =
  (NilEmpty.string_of_uint d, rest).
Proof.
  intros Hrest. induction d as [|d IH|d IH|d IH|d IH|d IH|d IH|d IH|d IH|d IH|d IH];
    cbn [NilEmpty.string_of_uint];
    rewrite ?append_String, ?append_empty;
    try (cbn [span_digits]; rewrite IH; reflexivity).
  destruct rest as [|c rest]; [done|]. simpl in *. by rewrite Hrest.
Qed.

Lemma span_digits_nilzero d rest :
  ends_number rest →
  span_digits (NilZero.string_of_uint d +:+ rest) =
  (NilZero.string_of_uint d, rest).
Proof.
  intros Hrest. destruct d; try apply (span_digits_uint _ _ Hrest).
  cbn [NilZero.string_of_uint]. rewrite append_String, append_empty.
  cbn [span_digits]. 
  change (is_digit "0") with true. cbn iota.
  destruct rest as [|c rest]; [done|]. simpl in *. by rewrite Hrest.
Qed.

Lemma to_int_cases n :
  (∃ d, Z.to_int n = Decimal.Pos d ∧ d ≠ Decimal.Nil) ∨
  (∃ d, Z.to_int n = Decimal.Neg d ∧ d ≠ Decimal.Nil).
Proof.
  destruct n as [|p|p]; simpl.
  - left. by eexists.
  - left. eexists. split; [done|]. apply Unsigned.to_uint_nonnil.
  - right. eexists. split; [done|]. apply Unsigned.to_uint_nonnil.
Qed.

(** The first character of a printed unsigned number is a digit. *)
Lemma uint_head d :
  ∃ c t, NilZero.string_of_uint d = String c t ∧ is_digit c = true.
Proof. destruct d; simpl; eauto. Qed.

Lemma parse_number_print n rest :
  ends_number rest →
  parse_number (Z_to_string n +:+ rest) = Some (JNum n, rest).
Proof.
  intros Hrest. unfold parse_number, Z_to_string.
  assert (NilZero.int_of_string (NilZero.string_of_int (Z.to_int n)) =
          Some (Z.to_int n)) as Hisi.
  { apply NilZero.isi; destruct (to_int_cases n) as [(d&->&?)|(d&->&?)];
      congruence. }
  destruct (Z.to_int n) as [d|d] eqn:Hn; cbn [NilZero.string_of_int] in *.
  - destruct (uint_head d) as (c & t & Hd & Hc).
    assert (c ≠ "-"%char) as Hminus by (by intros ->).
    rewrite Hd in *. rewrite append_String.
    assert (span_digits (String c (t +:+ rest)) = (String c t, rest)) as Hs.
    { rewrite <-append_String, <-Hd. by apply span_digits_nilzero. }
    replace (match String c (t +:+ rest) with
             | String "-" s' => let '(ds, r) := span_digits s' in (String "-" ds, r)
             | _ => span_digits (String c (t +:+ rest))
             end) with (String c t, rest).
    + rewrite Hisi. rewrite <-Hn, DecimalZ.of_to, Hn.
      cbn [NilZero.string_of_int]. rewrite Hd.
      by rewrite bool_decide_eq_true_2.
    + rewrite <-Hs.
      destruct c as [[] [] [] [] [] [] [] []]; try reflexivity. done.
  - rewrite append_String. rewrite span_digits_nilzero by done.
    rewrite Hisi. rewrite <-Hn, DecimalZ.of_to, Hn.
    cbn [NilZero.string_of_int]. by rewrite bool_decide_eq_true_2.
Qed.

Lemma parse_chars_quote s rest :
  parse_chars (quote_chars s +:+ String dquote rest) = Some (s, rest).
Proof.
  induction s as [|c s IH]; [done|].
  cbn [quote_chars]. rewrite append_assoc.
  destruct c as [[] [] [] [] [] [] [] []];
    vm_compute quote_char; rewrite !append_String, ?append_empty;
    cbn [parse_chars]; 
    repeat match goal with
    | |- context [N.eqb ?a ?b] => 
        let r := eval vm_compute in (N.eqb a b) in
        change (N.eqb a b) with r; cbn iota
    | |- context [N.ltb ?a ?b] => 
        let r := eval vm_compute in (N.ltb a b) in
        change (N.ltb a b) with r; cbn iota
    end;
    try (rewrite IH; reflexivity).
Qed.

(** Induction over values, with the elements of arrays and the property
    values of objects covered by the hypothesis. *)
Lemma value_induction (P : value → Prop) :
  P JUndefined → P JNull → (∀ b, P (JBool b)) → (∀ n, P (JNum n)) →
  (∀ s, P (JStr s)) →
  (∀ elems, Forall P elems → P (JArr elems)) →
  (∀ props, Forall (λ kv, P kv.2) props → P (JObj props)) →
  ∀ v, P v.
Proof.
  intros Hu Hn Hb Hz Hs Ha Ho.
  fix IH 1. intros [| |b|n|s|elems|props].
  - exact Hu.
  - exact Hn.
  - apply Hb.
  - apply Hz.
  - apply Hs.
  - apply Ha. induction elems as [|x elems IHl]; constructor;
      [apply IH|exact IHl].
  - apply Ho. induction props as [|[k x] props IHl]; constructor;
      [apply IH|exact IHl].
Qed.

Lemma is_json_arr elems :
  is_json (JArr elems) = true ↔ Forall (λ x, is_json x = true) elems.
Proof.
  induction elems as [|x elems IH]; simpl.
  - split; [constructor|done].
  - rewrite andb_true_iff, Forall_cons. simpl in IH. by rewrite IH.
Qed.

Lemma is_json_obj props :
  is_json (JObj props) = true ↔
  NoDup (props.*1) ∧ Forall (λ kv, is_json kv.2 = true) props.
Proof.
  cbn [is_json]. rewrite andb_true_iff, bool_decide_eq_true.
  apply and_iff_compat_l.
  induction props as [|[k x] props IH]; simpl.
  - split; [constructor|done].
  - rewrite andb_true_iff, Forall_cons. simpl. by rewrite IH.
Qed.

Lemma serialize_arr elems :
  SerializeJSONProperty "" "" (JArr elems) =
  Some (enclose "[" "]" "" "" "" (txt <$> elems)).
Proof.
  reflexivity.
Qed.

Lemma serialize_obj props :
  Forall (λ kv, is_Some (SerializeJSONProperty "" "" kv.2)) props →
  SerializeJSONProperty "" "" (JObj props) =
  Some (enclose "{" "}" "" "" "" (member_txt <$> props)).
Proof.
  intros Hall. cbn [SerializeJSONProperty]. change ("" +:+ "") with "".
  do 2 f_equal. induction Hall as [|[k x] props [t Ht] Hall IH]; [done|].
  cbn [fmap list_fmap]. simpl in Ht. rewrite Ht, IH.
  unfold member_txt, txt. simpl. by rewrite Ht.
Qed.

Lemma length_append (a b : string) :
  String.length (a +:+ b) = (String.length a + String.length b)%nat.
Proof. induction a as [|c a IH]; [done|]. simpl. by rewrite <-IH. Qed.

Lemma append_nil (a : string) : a +:+ "" = a.
Proof. induction a as [|c a IH]; [done|]. by rewrite append_String, IH. Qed.

Lemma parse_null f rest :
  parse_value (S f) ("null" +:+ rest) = Some (JNull, rest).
Proof.
  rewrite !append_String, append_empty. cbn [parse_value skip_ws].
  change (is_ws "n") with false. cbn iota.
  change (N_of_ascii "n" =? 34)%N with false.
  change (N_of_ascii "n" =? 91)%N with false.
  change (N_of_ascii "n" =? 123)%N with false. cbn iota.
  change (String "n" (String "u" (String "l" (String "l" rest))))
    with ("null" +:+ rest).
  by rewrite prefix_app, (drop_chars_app "null").
Qed.

Lemma parse_true f rest :
  parse_value (S f) ("true" +:+ rest) = Some (JBool true, rest).
Proof.
  rewrite !append_String, append_empty. cbn [parse_value skip_ws].
  change (is_ws "t") with false. cbn iota.
  change (N_of_ascii "t" =? 34)%N with false.
  change (N_of_ascii "t" =? 91)%N with false.
  change (N_of_ascii "t" =? 123)%N with false. cbn iota.
  change (String "t" (String "r" (String "u" (String "e" rest))))
    with ("true" +:+ rest).
  replace (String.prefix "null" ("true" +:+ rest)) with false by done.
  by rewrite prefix_app, (drop_chars_app "true").
Qed.

Lemma parse_false f rest :
  parse_value (S f) ("false" +:+ rest) = Some (JBool false, rest).
Proof.
  rewrite !append_String, append_empty. cbn [parse_value skip_ws].
  change (is_ws "f") with false. cbn iota.
  change (N_of_ascii "f" =? 34)%N with false.
  change (N_of_ascii "f" =? 91)%N with false.
  change (N_of_ascii "f" =? 123)%N with false. cbn iota.
  change (String "f" (String "a" (String "l" (String "s" (String "e" rest)))))
    with ("false" +:+ rest).
  replace (String.prefix "null" ("false" +:+ rest)) with false by done.
  replace (String.prefix "true" ("false" +:+ rest)) with false by done.
  by rewrite prefix_app, (drop_chars_app "false").
Qed.

Lemma parse_value_number f c s :
  c = "-"%char ∨ is_digit c = true →
  parse_value (S f) (String c s) = parse_number (String c s).
Proof.
  destruct c as [[] [] [] [] [] [] [] []];
    (intros [Hc|Hc]; [try discriminate Hc|try discriminate Hc]);
    reflexivity.
Qed.

Lemma number_head n :
  ∃ c t, Z_to_string n = String c t ∧
         (c = "-"%char ∨ is_digit c = true).
Proof.
  unfold Z_to_string. destruct (Z.to_int n) as [d|d]; simpl.
  - destruct (uint_head d) as (c & t & -> & Hc). eauto.
  - eauto.
Qed.

Lemma parse_value_string f s rest :
  parse_value (S f) (QuoteJSONString s +:+ rest) = Some (JStr s, rest).
Proof.
  unfold QuoteJSONString. rewrite append_String, append_assoc.
  rewrite append_String, append_empty.
  cbn [parse_value skip_ws]. change (is_ws dquote) with false. cbn iota.
  change (N_of_ascii dquote =? 34)%N with true. cbn iota.
  by rewrite parse_chars_quote.
Qed.

Lemma define_fresh k v (acc : list (string * value)) :
  k ∉ acc.*1 → define k v acc = acc ++ [(k, v)].
Proof.
  induction acc as [|[k' v'] acc IH]; [done|]. simpl.
  intros [Hne Hin]%not_elem_of_cons.
  rewrite decide_False by done. by rewrite IH.
Qed.

Lemma round_trips_scalar v t :
  SerializeJSONProperty "" "" v = Some t →
  head_ok t →
  (∀ f rest, ends_number rest → parse_value (S f) (t +:+ rest) = Some (v, rest)) →
  round_trips v.
Proof.
  intros Hs Hh Hp. unfold round_trips, txt. rewrite Hs. simpl.
  split_and!; [done|done|].
  intros rest [|f] Hrest Hf; [lia|]. by apply Hp.
Qed.

Lemma parse_elements_print l :
  l ≠ [] →
  Forall round_trips l →
  ∀ rest fuel,
    (2 * String.length (join "," (txt <$> l)) + 1 < fuel)%nat →
    parse_elements fuel (join "," (txt <$> l) +:+ String "]" rest) =
    Some (l, rest).
Proof.
  induction l as [|x l IH]; [done|]. intros _ Hall rest fuel Hfuel.
  apply Forall_cons in Hall as [(_ & _ & Hx) Hall].
  destruct fuel as [|f]; [lia|].
  destruct l as [|y l].
  - cbn [fmap list_fmap join] in *. cbn [parse_elements].
    rewrite Hx; [|done|lia]. reflexivity.
  - change (join "," (txt <$> x :: y :: l))
      with (txt x +:+ "," +:+ join "," (txt <$> y :: l)) in *.
    rewrite !length_append in Hfuel. 
    rewrite !append_assoc, append_String, append_empty.
    cbn [parse_elements]. rewrite Hx; [|done|lia].
    cbn [skip_ws]. change (is_ws ",") with false. cbn iota.
    rewrite IH; [done|done|done|].
    change (String.length ",") with 1%nat in Hfuel. lia.
Qed.

Lemma member_txt_unfold k x rest :
  member_txt (k, x) +:+ rest =
  String dquote (quote_chars k +:+ String dquote (String ":" (txt x +:+ rest))).
Proof.
  unfold member_txt, QuoteJSONString. simpl fst. simpl snd.
  rewrite !append_String, !append_assoc.
  by rewrite !append_String, !append_empty.
Qed.

Lemma parse_members_print props :
  props ≠ [] →
  Forall (λ kv, round_trips kv.2) props →
  ∀ acc rest fuel,
    NoDup ((acc ++ props).*1) →
    (2 * String.length (join "," (member_txt <$> props)) + 1 < fuel)%nat →
    parse_members fuel acc
      (join "," (member_txt <$> props) +:+ String "}" rest) =
    Some (acc ++ props, rest).
Proof.
  induction props as [|[k x] props IH]; [done|].
  intros _ Hall acc rest fuel Hnd Hfuel.
  apply Forall_cons in Hall as [(_ & _ & Hx) Hall]. simpl in Hx.
  destruct fuel as [|f]; [lia|].
  assert (k ∉ acc.*1) as Hfresh.
  { rewrite fmap_app in Hnd. apply NoDup_app in Hnd as (_ & Hdis & _).
    intros Hin. apply (Hdis k Hin). simpl. apply list_elem_of_here. }
  assert (String.length (txt x) < String.length (member_txt (k, x)))%nat
    as Hlen.
  { unfold member_txt. rewrite !length_append. simpl. lia. }
  destruct props as [|[k' y] props].
  - cbn [fmap list_fmap join] in *. rewrite member_txt_unfold.
    cbn [parse_members skip_ws]. change (is_ws dquote) with false.
    cbn iota. change (N_of_ascii dquote =? 34)%N with true. cbn iota.
    rewrite parse_chars_quote. cbn [skip_ws].
    change (is_ws ":") with false. cbn iota.
    rewrite Hx; [|done|lia]. cbn [skip_ws].
    change (is_ws "}") with false. cbn iota.
    by rewrite define_fresh.
  - change (join "," (member_txt <$> (k, x) :: (k', y) :: props))
      with (member_txt (k, x) +:+ ","
            +:+ join "," (member_txt <$> (k', y) :: props)) in *.
    rewrite !length_append in Hfuel.
    change (String.length ",") with 1%nat in Hfuel.
    rewrite append_assoc, member_txt_unfold.
    rewrite append_assoc, append_String, append_empty.
    cbn [parse_members skip_ws]. change (is_ws dquote) with false.
    cbn iota. change (N_of_ascii dquote =? 34)%N with true. cbn iota.
    rewrite parse_chars_quote. cbn [skip_ws].
    change (is_ws ":") with false. cbn iota.
    rewrite Hx; [|done|lia]. cbn [skip_ws].
    change (is_ws ",") with false. cbn iota.
    rewrite define_fresh by done.
    rewrite IH; [by rewrite <-app_assoc|done|done| |lia].
    by rewrite <-app_assoc.
Qed.

Lemma enclose_compact opening closing (partial : list string) :
  enclose opening closing "" "" "" partial =
  opening +:+ join "," partial +:+ closing.
Proof. by destruct partial. Qed.

Lemma parse_print v : is_json v = true → round_trips v.
Proof.
  induction v as [| |b|n|s|elems IH|props IH] using value_induction;
    intros Hjson.
  - done.
  - apply (round_trips_scalar _ "null"); [done| |].
    + by exists "n"%char, "ull".
    + intros. apply parse_null.
  - destruct b.
    + apply (round_trips_scalar _ "true"); [done| |].
      * by exists "t"%char, "rue".
      * intros. apply parse_true.
    + apply (round_trips_scalar _ "false"); [done| |].
      * by exists "f"%char, "alse".
      * intros. apply parse_false.
  - destruct (number_head n) as (c & t & Hn & Hc).
    apply (round_trips_scalar _ (Z_to_string n)); [done| |].
    + exists c, t. split; [done|].
      destruct Hc as [->|Hc]; [done|].
      destruct c as [[] [] [] [] [] [] [] []]; try discriminate Hc; done.
    + intros f rest Hrest. rewrite Hn, append_String.
      rewrite parse_value_number by done.
      rewrite <-append_String, <-Hn. by apply parse_number_print.
  - apply (round_trips_scalar _ (QuoteJSONString s)); [done| |].
    + by eexists _, _.
    + intros. apply parse_value_string.
  - apply is_json_arr in Hjson.
    assert (Forall round_trips elems) as Hall.
    { apply Forall_forall. intros x Hx.
      rewrite Forall_forall in IH, Hjson. auto. }
    unfold round_trips, txt. rewrite serialize_arr. cbn [default].
    rewrite enclose_compact.
    split_and!; [done|by eexists _, _|].
    intros rest fuel Hrest Hfuel. destruct fuel as [|f]; [lia|].
    unfold id in *. rewrite append_String, append_empty in Hfuel.
    rewrite !append_String, append_empty, append_assoc.
    rewrite !append_String, append_empty.
    cbn [parse_value skip_ws]. change (is_ws "[") with false. cbn iota.
    change (N_of_ascii "[" =? 34)%N with false.
    change (N_of_ascii "[" =? 91)%N with true. cbn iota.
    destruct elems as [|x elems]; [reflexivity|].
    assert (head_ok (txt x)) as (c & t & Hx & Hws & Hc).
    { apply Forall_cons in Hall as [(_ & ? & _) _]. done. }
    assert (∃ t', join "," (txt <$> x :: elems) = String c t') as [t' Ht'].
    { cbn [fmap list_fmap join]. rewrite Hx.
      destruct (txt <$> elems); eauto. }
    rewrite parse_elements_print; [|done|done|].
    + rewrite Ht', append_String. cbn [skip_ws]. rewrite Hws.
      destruct c as [[] [] [] [] [] [] [] []]; try reflexivity. done.
    + cbn [String.length] in Hfuel. rewrite length_append in Hfuel.
      change (String.length "]") with 1%nat in Hfuel. lia.
  - apply is_json_obj in Hjson as [Hnd Hjson].
    assert (Forall (λ kv, round_trips kv.2) props) as Hall.
    { apply Forall_forall. intros x Hx.
      rewrite Forall_forall in IH, Hjson. auto. }
    unfold round_trips, txt. rewrite serialize_obj.
    2:{ eapply Forall_impl; [exact Hall|]. intros kv (Hs & _). by eexists. }
    cbn [default]. rewrite enclose_compact.
    split_and!; [done|by eexists _, _|].
    intros rest fuel Hrest Hfuel. destruct fuel as [|f]; [lia|].
    unfold id in *. rewrite append_String, append_empty in Hfuel.
    rewrite !append_String, append_empty, append_assoc.
    rewrite !append_String, append_empty.
    cbn [parse_value skip_ws]. change (is_ws "{") with false. cbn iota.
    change (N_of_ascii "{" =? 34)%N with false.
    change (N_of_ascii "{" =? 91)%N with false.
    change (N_of_ascii "{" =? 123)%N with true. cbn iota.
    destruct props as [|[k x] props]; [reflexivity|].
    assert (∃ t', join "," (member_txt <$> (k, x) :: props) =
                  String dquote t') as [t' Ht'].
    { clear. destruct props as [|[k' y] props]; cbn [fmap list_fmap join];
        [rewrite <-(append_nil (member_txt (k, x)))|];
        rewrite member_txt_unfold; eauto. }
    rewrite parse_members_print; [|done|done|done|].
    + rewrite Ht', append_String. reflexivity.
    + cbn [String.length] in Hfuel. rewrite length_append in Hfuel.
      change (String.length "}") with 1%nat in Hfuel. lia.
Qed.

(** A JSON document survives [JSON.parse(JSON.stringify(v))]; its text is
    not empty. *)
Theorem JSON_round_trip v :
  is_json v = true →
  ∃ text, JSON_stringify v = Some text ∧ text ≠ "" ∧
          JSON_parse text = Ok v.
Proof.
  intros Hjson. destruct (parse_print v Hjson) as (Hs & Hh & Hp).
  exists (txt v). split_and!; [done| |].
  - destruct Hh as (c & t & -> & _). done.
  - unfold JSON_parse.
    specialize (Hp "" (S (2 * String.length (txt v)))).
    rewrite append_nil in Hp. rewrite Hp; [done|done|lia].
Qed.
End JsonFacts.

(** ** The response cache *)

Module CacheFacts.
Import Js JsonFacts.


Lemma get_put_other kv key key' text ttl stored looked :
  key ≠ key' →
  Kv.get (Kv.put kv key text ttl stored) key' looked = Kv.get kv key' looked.
Proof. intros. unfold Kv.get, Kv.put. by rewrite lookup_insert_ne. Qed.





(** One key over time: a miss fills the cache from the registry; while the
    entry lives the registry is not asked (here it would fail); once the
    entry has expired it is asked again. *)
Example cache_over_time :
  let up := λ _, Krs.FetchResponse 200
                   (Ok (Fixtures.with_capital "5000,00" "PLN")) in
  let down := λ _, Krs.FetchRejects (Error_ "network") in
  let t := "2026-01-01T00:00:00.000Z" in
  let first := Krs.getCompany up 1000 t "0000000001" Krs.aktualny ∅ in
  fst first = Ok Fixtures.record_5000 ∧
  fst (Krs.getCompany down 4599 t "0000000001" Krs.aktualny (snd first)) =
    Ok Fixtures.record_5000 ∧
  fst (Krs.getCompany down 4600 t "0000000001" Krs.aktualny (snd first)) =
    Throw (Error_ "KRS API unavailable - please try again later").
Proof. split_and!; vm_compute; reflexivity. Qed.

(** A record with an [undefined] member is not a JSON document: the member
    is gone when the record is read back. *)
Example undefined_member_dropped :
  JSON_stringify (JObj [("name", JUndefined); ("krs", JStr "1")]) ≫=
    (λ text, Some (JSON_parse text)) =
  Some (Ok (JObj [("krs", JStr "1")])).
Proof. reflexivity. Qed.
End CacheFacts.

(** ** The cache as its callers see it *)

Module CacheUse.
Import JsMapFacts LRUFacts.

(** X1.  [get] neither inserts nor evicts: the keys, their order and the
    capacity are unchanged, and so is every entry but the one asked for; a
    miss returns nothing and leaves the cache as it was; a hit returns the
    stored value and stamps that entry with the time of the call. *)
Theorem get_refreshes_one_entry {K V : Type} `{EqDecision K}
    (key : K) (now : Z) (c : LRU.LRUCache K V) :
  let r := LRU.get key now c in
  JsMap.keys (LRU.cache (snd r)) = JsMap.keys (LRU.cache c) ∧
  LRU.maxSize (snd r) = LRU.maxSize c ∧
  (∀ k, k ≠ key →
     JsMap.get k (LRU.cache (snd r)) = JsMap.get k (LRU.cache c)) ∧
  match JsMap.get key (LRU.cache c) with
  | Some e =>
      fst r = Some (LRU.value e) ∧
      JsMap.get key (LRU.cache (snd r)) =
        Some {| LRU.value := LRU.value e; LRU.lastAccessed := now |}
  | None => r = (None, c)
  end.
Proof.
  intros r. subst r. unfold LRU.get.
  destruct (JsMap.get key (LRU.cache c)) as [e|] eqn:Hg; simpl.
  - split_and!; try done.
    + apply keys_set_present.
      by apply get_Some_elem, (list_elem_of_fmap_2 fst) in Hg.
    + intros k Hk. rewrite get_set. by rewrite decide_False.
    + rewrite get_set. by rewrite decide_True.
  - done.
Qed.

(** X2.  Whatever the cache holds and whatever its capacity, the entry
    just [set] is present with the value and the time given, and a [get]
    of the key returns that value: the key written is never the one
    evicted. *)
Theorem set_then_get {K V : Type} `{EqDecision K} (String_ : K → string)
    (key : K) (v : V) (now later : Z) (c : LRU.LRUCache K V) :
  let c' := fst (LRU.set String_ key v now c) in
  LRU.has key c' = true ∧
  JsMap.get key (LRU.cache c') =
    Some {| LRU.value := v; LRU.lastAccessed := now |} ∧
  fst (LRU.get key later c') = Some v.
Proof.
  intros c'.
  assert (JsMap.get key (LRU.cache c') =
          Some {| LRU.value := v; LRU.lastAccessed := now |}) as Hg.
  { subst c'. unfold LRU.set.
    destruct (if _ : bool then _ else _) as [c1 log]. simpl.
    rewrite get_set. by rewrite decide_True. }
  split_and!; [|done|].
  - unfold LRU.has, JsMap.has. by rewrite Hg.
  - unfold LRU.get. by rewrite Hg.
Qed.

(** X3.  When the key is already cached, or the cache is below its
    capacity, [set] evicts nothing and logs nothing: a cached key keeps its
    place, a new key goes to the end, and every other entry keeps its value
    and its time. *)
Theorem set_without_eviction {K V : Type} `{EqDecision K}
    (String_ : K → string) (key : K) (v : V) (now : Z)
    (c : LRU.LRUCache K V) :
  LRU.has key c = true ∨ LRU.size c < LRU.maxSize c →
  let r := LRU.set String_ key v now c in
  snd r = [] ∧
  LRU.maxSize (fst r) = LRU.maxSize c ∧
  JsMap.keys (LRU.cache (fst r)) =
    (if LRU.has key c then JsMap.keys (LRU.cache c)
     else JsMap.keys (LRU.cache c) ++ [key]) ∧
  ∀ k, k ≠ key →
    JsMap.get k (LRU.cache (fst r)) = JsMap.get k (LRU.cache c).
Proof.
  intros Hroom r. subst r. rewrite set_plain; simpl.
  - split_and!; [done|done| |].
    + destruct (LRU.has key c) eqn:Hhas.
      * apply keys_set_present. by apply has_true.
      * apply keys_set_absent. by apply has_false.
    + intros k Hk. rewrite get_set. by rewrite decide_False.
  - apply andb_false_iff. destruct Hroom as [->|Hlt]; [by right|left].
    by apply Z.leb_gt.
Qed.

Lemma set_without_eviction_witness :
  let c := LRU.run id [LRU.Set_ "a" 1%nat 10] (LRU.new 2) in
  let r := LRU.set id "b" 2%nat 20 c in
  snd r = [] ∧
  LRU.maxSize (fst r) = LRU.maxSize c ∧
  JsMap.keys (LRU.cache (fst r)) =
    (if LRU.has "b" c then JsMap.keys (LRU.cache c)
     else JsMap.keys (LRU.cache c) ++ ["b"]) ∧
  ∀ k, k ≠ "b" →
    JsMap.get k (LRU.cache (fst r)) = JsMap.get k (LRU.cache c).
Proof.
  apply (set_without_eviction id "b" 2%nat 20
           (LRU.run id [LRU.Set_ "a" 1%nat 10] (LRU.new 2))).
  right. reflexivity.
Defined.

(** X4.  On a cache built by [get] and [set] calls, [set] leaves every
    other key's entry as it was, value and time, or removes it; it removes
    an entry only when the cache was full and the key new, and the log
    record of the call then names the removed key. *)
Theorem set_keeps_other_entries {K V : Type} `{EqDecision K}
    (String_ : K → string) (N : Z) (ops : list (LRU.op K V))
    (key : K) (v : V) (now : Z) :
  let c := LRU.run String_ ops (LRU.new N) in
  let r := LRU.set String_ key v now c in
  ∀ k, k ≠ key →
    JsMap.get k (LRU.cache (fst r)) = JsMap.get k (LRU.cache c) ∨
    (JsMap.get k (LRU.cache (fst r)) = None ∧
     snd r = [ {| LRU.evicted_user_id := String_ k;
                  LRU.cache_size := LRU.size c |} ] ∧
     LRU.maxSize c ≤ LRU.size c ∧ LRU.has key c = false).
Proof.
  intros c r k Hk.
  assert (NoDup (JsMap.keys (LRU.cache c))) as Hnd.
  { apply NoDup_run. apply NoDup_nil_2. }
  subst r.
  destruct ((LRU.maxSize c <=? LRU.size c) && negb (LRU.has key c)) eqn:Hc.
  - rewrite set_evicting by done.
    apply andb_true_iff in Hc as [Hfull Hnew].
    apply negb_true_iff in Hnew. apply Z.leb_le in Hfull.
    unfold LRU.evictLRU.
    destruct (fst (LRU.scan (LRU.cache c) None None)) as [oldest|] eqn:Hs;
      simpl.
    + rewrite get_set, decide_False by done.
      rewrite get_delete by done.
      destruct (decide (k = oldest)) as [->|]; [right|by left]. done.
    + left. rewrite get_set. by rewrite decide_False.
  - left. rewrite set_plain by done. simpl.
    rewrite get_set. by rewrite decide_False.
Qed.
Lemma set_keeps_other_entries_witness :
  let c := LRU.run id [LRU.Set_ "a" 1%nat 10; LRU.Set_ "b" 2%nat 20]
             (LRU.new 2) in
  let r := LRU.set id "c" 3%nat 30 c in
  JsMap.get "b" (LRU.cache (fst r)) = JsMap.get "b" (LRU.cache c) ∨
  (JsMap.get "b" (LRU.cache (fst r)) = None ∧
   snd r = [ {| LRU.evicted_user_id := "b";
                LRU.cache_size := LRU.size c |} ] ∧
   LRU.maxSize c ≤ LRU.size c ∧ LRU.has "c" c = false).
Proof.
  apply (set_keeps_other_entries id 2
           [LRU.Set_ "a" 1%nat 10; LRU.Set_ "b" 2%nat 20] "c" 3%nat 30 "b").
  discriminate.
Defined.

Lemma set_absent_app {K A : Type} `{EqDecision K} (m : list (K * A)) k a :
  k ∉ JsMap.keys m → JsMap.set k a m = m ++ [(k, a)].
Proof.
  induction m as [|[k' a'] m IH]; simpl; [done|].
  intros Hk. apply not_elem_of_cons in Hk as [Hne Hk].
  rewrite decide_False by done. by rewrite IH.
Qed.

Lemma delete_middle {K A : Type} `{EqDecision K} (l1 l2 : list (K * A)) k a :
  k ∉ JsMap.keys l1 → JsMap.delete k (l1 ++ (k, a) :: l2) = l1 ++ l2.
Proof.
  induction l1 as [|[k' a'] l1 IH]; simpl.
  - intros _. by rewrite decide_True.
  - intros Hk. apply not_elem_of_cons in Hk as [Hne Hk].
    rewrite decide_False by done. by rewrite IH.
Qed.

Lemma run_fills {K V : Type} `{EqDecision K} (String_ : K → string)
    (items : list (K * V * Z)) (c : LRU.LRUCache K V) :
  NoDup (JsMap.keys (LRU.cache c) ++ ((λ x, x.1.1) <$> items)) →
  LRU.size c + Z.of_nat (length items) ≤ LRU.maxSize c →
  LRU.run String_ ((λ x, LRU.Set_ x.1.1 x.1.2 x.2) <$> items) c =
  LRU.with_cache c
    (LRU.cache c ++
     ((λ x, (x.1.1, {| LRU.value := x.1.2; LRU.lastAccessed := x.2 |}))
        <$> items)).
Proof.
  revert c. induction items as [|[[k v] t] items IH]; intros c Hnd Hsz.
  - simpl. rewrite app_nil_r. by destruct c.
  - simpl in *. unfold LRU.run in *. simpl.
    apply NoDup_app in Hnd as (Hnd1 & Hdisj & Hnd2).
    assert (k ∉ JsMap.keys (LRU.cache c)) as Hk.
    { intros Hin. apply (Hdisj k Hin). by left. }
    rewrite set_plain.
    2:{ apply andb_false_iff. left. apply Z.leb_gt. lia. }
    simpl. rewrite set_absent_app by done.
    rewrite IH; simpl.
    + unfold LRU.with_cache. simpl. by rewrite <-app_assoc.
    + unfold JsMap.keys. rewrite fmap_app. simpl. rewrite <-app_assoc. simpl.
      apply NoDup_app. split_and!; [done| |done].
      intros k' Hin. apply Hdisj. done.
    + unfold LRU.size, JsMap.size in *. simpl. rewrite length_app. simpl. lia.
Qed.

(** X5.  Setting distinct keys, no more of them than the capacity, into a
    new cache evicts nothing: the cache holds exactly these entries, in the
    order of the calls. *)
Theorem fills_to_capacity_in_order {K V : Type} `{EqDecision K}
    (String_ : K → string) (N : Z) (items : list (K * V * Z)) :
  NoDup ((λ x, x.1.1) <$> items) →
  Z.of_nat (length items) ≤ N →
  LRU.cache
    (LRU.run String_ ((λ x, LRU.Set_ x.1.1 x.1.2 x.2) <$> items)
       (LRU.new N)) =
  (λ x, (x.1.1, {| LRU.value := x.1.2; LRU.lastAccessed := x.2 |}))
    <$> items.
Proof.
  intros Hnd Hlen. rewrite run_fills; [done|done|].
  unfold LRU.size, JsMap.size. simpl. lia.
Qed.

Lemma fills_to_capacity_in_order_witness :
  LRU.cache
    (LRU.run id
       ((λ x, LRU.Set_ x.1.1 x.1.2 x.2) <$>
          [("a", 1%nat, 10); ("b", 2%nat, 5)])
       (LRU.new 2)) =
  (λ x, (x.1.1, {| LRU.value := x.1.2; LRU.lastAccessed := x.2 |}))
    <$> [("a", 1%nat, 10); ("b", 2%nat, 5)].
Proof.
  apply (fills_to_capacity_in_order id 2 [("a", 1%nat, 10); ("b", 2%nat, 5)]).
  - simpl. apply NoDup_cons. split; [|apply NoDup_singleton].
    by intros ?%list_elem_of_singleton.
  - simpl. lia.
Defined.

Lemma scan_app {K V : Type} (l r : list (K * LRU.entry V)) ok ot :
  LRU.scan (l ++ r) ok ot =
  LRU.scan r (fst (LRU.scan l ok ot)) (snd (LRU.scan l ok ot)).
Proof.
  revert ok ot. induction l as [|[k e] l IH]; intros ok ot; simpl; [done|].
  by destruct (LRU.older _ _).
Qed.

Lemma scan_keeps {K V : Type} (l : list (K * LRU.entry V)) k t :
  (∀ k' e', (k', e') ∈ l → t ≤ LRU.lastAccessed e') →
  LRU.scan l (Some k) (Some t) = (Some k, Some t).
Proof.
  induction l as [|[k' e'] l IH]; intros Hall; simpl; [done|].
  assert (t ≤ LRU.lastAccessed e') as Hle by (apply (Hall k'); by left).
  rewrite (proj2 (Z.ltb_ge _ _) Hle). apply IH.
  intros k'' e'' Hin. apply (Hall k''). by right.
Qed.

(** X6.  Among the entries with the least time, [evictLRU] removes the
    one the map iterates first: an entry whose predecessors are all
    strictly younger and whose successors are no older is the one removed
    and named in the log, and the others stay in order. *)
Theorem evicts_first_of_the_oldest {K V : Type} `{EqDecision K}
    (String_ : K → string) (c : LRU.LRUCache K V)
    (l1 l2 : list (K * LRU.entry V)) (k : K) (e : LRU.entry V) :
  LRU.cache c = l1 ++ (k, e) :: l2 →
  k ∉ JsMap.keys l1 →
  (∀ k' e', (k', e') ∈ l1 → LRU.lastAccessed e < LRU.lastAccessed e') →
  (∀ k' e', (k', e') ∈ l2 → LRU.lastAccessed e ≤ LRU.lastAccessed e') →
  LRU.evictLRU String_ c =
  (LRU.with_cache c (l1 ++ l2),
   [ {| LRU.evicted_user_id := String_ k; LRU.cache_size := LRU.size c |} ]).
Proof.
  intros Hc Hk Hbefore Hafter. unfold LRU.evictLRU. rewrite Hc.
  rewrite scan_app.
  assert (LRU.scan ((k, e) :: l2) (fst (LRU.scan l1 None None))
            (snd (LRU.scan l1 None None)) =
          (Some k, Some (LRU.lastAccessed e))) as ->.
  { pose proof (scan_spec l1 None None) as Hspec.
    destruct (LRU.scan l1 None None) as [found [t|]]; simpl.
    - destruct Hspec as (_ & _ & [[_ ?]|(k0 & e0 & _ & Hin & Ht)]); [done|].
      specialize (Hbefore _ _ Hin).
      rewrite (proj2 (Z.ltb_lt _ _)) by lia. by apply scan_keeps.
    - by apply scan_keeps. }
  simpl. by rewrite delete_middle.
Qed.

Lemma evicts_first_of_the_oldest_witness :
  LRU.evictLRU id
    {| LRU.cache := [("a", {| LRU.value := 1%nat; LRU.lastAccessed := 7 |});
                     ("b", {| LRU.value := 2%nat; LRU.lastAccessed := 5 |});
                     ("c", {| LRU.value := 3%nat; LRU.lastAccessed := 5 |})];
       LRU.maxSize := 3 |} =
  ({| LRU.cache := [("a", {| LRU.value := 1%nat; LRU.lastAccessed := 7 |});
                    ("c", {| LRU.value := 3%nat; LRU.lastAccessed := 5 |})];
      LRU.maxSize := 3 |},
   [ {| LRU.evicted_user_id := "b"; LRU.cache_size := 3 |} ]).
Proof.
  apply (evicts_first_of_the_oldest id
           {| LRU.cache :=
                [("a", {| LRU.value := 1%nat; LRU.lastAccessed := 7 |});
                 ("b", {| LRU.value := 2%nat; LRU.lastAccessed := 5 |});
                 ("c", {| LRU.value := 3%nat; LRU.lastAccessed := 5 |})];
              LRU.maxSize := 3 |}
           [("a", {| LRU.value := 1%nat; LRU.lastAccessed := 7 |})]
           [("c", {| LRU.value := 3%nat; LRU.lastAccessed := 5 |})]
           "b" {| LRU.value := 2%nat; LRU.lastAccessed := 5 |}).
  - reflexivity.
  - simpl. by intros ?%list_elem_of_singleton.
  - intros k' e' [= -> ->]%list_elem_of_singleton. simpl. lia.
  - intros k' e' [= -> ->]%list_elem_of_singleton. simpl. lia.
Defined.
End CacheUse.

(** ** Lanes and sessions *)

Module LaneFacts.
Import Js Http JsMapFacts LRUFacts StringFacts.

(** The server [getOrCreateServer] builds for [userId]. *)
Local Abbreviation built userId :=
  {| Router.server_name := Rpc.SERVER_NAME;
     Router.server_version := Rpc.SERVER_VERSION;
     Router.resources := [Rpc.widget_uri];
     Router.tools := ["example-tool"];
     Router.bound_user := userId |}.

(** Every cached server is the one built for its key. *)
Local Abbreviation own_servers cache :=
  (∀ k e, JsMap.get k (LRU.cache cache) = Some e → LRU.value e = built k).

Lemma getOrCreateServer_own userId email now cache :
  NoDup (JsMap.keys (LRU.cache cache)) → own_servers cache →
  own_servers (Router.getOrCreateServer userId email now cache).1.2 ∧
  (Router.getOrCreateServer userId email now cache).1.1 = built userId.
Proof.
  intros Hnd Hown. unfold Router.getOrCreateServer, LRU.get.
  destruct (JsMap.get userId (LRU.cache cache)) as [e|] eqn:Hg.
  - simpl. split; [|by apply Hown].
    intros k e'. simpl. rewrite get_set.
    destruct (decide (k = userId)) as [->|].
    + intros [= <-]. simpl. by apply Hown.
    + apply Hown.
  - destruct (LRU.set id userId _ now cache) as [cache'' evicted] eqn:Hset.
    simpl. split; [|done].
    assert (cache'' = fst (LRU.set id userId (built userId) now cache))
      as -> by (by rewrite Hset).
    clear Hset. intros k e'. unfold LRU.set.
    destruct ((LRU.maxSize cache <=? LRU.size cache) &&
              negb (LRU.has userId cache)); simpl.
    + unfold LRU.evictLRU.
      destruct (fst (LRU.scan (LRU.cache cache) None None)) as [oldest|];
        simpl; rewrite get_set.
      * destruct (decide (k = userId)) as [->|]; [by intros [= <-]|].
        rewrite get_delete by done.
        destruct (decide (k = oldest)); [done|apply Hown].
      * destruct (decide (k = userId)) as [->|]; [by intros [= <-]|].
        apply Hown.
    + rewrite get_set.
      destruct (decide (k = userId)) as [->|]; [by intros [= <-]|].
      apply Hown.
Qed.

Lemma fetch_cache oauth env now nowIso request pathname cache :
  Router.cache_after
    (Router.fetch oauth env now nowIso request pathname cache) = cache ∨
  ∃ userId email,
    Router.cache_after
      (Router.fetch oauth env now nowIso request pathname cache) =
    (Router.getOrCreateServer userId email now cache).1.2.
Proof.
  unfold Router.fetch.
  destruct (Router.isApiKeyRequest _ _); simpl.
  - unfold Router.handleApiKeyRequest.
    destruct (Router.extractApiKey _) as [apiKey|]; [|by left].
    case_bool_decide; [by left|].
    unfold Router.validate.
    destruct (validateApiKey env apiKey) as [[[userId email]|]|];
      [|by left..].
    right. exists userId, email. unfold Router.validated.
    by destruct (Router.getOrCreateServer userId email now cache) as [[? ?] ?].
  - left. by destruct (oauth request).
Qed.

Lemma getOrCreateServer_inv userId email now cache :
  LRU.inv Router.MAX_CACHED_SERVERS cache →
  LRU.inv Router.MAX_CACHED_SERVERS
    (Router.getOrCreateServer userId email now cache).1.2.
Proof.
  intros Hinv. unfold Router.getOrCreateServer.
  pose proof (inv_get Router.MAX_CACHED_SERVERS cache userId now Hinv) as Hget.
  destruct (LRU.get userId now cache) as [[cached|] cache'] eqn:Hg;
    simpl in *; [done|].
  destruct (LRU.set id userId _ now cache') as [cache'' evicted] eqn:Hset.
  simpl.
  replace cache'' with (fst (LRU.set id userId (built userId) now cache'))
    by (by rewrite Hset).
  apply (inv_set id Router.MAX_CACHED_SERVERS); [done|done].
Qed.

Lemma serve_all_inv arrivals :
  LRU.inv Router.MAX_CACHED_SERVERS (Traffic.serve_all arrivals) ∧
  own_servers (Traffic.serve_all arrivals).
Proof.
  unfold Traffic.serve_all.
  assert (LRU.inv Router.MAX_CACHED_SERVERS Router.serverCache ∧
          own_servers Router.serverCache) as Hstart.
  { split; [by apply inv_new|]. intros k e. done. }
  revert Hstart. generalize Router.serverCache.
  induction arrivals as [|a arrivals IH]; intros cache [Hinv Hown];
    simpl; [done|].
  apply IH. unfold Traffic.serve.
  destruct (fetch_cache (Traffic.oauth a) (Traffic.env a) (Traffic.now a)
              (Traffic.nowIso a) (Traffic.request a) (Traffic.pathname a)
              cache) as [->|(userId & email & ->)]; [done|].
  split; [by apply getOrCreateServer_inv|].
  apply getOrCreateServer_own; [|done]. apply Hinv.
Qed.

(** X7.  Whatever requests the worker has answered since the isolate was
    loaded, on either lane, the server cache holds at most 100 servers and
    at most one per user id. *)
Theorem server_cache_bounded (arrivals : list Traffic.arrival) :
  let cache := Traffic.serve_all arrivals in
  LRU.size cache ≤ 100 ∧
  LRU.maxSize cache = 100 ∧
  NoDup (JsMap.keys (LRU.cache cache)).
Proof.
  intros cache. destruct (serve_all_inv arrivals) as [(? & ? & ?) _]. done.
Qed.

(** X8.  After any requests, every cached server is bound to the user id
    it is cached under, and [getOrCreateServer] hands a user the server a
    new cache would build for that user: no request is served by another
    user's server. *)
Theorem cached_server_is_the_users (arrivals : list Traffic.arrival)
    (userId email : string) (now : Z) :
  let cache := Traffic.serve_all arrivals in
  (∀ k e, JsMap.get k (LRU.cache cache) = Some e →
     Router.bound_user (LRU.value e) = k) ∧
  (Router.getOrCreateServer userId email now cache).1.1 =
  (Router.getOrCreateServer userId email now Router.serverCache).1.1 ∧
  Router.bound_user (Router.getOrCreateServer userId email now cache).1.1 =
    userId.
Proof.
  intros cache. destruct (serve_all_inv arrivals) as [(? & Hnd & ?) Hown].
  destruct (getOrCreateServer_own userId email now cache Hnd Hown)
    as [_ Hbuilt].
  split_and!.
  - intros k e Hg. by rewrite (Hown k e Hg).
  - by rewrite Hbuilt.
  - by rewrite Hbuilt.
Qed.

(** X9.  A second [getOrCreateServer] for a user returns the server the
    first call returned, builds and evicts nothing, keeps the keys in
    place, and stamps the user's entry with the time of the second
    call. *)
Theorem second_request_reuses_server (userId email email' : string)
    (now later : Z) (cache : LRU.LRUCache string Router.McpServer) :
  let first := Router.getOrCreateServer userId email now cache in
  let second := Router.getOrCreateServer userId email' later first.1.2 in
  second.1.1 = first.1.1 ∧
  second.2 = [] ∧
  JsMap.keys (LRU.cache second.1.2) = JsMap.keys (LRU.cache first.1.2) ∧
  JsMap.get userId (LRU.cache second.1.2) =
    Some {| LRU.value := first.1.1; LRU.lastAccessed := later |}.
Proof.
  intros first second.
  assert (JsMap.get userId (LRU.cache first.1.2) =
          Some {| LRU.value := first.1.1; LRU.lastAccessed := now |}) as Hg.
  { subst first second. unfold Router.getOrCreateServer, LRU.get.
    destruct (JsMap.get userId (LRU.cache cache)) as [e|] eqn:Hg; simpl.
    - rewrite get_set. by rewrite decide_True.
    - destruct (LRU.set id userId _ now cache) as [cache'' evicted] eqn:Hset.
      simpl.
      replace cache'' with (fst (LRU.set id userId (built userId) now cache))
        by (by rewrite Hset).
      unfold LRU.set. destruct (if _ : bool then _ else _). simpl.
      rewrite get_set. by rewrite decide_True. }
  subst second. unfold Router.getOrCreateServer at 1 2 3 4, LRU.get.
  rewrite Hg. simpl. split_and!; [done|done| |].
  - apply keys_set_present.
    by apply get_Some_elem, (list_elem_of_fmap_2 fst) in Hg.
  - rewrite get_set. by rewrite decide_True.
Qed.

(** X10.  A request the worker routes to the key lane has the path
    [/mcp] and a header whose key, the prefix [Bearer ] removed, starts
    with [wtyk_]; the key is validated, and the response is the
    dispatcher's for a valid key, 401 for an invalid one and 500 when the
    validation throws.  The answers [Missing Authorization header] and
    [Invalid endpoint] of [handleApiKeyRequest] are never given on this
    path, and the cache changes only for a valid key. *)
Theorem key_lane_outcomes (oauth : Request → result Response) (env : Env)
    (now : Z) (nowIso : string) (request : Request) (pathname : string)
    (cache : LRU.LRUCache string Router.McpServer) :
  Router.isApiKeyRequest pathname (authorization request) = true →
  ∃ header,
    authorization request = Some header ∧ pathname = "/mcp" ∧
    startsWith (replace "Bearer " "" header) "wtyk_" = true ∧
    let r := Router.fetch oauth env now nowIso request pathname cache in
    match validateApiKey env (replace "Bearer " "" header) with
    | Ok (Some (userId, email)) =>
        Router.response r =
          Rpc.handleHTTPTransport env nowIso userId request ∧
        Router.cache_after r =
          (Router.getOrCreateServer userId email now cache).1.2
    | Ok None =>
        Router.response r = Rpc.jsonError "Invalid or expired API key" 401 ∧
        Router.cache_after r = cache
    | Throw error =>
        Router.response r =
          Rpc.jsonError ("Internal server error: " +:+ exn_message error)
            500 ∧
        Router.cache_after r = cache
    end.
Proof.
  intros Hlane. unfold Router.fetch. rewrite Hlane.
  unfold Router.isApiKeyRequest in Hlane.
  case_bool_decide as Hpath; [|done]. simpl in Hlane.
  destruct (authorization request) as [header|] eqn:Hauth; [|done].
  case_bool_decide as Hempty; [done|].
  exists header. split_and!; [done|done|done|].
  cbv zeta. simpl. unfold Router.handleApiKeyRequest. rewrite Hauth. simpl.
  rewrite bool_decide_eq_false_2.
  2:{ intros Heq. rewrite Heq in Hlane. done. }
  unfold Router.validate.
  destruct (validateApiKey env _) as [[[userId email]|]|]; simpl;
    [|done..].
  destruct (Router.getOrCreateServer userId email now cache)
    as [[server cache'] evictions]. simpl.
  by rewrite bool_decide_eq_true_2.
Qed.

Lemma key_lane_outcomes_witness :
  let env := {| validateApiKey := λ _, Ok (Some ("u1", "u1@example.com"));
                loadHtml := λ _, Ok "<html></html>" |} in
  let request := {| authorization := Some "Bearer wtyk_abc";
                    json := Ok JNull |} in
  ∃ header,
    authorization request = Some header ∧
    startsWith (replace "Bearer " "" header) "wtyk_" = true ∧
    Router.response
      (Router.fetch (λ _, Ok {| status := 404; body := None |}) env 0
         "2026-01-01T00:00:00.000Z" request "/mcp" Router.serverCache) =
    Rpc.handleHTTPTransport env "2026-01-01T00:00:00.000Z" "u1" request.
Proof.
  intros env request.
  destruct (key_lane_outcomes (λ _, Ok {| status := 404; body := None |})
              env 0 "2026-01-01T00:00:00.000Z" request "/mcp"
              Router.serverCache eq_refl)
    as (header & Hauth & _ & Hkey & Hout).
  exists header. split_and!; [done|done|].
  injection Hauth as <-. apply Hout.
Defined.
End LaneFacts.

(** ** What the dispatcher answers *)

Module EnvelopeFacts.
Import Js Http RpcFacts.

(** What a response of the [try] block looks like, for the body [v]. *)
Local Abbreviation answer v response :=
  (∃ result error,
     response = Rpc.jsonRpcResponse (opt_get v "id") result error ∧
     match error with
     | Some (code, _) =>
         result = JNull ∧ code ∈ [-32600; -32601; -32602]
     | None => ∃ members, result = JObj members
     end).

Lemma dispatch_answer env nowIso userId v response :
  Rpc.dispatch env nowIso userId (Ok v) = Ok response → answer v response.
Proof.
  unfold Rpc.dispatch. cbn [mbind result_bind].
  destruct (nullish v) eqn:Hn; [by destruct v|].
  rewrite !(get_opt_get v) by done. cbn [mbind result_bind].
  destruct (negb _).
  { intros [= <-]. eexists _, _. split; [done|]. split; [done|set_solver]. }
  unfold Rpc.handleInitialize, Rpc.handlePing, Rpc.handleToolsList,
    Rpc.handleToolsCall, Rpc.handleResourcesList, Rpc.handleResourcesRead,
    Rpc.handlePromptsList.
  rewrite !(get_opt_get v) by done. cbn [mbind result_bind].
  rewrite !(get_opt_get (or_ _ _)) by apply or_object_not_nullish.
  cbn [mbind result_bind].
  repeat (destruct (value_eqb_str _ _); [
    try (intros [= <-]; eexists _, _; split; [done|]; by eexists) |]).
  - unfold try_catch. destruct (ToString _); cbn [mbind result_bind];
      intros [= <-]; eexists _, _; (split; [done|]); by eexists.
  - destruct (ToString _); cbn [mbind result_bind]; [|done].
    intros [= <-]. eexists _, _. split; [done|]. split; [done|set_solver].
  - destruct (loadHtml env _); cbn [mbind result_bind]; [|done].
    intros [= <-]. eexists _, _. split; [done|]. by eexists.
  - destruct (ToString _); cbn [mbind result_bind]; [|done].
    intros [= <-]. eexists _, _. split; [done|]. split; [done|set_solver].
  - destruct (ToString _); cbn [mbind result_bind]; [|done].
    intros [= <-]. eexists _, _. split; [done|]. split; [done|set_solver].
Qed.

(** X11.  Every answer of [handleHTTPTransport] has status 200 and a
    body, the text of an envelope with either a result (an object) or an
    error, never both.  An error has code -32700 with the id [error], or
    one of -32600, -32601, -32602 with the id of the request; a result
    comes with the id of the request. *)
Theorem transport_envelope (env : Env) (nowIso userId : string)
    (request : Request) :
  let response := Rpc.handleHTTPTransport env nowIso userId request in
  status response = 200 ∧
  is_Some (body response) ∧
  ∃ id result error,
    response = Rpc.jsonRpcResponse id result error ∧
    match error with
    | Some (code, message) =>
        result = JNull ∧
        (code = -32700 ∧ id = JStr "error" ∨
         code ∈ [-32600; -32601; -32602] ∧
         ∃ v, json request = Ok v ∧ id = opt_get v "id")
    | None =>
        (∃ members, result = JObj members) ∧
        ∃ v, json request = Ok v ∧ id = opt_get v "id"
    end.
Proof.
  intros response.
  assert (∃ id result error,
    response = Rpc.jsonRpcResponse id result error ∧
    match error with
    | Some (code, message) =>
        result = JNull ∧
        (code = -32700 ∧ id = JStr "error" ∨
         code ∈ [-32600; -32601; -32602] ∧
         ∃ v, json request = Ok v ∧ id = opt_get v "id")
    | None =>
        (∃ members, result = JObj members) ∧
        ∃ v, json request = Ok v ∧ id = opt_get v "id"
    end) as (id & result & error & Hr & Hshape).
  { subst response. unfold Rpc.handleHTTPTransport.
    destruct (json request) as [v|e] eqn:Hjson.
    - destruct (Rpc.dispatch env nowIso userId (Ok v)) as [r|e] eqn:Hd.
      + apply dispatch_answer in Hd as (result & error & -> & Hshape).
        exists (opt_get v "id"), result, error. split; [done|].
        destruct error as [[code message]|].
        * destruct Hshape as [-> Hcode]. split; [done|]. right. eauto.
        * split; [done|]. eauto.
      + eexists _, _, _. split; [reflexivity|]. simpl. split; [done|].
        by left.
    - simpl. eexists _, _, _. split; [reflexivity|]. simpl.
      split; [done|]. by left. }
  rewrite Hr. split_and!; [done|by eexists|].
  exists id, result, error. done.
Qed.

(** X12.  A body that is JSON but no object is not a parse error: an
    array (a batch), a string, a number, a boolean, and the empty object,
    are answered with -32600 and no [id] member.  Only [null] is answered
    with -32700, because reading its [jsonrpc] throws. *)
Theorem non_object_bodies (env : Env) (nowIso userId : string)
    (auth : option string) :
  let answer v :=
    Rpc.handleHTTPTransport env nowIso userId
      {| authorization := auth; json := Ok v |} in
  let invalid :=
    {| status := 200;
       body := Some (sq "{'jsonrpc':'2.0','error':{'code':-32600,'message':'Invalid Request'}}") |} in
  (∀ elems, answer (JArr elems) = invalid) ∧
  (∀ s, answer (JStr s) = invalid) ∧
  (∀ n, answer (JNum n) = invalid) ∧
  (∀ b, answer (JBool b) = invalid) ∧
  answer (JObj []) = invalid ∧
  answer JNull =
    Rpc.parse_error
      (TypeError "Cannot read properties of null (reading 'jsonrpc')").
Proof. by split_and!. Qed.

(** X13.  [initialize], [ping], [tools/list], [resources/list] and
    [prompts/list] always succeed, and their result depends on nothing but
    the method: not on the parameters, the user, the environment or the
    time. *)
Theorem static_methods (env env' : Env) (nowIso nowIso' userId userId' : string)
    (auth auth' : option string) (props props' : list (string * value))
    (method : string) :
  method ∈ ["initialize"; "ping"; "tools/list"; "resources/list";
            "prompts/list"] →
  own "jsonrpc" props = Some (JStr "2.0") →
  own "method" props = Some (JStr method) →
  own "jsonrpc" props' = Some (JStr "2.0") →
  own "method" props' = Some (JStr method) →
  ∃ members,
    Rpc.handleHTTPTransport env nowIso userId
      {| authorization := auth; json := Ok (JObj props) |} =
    Rpc.jsonRpcResponse (default JUndefined (own "id" props))
      (JObj members) None ∧
    Rpc.handleHTTPTransport env' nowIso' userId'
      {| authorization := auth'; json := Ok (JObj props') |} =
    Rpc.jsonRpcResponse (default JUndefined (own "id" props'))
      (JObj members) None.
Proof.
  intros Hm Hj Hmeth Hj' Hmeth'.
  unfold Rpc.handleHTTPTransport, Rpc.dispatch. simpl.
  rewrite Hj, Hmeth, Hj', Hmeth'. simpl.
  repeat (apply elem_of_cons in Hm as [->|Hm]; [by eexists|]).
  by apply elem_of_nil in Hm.
Qed.

Lemma static_methods_witness :
  let env := {| validateApiKey := λ _, Ok None;
                loadHtml := λ _, Ok "<html></html>" |} in
  let env' := {| validateApiKey := λ _, Throw (Error_ "down");
                 loadHtml := λ _, Throw (Error_ "Asset not found") |} in
  ∃ members,
    Rpc.handleHTTPTransport env "2026-01-01T00:00:00.000Z" "u1"
      {| authorization := None;
         json := Ok (JObj [("jsonrpc", JStr "2.0"); ("id", JNum 1);
                           ("method", JStr "tools/list")]) |} =
    Rpc.jsonRpcResponse (JNum 1) (JObj members) None ∧
    Rpc.handleHTTPTransport env' "2027-01-01T00:00:00.000Z" "u2"
      {| authorization := Some "x";
         json := Ok (JObj [("jsonrpc", JStr "2.0"); ("id", JStr "b");
                           ("method", JStr "tools/list");
                           ("params", JObj [("cursor", JNum 9)])]) |} =
    Rpc.jsonRpcResponse (JStr "b") (JObj members) None.
Proof.
  intros env env'.
  apply (static_methods env env' "2026-01-01T00:00:00.000Z"
           "2027-01-01T00:00:00.000Z" "u1" "u2" None (Some "x")
           [("jsonrpc", JStr "2.0"); ("id", JNum 1);
            ("method", JStr "tools/list")]
           [("jsonrpc", JStr "2.0"); ("id", JStr "b");
            ("method", JStr "tools/list");
            ("params", JObj [("cursor", JNum 9)])]
           "tools/list"); [|reflexivity..].
  do 2 right. left.
Defined.

(** X14.  [resources/read] of the widget's URI returns the page that
    [loadHtml] gives, with the widget's MIME type and metadata, or the
    dispatcher's parse error when [loadHtml] throws; any other URI is
    answered with -32602 and [Unknown resource: ] followed by it. *)
Theorem resource_read_outcomes (env : Env) (nowIso userId : string)
    (auth : option string) (props : list (string * value)) :
  let request := {| authorization := auth; json := Ok (JObj props) |} in
  let id := default JUndefined (own "id" props) in
  let params := or_ (default JUndefined (own "params" props)) (JObj []) in
  own "jsonrpc" props = Some (JStr "2.0") →
  own "method" props = Some (JStr "resources/read") →
  (opt_get params "uri" = JStr Rpc.widget_uri →
   match loadHtml env "/widget.html" with
   | Ok html =>
       Rpc.handleHTTPTransport env nowIso userId request =
       Rpc.jsonRpcResponse id
         (JObj [("contents", JArr [JObj [
            ("uri", JStr Rpc.widget_uri);
            ("mimeType", JStr Rpc.UI_MIME_TYPE);
            ("text", JStr html);
            ("_meta", Rpc.widget_meta)]])]) None
   | Throw error =>
       Rpc.handleHTTPTransport env nowIso userId request =
       Rpc.parse_error error
   end) ∧
  (∀ shown,
     opt_get params "uri" ≠ JStr Rpc.widget_uri →
     ToString (opt_get params "uri") = Ok shown →
     Rpc.handleHTTPTransport env nowIso userId request =
     Rpc.jsonRpcResponse id JNull
       (Some (-32602, "Unknown resource: " +:+ shown))).
Proof.
  intros request id params Hj Hm. subst request.
  unfold Rpc.handleHTTPTransport, Rpc.dispatch. simpl.
  rewrite Hj, Hm. simpl. unfold Rpc.handleResourcesRead.
  rewrite !get_object. cbn [mbind result_bind]. fold params.
  rewrite !(get_opt_get params) by apply or_object_not_nullish.
  cbn [mbind result_bind]. fold id. split.
  - intros ->. simpl.
    by destruct (loadHtml env "/widget.html").
  - intros shown Hother Hshown.
    replace (value_eqb_str (opt_get params "uri") Rpc.widget_uri) with false.
    + by rewrite Hshown.
    + destruct (opt_get params "uri"); try done. simpl.
      symmetry. apply bool_decide_eq_false_2. congruence.
Qed.

Lemma resource_read_outcomes_witness :
  let env := {| validateApiKey := λ _, Ok None;
                loadHtml := λ _, Ok "<html></html>" |} in
  Rpc.handleHTTPTransport env "2026-01-01T00:00:00.000Z" "u1"
    {| authorization := None;
       json := Ok (JObj [("jsonrpc", JStr "2.0"); ("id", JNum 6);
                         ("method", JStr "resources/read");
                         ("params", JObj [("uri", JStr "ui://other")])]) |} =
  Rpc.jsonRpcResponse (JNum 6) JNull
    (Some (-32602, "Unknown resource: ui://other")).
Proof.
  intros env.
  pose proof (resource_read_outcomes env "2026-01-01T00:00:00.000Z" "u1" None
                [("jsonrpc", JStr "2.0"); ("id", JNum 6);
                 ("method", JStr "resources/read");
                 ("params", JObj [("uri", JStr "ui://other")])]
                eq_refl eq_refl) as [_ Hunknown].
  apply (Hunknown "ui://other"); [discriminate|reflexivity].
Defined.

(** X15.  The three places that list the tools agree, and so do those
    that list the resources: the names [tools/list] returns are the tools
    registered on a user's server, [tools/call] accepts exactly these names
    and answers -32602 for any other, and likewise [resources/list],
    the registered resource and [resources/read]. *)
Theorem advertised_is_served (env : Env) (nowIso userId email : string)
    (now : Z) (auth : option string) (id args : value) :
  let server :=
    (Router.getOrCreateServer userId email now Router.serverCache).1.1 in
  let ask method params :=
    Rpc.handleHTTPTransport env nowIso userId
      {| authorization := auth;
         json := Ok (JObj [("jsonrpc", JStr "2.0"); ("id", id);
                           ("method", JStr method); ("params", params)]) |} in
  (∃ tools,
     (∀ params,
        ask "tools/list" params =
        Rpc.jsonRpcResponse id (JObj [("tools", JArr tools)]) None) ∧
     (λ t, opt_get t "name") <$> tools = JStr <$> Router.tools server) ∧
  (∀ name,
     if bool_decide (name ∈ Router.tools server)
     then ∃ result,
       ask "tools/call" (JObj [("name", JStr name); ("arguments", args)]) =
       Rpc.jsonRpcResponse id result None
     else
       ask "tools/call" (JObj [("name", JStr name); ("arguments", args)]) =
       Rpc.jsonRpcResponse id JNull
         (Some (-32602, "Unknown tool: " +:+ name))) ∧
  (∃ resources,
     (∀ params,
        ask "resources/list" params =
        Rpc.jsonRpcResponse id (JObj [("resources", JArr resources)])
          None) ∧
     (λ r, opt_get r "uri") <$> resources =
       JStr <$> Router.resources server) ∧
  (∀ uri html,
     loadHtml env "/widget.html" = Ok html →
     if bool_decide (uri ∈ Router.resources server)
     then ∃ result,
       ask "resources/read" (JObj [("uri", JStr uri)]) =
       Rpc.jsonRpcResponse id result None
     else
       ask "resources/read" (JObj [("uri", JStr uri)]) =
       Rpc.jsonRpcResponse id JNull
         (Some (-32602, "Unknown resource: " +:+ uri))).
Proof.
  intros server ask. subst server. simpl. split_and!.
  - eexists. split; [intros params; reflexivity|done].
  - intros name. subst ask. cbv beta.
    unfold Rpc.handleHTTPTransport, Rpc.dispatch. simpl.
    case_bool_decide as Hin.
    + apply list_elem_of_singleton in Hin as ->. simpl.
      rewrite handleToolsCall_unfold. simpl.
      destruct (ToString _); simpl; by eexists.
    + rewrite list_elem_of_singleton in Hin.
      unfold Rpc.handleToolsCall. simpl.
      by rewrite bool_decide_eq_false_2 by congruence.
  - eexists. split; [intros params; reflexivity|done].
  - intros uri html Hhtml. subst ask. cbv beta.
    unfold Rpc.handleHTTPTransport, Rpc.dispatch. simpl.
    unfold Rpc.handleResourcesRead. simpl.
    case_bool_decide as Hin.
    + apply list_elem_of_singleton in Hin as ->. simpl.
      rewrite Hhtml. simpl. by eexists.
    + rewrite list_elem_of_singleton in Hin.
      by rewrite bool_decide_eq_false_2 by congruence.
Qed.
End EnvelopeFacts.

(** ** The client and its cache *)

Module ClientFacts.
Import Js Http StringFacts JsonFacts CacheFacts.

Lemma append_inv_tail (s t u : string) : s +:+ u = t +:+ u → s = t.
Proof.
  revert t. induction s as [|c s IH]; intros [|c' t] Heq.
  - done.
  - apply (f_equal String.length) in Heq.
    rewrite append_empty, length_append in Heq. simpl in Heq. lia.
  - apply (f_equal String.length) in Heq.
    rewrite append_empty, length_append in Heq. simpl in Heq. lia.
  - rewrite !append_String in Heq. injection Heq as -> Heq.
    by rewrite (IH t Heq).
Qed.

Lemma suffixes_differ (s t : string) :
  s +:+ ":aktualny" = t +:+ ":pelny" → False.
Proof.
  revert t. induction s as [|c s IH]; intros t Heq.
  - rewrite append_empty in Heq.
    pose proof (f_equal String.length Heq) as Hlen.
    rewrite length_append in Hlen. simpl in Hlen.
    destruct t as [|a [|b [|d [|]]]]; simpl in Hlen; try lia.
    rewrite !append_String, append_empty in Heq. discriminate Heq.
  - destruct t as [|c' t].
    + apply (f_equal String.length) in Heq.
      rewrite append_empty, length_append in Heq. simpl in Heq. lia.
    + rewrite !append_String in Heq. injection Heq as _ Heq.
      by apply (IH t).
Qed.

Lemma cacheKey_inj krs type krs' type' :
  Krs.cacheKey krs type = Krs.cacheKey krs' type' →
  krs = krs' ∧ type = type'.
Proof.
  unfold Krs.cacheKey. rewrite !append_String, !append_empty.
  intros [= Heq].
  destruct type, type'; simpl in Heq.
  - by apply append_inv_tail in Heq.
  - by apply suffixes_differ in Heq.
  - symmetry in Heq. by apply suffixes_differ in Heq.
  - by apply append_inv_tail in Heq.
Qed.

Lemma getCompany_cases fetch now nowIso krs type kv :
  let r := Krs.getCompany fetch now nowIso krs type kv in
  (snd r = kv ∧
   (is_Some (Krs.lookup kv (Krs.cacheKey krs type) now) ∨
    ∃ e, fst r = Throw e)) ∨
  (Krs.lookup kv (Krs.cacheKey krs type) now = None ∧
   ∃ data text,
     fst r = Ok data ∧ JSON_stringify data = Some text ∧
     snd r = Kv.put kv (Krs.cacheKey krs type) text 3600 now).
Proof.
  intros r. subst r. unfold Krs.getCompany.
  destruct (Krs.lookup kv (Krs.cacheKey krs type) now) as [cached|] eqn:Hl.
  { left. simpl. split; [done|]. by left. }
  destruct (fetch _) as [e|status json].
  { left. case_bool_decide; simpl; eauto. }
  destruct (negb _).
  { left. repeat case_match; simpl; eauto. }
  destruct (json ≫= Krs.transformResponse nowIso) as [data|e];
    [|left; simpl; eauto].
  unfold Krs.store.
  destruct (JSON_stringify data) as [text|] eqn:Hs; [|left; simpl; eauto].
  right. split; [done|]. by exists data, text.
Qed.


(** X17.  A record [getCompany] returns is the parsed text found under
    the key of the lookup, or, on a miss, the transform of a payload the
    registry sent with a status from 200 to 299, which is then stored. *)
Theorem getCompany_provenance (fetch : string → Krs.fetch_outcome)
    (now : Z) (nowIso krs : string) (type : Krs.extract_type)
    (kv : gmap string Kv.kv_entry) (data : value) :
  let key := Krs.cacheKey krs type in
  let r := Krs.getCompany fetch now nowIso krs type kv in
  fst r = Ok data →
  (∃ text, Kv.get kv key now = Some text ∧ text ≠ "" ∧
           JSON_parse text = Ok data ∧ snd r = kv) ∨
  (Krs.lookup kv key now = None ∧
   ∃ status raw text,
     fetch (Krs.url krs type) = Krs.FetchResponse status (Ok raw) ∧
     200 ≤ status ≤ 299 ∧
     Krs.transformResponse nowIso raw = Ok data ∧
     JSON_stringify data = Some text ∧
     snd r = Kv.put kv key text 3600 now).
Proof.
  intros key r. subst r. unfold Krs.getCompany. fold key.
  destruct (Krs.lookup kv key now) as [cached|] eqn:Hl.
  - simpl. intros ->. left. unfold Krs.lookup in Hl.
    destruct (Kv.get kv key now) as [text|]; [|done].
    case_bool_decide; [done|]. injection Hl as Hl. by exists text.
  - destruct (fetch _) as [e|status json].
    { by case_bool_decide. }
    destruct (negb _) eqn:Hstatus.
    { by repeat case_match. }
    intros Hok. right. split; [done|].
    apply negb_false_iff, andb_true_iff in Hstatus as [Hlo Hhi].
    apply Z.leb_le in Hlo, Hhi.
    destruct json as [raw|e]; cbn [mbind result_bind] in Hok; [|done].
    destruct (Krs.transformResponse nowIso raw) as [record|e] eqn:Ht;
      [|done].
    unfold Krs.store in *.
    destruct (JSON_stringify record) as [text|] eqn:Hs; [|done].
    simpl in Hok. injection Hok as ->.
    exists status, raw, text. split_and!; try done.
    cbn [mbind result_bind]. by rewrite Ht, Hs.
Qed.

Lemma getCompany_provenance_witness :
  let up := λ _, Krs.FetchResponse 200
                   (Ok (Fixtures.with_capital "5000,00" "PLN")) in
  let t := "2026-01-01T00:00:00.000Z" in
  let key := Krs.cacheKey "0000000001" Krs.aktualny in
  let r := Krs.getCompany up 1000 t "0000000001" Krs.aktualny ∅ in
  (∃ text, Kv.get ∅ key 1000 = Some text ∧ text ≠ "" ∧
           JSON_parse text = Ok Fixtures.record_5000 ∧ snd r = ∅) ∨
  (Krs.lookup ∅ key 1000 = None ∧
   ∃ status raw text,
     up (Krs.url "0000000001" Krs.aktualny) =
       Krs.FetchResponse status (Ok raw) ∧
     200 ≤ status ≤ 299 ∧
     Krs.transformResponse t raw = Ok Fixtures.record_5000 ∧
     JSON_stringify Fixtures.record_5000 = Some text ∧
     snd r = Kv.put ∅ key text 3600 1000).
Proof.
  intros up t key r.
  apply (getCompany_provenance up 1000 t "0000000001" Krs.aktualny ∅
           Fixtures.record_5000).
  vm_compute. reflexivity.
Defined.

(** X18.  The cache key determines the number and the extract type, so
    two different lookups never share an entry: [getCompany] for one
    number and type leaves what the cache holds for any other as it
    was. *)
Theorem lookups_are_cached_apart (fetch : string → Krs.fetch_outcome)
    (now : Z) (nowIso krs krs' : string) (type type' : Krs.extract_type)
    (kv : gmap string Kv.kv_entry) :
  (Krs.cacheKey krs type = Krs.cacheKey krs' type' →
   krs = krs' ∧ type = type') ∧
  (krs ≠ krs' ∨ type ≠ type' →
   ∀ later,
     Krs.lookup (snd (Krs.getCompany fetch now nowIso krs type kv))
       (Krs.cacheKey krs' type') later =
     Krs.lookup kv (Krs.cacheKey krs' type') later).
Proof.
  split; [apply cacheKey_inj|].
  intros Hne later. unfold Krs.lookup, Kv.get.
  assert (Krs.cacheKey krs' type' ≠ Krs.cacheKey krs type) as Hkey.
  { intros Heq. apply cacheKey_inj in Heq as [-> ->]. by destruct Hne. }
  destruct (getCompany_cases fetch now nowIso krs type kv)
    as [[-> _]|(_ & data & text & _ & _ & ->)]; [done|].
  unfold Kv.put. by rewrite lookup_insert_ne.
Qed.
End ClientFacts.

(** ** The record [transformResponse] builds *)

Module RecordFacts.
Import Js Http RpcFacts TransformFacts.

Lemma or_cases v d :
  or_ v d = v ∧ truthy v = true ∨ or_ v d = d ∧ truthy v = false.
Proof. unfold or_. destruct (truthy v); auto. Qed.

Lemma or_truthy v d : truthy d = true → truthy (or_ v d) = true.
Proof. intros Hd. by destruct (or_cases v d) as [[-> ?]|[-> ?]]. Qed.

Lemma or_default v d : or_ v d = d ∨ truthy (or_ v d) = true.
Proof. destruct (or_cases v d) as [[-> ?]|[-> ?]]; auto. Qed.

Lemma mapM_Ok {A B} (f : A → result B) l out :
  mapM f l = Ok out → Forall2 (λ x y, f x = Ok y) l out.
Proof.
  revert out. induction l as [|x l IH]; intros out; simpl.
  - intros [= <-]. constructor.
  - destruct (f x) as [y|] eqn:Hy; cbn [mbind result_bind]; [|done].
    destruct (mapM f l) as [ys|]; cbn [mbind result_bind]; [|done].
    intros [= <-]. constructor; [done|]. by apply IH.
Qed.

Lemma get_present v p x : get v p = Ok x → nullish v = false.
Proof. by destruct v. Qed.

Lemma shareholder_Ok x y :
  Krs.shareholder x = Ok y →
  ∃ imie nazwisko,
    ToString (at_path ["imiona"; "imie"] x) = Ok imie ∧
    ToString (at_path ["nazwisko"; "nazwisko"] x) = Ok nazwisko ∧
    y = JObj [("name", JStr (imie +:+ " " +:+ nazwisko));
              ("shares",
               or_ (opt_get x "posiadaneUdzialy") (JStr "Brak danych"))].
Proof.
  unfold Krs.shareholder, Krs.full_name. intros H.
  destruct (get x "imiona") as [imiona|] eqn:E1; cbn [mbind result_bind] in H;
    [|done].
  destruct (get imiona "imie") as [imie|] eqn:E2;
    cbn [mbind result_bind] in H; [|done].
  destruct (ToString imie) as [s1|] eqn:E3; cbn [mbind result_bind] in H;
    [|done].
  destruct (get x "nazwisko") as [nazwisko|] eqn:E4;
    cbn [mbind result_bind] in H; [|done].
  destruct (get nazwisko "nazwisko") as [nazwisko'|] eqn:E5;
    cbn [mbind result_bind] in H; [|done].
  destruct (ToString nazwisko') as [s2|] eqn:E6;
    cbn [mbind result_bind] in H; [|done].
  destruct (get x "posiadaneUdzialy") as [udzialy|] eqn:E7;
    cbn [mbind result_bind] in H; [|done].
  injection H as <-.
  apply get_Ok_opt_get in E1, E2, E4, E5, E7. subst.
  exists s1, s2. done.
Qed.

Lemma boardMember_Ok x y :
  Krs.boardMember x = Ok y →
  ∃ imie nazwisko,
    ToString (at_path ["imiona"; "imie"] x) = Ok imie ∧
    ToString (at_path ["nazwisko"; "nazwisko"] x) = Ok nazwisko ∧
    y = JObj [("name", JStr (imie +:+ " " +:+ nazwisko));
              ("function",
               or_ (opt_get x "funkcjaWOrganie") (JStr "Brak danych"))].
Proof.
  unfold Krs.boardMember, Krs.full_name. intros H.
  destruct (get x "imiona") as [imiona|] eqn:E1; cbn [mbind result_bind] in H;
    [|done].
  destruct (get imiona "imie") as [imie|] eqn:E2;
    cbn [mbind result_bind] in H; [|done].
  destruct (ToString imie) as [s1|] eqn:E3; cbn [mbind result_bind] in H;
    [|done].
  destruct (get x "nazwisko") as [nazwisko|] eqn:E4;
    cbn [mbind result_bind] in H; [|done].
  destruct (get nazwisko "nazwisko") as [nazwisko'|] eqn:E5;
    cbn [mbind result_bind] in H; [|done].
  destruct (ToString nazwisko') as [s2|] eqn:E6;
    cbn [mbind result_bind] in H; [|done].
  destruct (get x "funkcjaWOrganie") as [funkcja|] eqn:E7;
    cbn [mbind result_bind] in H; [|done].
  injection H as <-.
  apply get_Ok_opt_get in E1, E2, E4, E5, E7. subst.
  exists s1, s2. done.
Qed.

Lemma activity_Ok x y :
  Krs.activity x = Ok y →
  ∃ code, y = JObj [("code", JStr code); ("description", opt_get x "opis")].
Proof.
  unfold Krs.activity. intros H.
  destruct (Krs.buildPkdCode x) as [code|]; cbn [mbind result_bind] in H;
    [|done].
  destruct (get x "opis") as [opis|] eqn:E; cbn [mbind result_bind] in H;
    [|done].
  injection H as <-. apply get_Ok_opt_get in E as ->. by exists code.
Qed.

Lemma as_array_Ok method v l : as_array method v = Ok l → v = JArr l.
Proof. destruct v; simpl; try done. by intros [= ->]. Qed.

(** The parts of a successful run of [transformResponse], named. *)
Lemma transform_parts nowIso raw record :
  Krs.transformResponse nowIso raw = Ok record →
  let odpis := opt_get raw "odpis" in
  let dane := opt_get odpis "dane" in
  let dzial1 := opt_get dane "dzial1" in
  let dzial2 := opt_get dane "dzial2" in
  let dzial3 := opt_get dane "dzial3" in
  let danePodmiotu := opt_get dzial1 "danePodmiotu" in
  let naglowekA := opt_get odpis "naglowekA" in
  let siedziba := at_path ["siedzibaIAdres"; "siedziba"] dzial1 in
  let adres := at_path ["siedzibaIAdres"; "adres"] dzial1 in
  let przedmiot := opt_get dzial3 "przedmiotDzialalnosci" in
  nullish odpis = false ∧ nullish dane = false ∧ nullish dzial1 = false ∧
  nullish danePodmiotu = false ∧ nullish naglowekA = false ∧
  ∃ wspolnicy sklad przewazajaca pozostala shareholders members
      mainActivity otherActivities capital,
    or_ (opt_get dzial1 "wspolnicySpzoo") (JArr []) = JArr wspolnicy ∧
    or_ (at_path ["reprezentacja"; "sklad"] dzial2) (JArr []) = JArr sklad ∧
    or_ (opt_get przedmiot "przedmiotPrzewazajacejDzialalnosci") (JArr []) =
      JArr przewazajaca ∧
    or_ (opt_get przedmiot "przedmiotPozostalejDzialalnosci") (JArr []) =
      JArr pozostala ∧
    mapM Krs.shareholder (filter Krs.has_names wspolnicy) = Ok shareholders ∧
    mapM Krs.boardMember (filter Krs.has_names sklad) = Ok members ∧
    mapM Krs.activity przewazajaca = Ok mainActivity ∧
    mapM Krs.activity pozostala = Ok otherActivities ∧
    (capital = JNull ∨
     ∃ value currency,
       capital = JObj [("value", JStr value); ("currency", currency)]) ∧
    record = JObj [
      ("name", opt_get danePodmiotu "nazwa");
      ("krs", opt_get naglowekA "numerKRS");
      ("nip", or_ (at_path ["identyfikatory"; "nip"] danePodmiotu) JNull);
      ("regon", or_ (at_path ["identyfikatory"; "regon"] danePodmiotu) JNull);
      ("legalForm", opt_get danePodmiotu "formaPrawna");
      ("address", JObj [
         ("city", or_ (opt_get siedziba "miejscowosc") (JStr ""));
         ("voivodeship", or_ (opt_get siedziba "wojewodztwo") (JStr ""));
         ("street", or_ (opt_get adres "ulica") (JStr ""));
         ("building", or_ (opt_get adres "nrDomu") (JStr ""));
         ("unit", or_ (opt_get adres "nrLokalu") JNull);
         ("postalCode", or_ (opt_get adres "kodPocztowy") (JStr ""));
         ("country", or_ (opt_get siedziba "kraj") (JStr "POLSKA"))]);
      ("capital", capital);
      ("shareholders", JArr shareholders);
      ("representation", JObj [
         ("organName",
          or_ (at_path ["reprezentacja"; "nazwaOrganu"] dzial2)
            (JStr "ZARZĄD"));
         ("method",
          or_ (at_path ["reprezentacja"; "sposobReprezentacji"] dzial2)
            (JStr "Brak danych"));
         ("members", JArr members)]);
      ("mainActivity", JArr mainActivity);
      ("otherActivities", JArr otherActivities);
      ("registrationDate", opt_get naglowekA "dataRejestracjiWKRS");
      ("lastUpdate", opt_get naglowekA "stanZDnia");
      ("dataTimestamp",
       or_ (opt_get naglowekA "dataCzasOdpisu") (JStr nowIso))].
Proof.
  intros H. unfold Krs.transformResponse in H.
  repeat bind_ok H.
  injection H as <-.
  match goal with
  | E : (if truthy ?c then _ else _) = Ok ?cap |- _ =>
      assert (cap = JNull ∨
              ∃ value currency,
                cap = JObj [("value", JStr value); ("currency", currency)])
        as Hcapital;
      [ destruct (truthy c);
        [ right; repeat bind_ok E; injection E as <-;
          match goal with
          | R : call_replace ?w _ _ = Ok _ |- _ =>
              destruct w; try discriminate R; injection R as <-
          end; eauto
        | left; by injection E as <- ]
      | clear E ]
  end.
  repeat match goal with
         | E : as_array _ _ = Ok _ |- _ => apply as_array_Ok in E
         end.
  repeat match goal with
         | E : get ?v _ = Ok _ |- _ =>
             lazymatch goal with
             | _ : nullish v = false |- _ => fail
             | _ => pose proof (get_present _ _ _ E)
             end
         end.
  repeat match goal with
         | E : get _ _ = Ok _ |- _ => apply get_Ok_opt_get in E
         end.
  subst. cbv zeta. unfold at_path. cbn [fold_left].
  split_and!; try done.
  eexists _, _, _, _, _, _, _, _, _.
  split_and!; try eassumption; try reflexivity.
Qed.

(** X19.  A record [transformResponse] returns has the fourteen fields
    of [CompanyData] in their order, an address of seven and a
    representation of three.  The tax numbers and the unit are [null] or
    truthy, the address texts empty or truthy, and country, organ name and
    method truthy; the capital is [null] or a value text with a currency;
    every shareholder and board member has a name text and a truthy second
    field, every activity a code text; the timestamp is truthy or the
    reading of the clock. *)
Theorem record_shape (nowIso : string) (raw record : value) :
  Krs.transformResponse nowIso raw = Ok record →
  ∃ props address representation shareholders members mainActivity
      otherActivities,
    record = JObj props ∧
    props.*1 = ["name"; "krs"; "nip"; "regon"; "legalForm"; "address";
                "capital"; "shareholders"; "representation"; "mainActivity";
                "otherActivities"; "registrationDate"; "lastUpdate";
                "dataTimestamp"] ∧
    opt_get record "address" = JObj address ∧
    address.*1 = ["city"; "voivodeship"; "street"; "building"; "unit";
                  "postalCode"; "country"] ∧
    opt_get record "representation" = JObj representation ∧
    representation.*1 = ["organName"; "method"; "members"] ∧
    Forall (λ v, v = JNull ∨ truthy v = true)
      [opt_get record "nip"; opt_get record "regon";
       at_path ["address"; "unit"] record] ∧
    Forall (λ p, at_path ["address"; p] record = JStr "" ∨
                 truthy (at_path ["address"; p] record) = true)
      ["city"; "voivodeship"; "street"; "building"; "postalCode"] ∧
    Forall (λ v, truthy v = true)
      [at_path ["address"; "country"] record;
       at_path ["representation"; "organName"] record;
       at_path ["representation"; "method"] record] ∧
    (opt_get record "dataTimestamp" = JStr nowIso ∨
     truthy (opt_get record "dataTimestamp") = true) ∧
    (opt_get record "capital" = JNull ∨
     ∃ value currency,
       opt_get record "capital" =
       JObj [("value", JStr value); ("currency", currency)]) ∧
    opt_get record "shareholders" = JArr shareholders ∧
    Forall (λ s, ∃ name shares,
              s = JObj [("name", JStr name); ("shares", shares)] ∧
              truthy shares = true) shareholders ∧
    at_path ["representation"; "members"] record = JArr members ∧
    Forall (λ m, ∃ name function,
              m = JObj [("name", JStr name); ("function", function)] ∧
              truthy function = true) members ∧
    opt_get record "mainActivity" = JArr mainActivity ∧
    opt_get record "otherActivities" = JArr otherActivities ∧
    Forall (λ a, ∃ code description,
              a = JObj [("code", JStr code); ("description", description)])
      (mainActivity ++ otherActivities).
Proof.
  intros H. apply transform_parts in H. cbv zeta in H.
  destruct H as (_ & _ & _ & _ & _ & wspolnicy & sklad & przewazajaca &
    pozostala & shareholders & members & mainActivity & otherActivities &
    capital & _ & _ & _ & _ & Hsh & Hme & Hma & Hoa & Hcap & ->).
  eexists _, _, _, shareholders, members, mainActivity, otherActivities.
  split; [reflexivity|]. unfold at_path. cbn.
  split_and!; try reflexivity.
  - repeat (apply Forall_cons_2; [apply or_default|]). apply Forall_nil_2.
  - repeat (apply Forall_cons_2; [apply or_default|]). apply Forall_nil_2.
  - repeat (apply Forall_cons_2; [by apply or_truthy|]). apply Forall_nil_2.
  - change (opt_get (JObj ?p) "dataTimestamp")
      with (or_ (opt_get (opt_get (opt_get raw "odpis") "naglowekA")
                   "dataCzasOdpisu") (JStr nowIso)).
    apply or_default.
  - done.
  - apply mapM_Ok in Hsh. clear -Hsh.
    induction Hsh as [|x y l out Hy _ IH]; constructor; [|done].
    apply shareholder_Ok in Hy as (imie & nazwisko & _ & _ & ->).
    eexists _, _. split; [done|]. by apply or_truthy.
  - apply mapM_Ok in Hme. clear -Hme.
    induction Hme as [|x y l out Hy _ IH]; constructor; [|done].
    apply boardMember_Ok in Hy as (imie & nazwisko & _ & _ & ->).
    eexists _, _. split; [done|]. by apply or_truthy.
  - apply Forall_app. split.
    + apply mapM_Ok in Hma. clear -Hma.
      induction Hma as [|x y l out Hy _ IH]; constructor; [|done].
      apply activity_Ok in Hy as (code & ->). by eexists _, _.
    + apply mapM_Ok in Hoa. clear -Hoa.
      induction Hoa as [|x y l out Hy _ IH]; constructor; [|done].
      apply activity_Ok in Hy as (code & ->). by eexists _, _.
Qed.

Lemma record_shape_witness :
  ∃ props address,
    Fixtures.record_5000 = JObj props ∧
    props.*1 = ["name"; "krs"; "nip"; "regon"; "legalForm"; "address";
                "capital"; "shareholders"; "representation"; "mainActivity";
                "otherActivities"; "registrationDate"; "lastUpdate";
                "dataTimestamp"] ∧
    opt_get Fixtures.record_5000 "address" = JObj address ∧
    address.*1 = ["city"; "voivodeship"; "street"; "building"; "unit";
                  "postalCode"; "country"].
Proof.
  destruct (record_shape "2026-01-01T00:00:00.000Z"
              (Fixtures.with_capital "5000,00" "PLN") Fixtures.record_5000
              eq_refl)
    as (props & address & ? & ? & ? & ? & ? & Hr & Hk & Ha & Hak & _).
  by exists props, address.
Defined.



(** X21.  [transformResponse] returns a record only if the payload has
    [odpis], [dane], [dzial1], [danePodmiotu] and [naglowekA], and each of
    the four lists it maps is an array or falsy; on any other payload it
    throws. *)
Theorem transform_requires (nowIso : string) (raw record : value) :
  Krs.transformResponse nowIso raw = Ok record →
  Forall (λ path, nullish (at_path path raw) = false)
    [["odpis"]; ["odpis"; "dane"]; ["odpis"; "dane"; "dzial1"];
     ["odpis"; "dane"; "dzial1"; "danePodmiotu"]; ["odpis"; "naglowekA"]] ∧
  Forall (λ path, truthy (at_path path raw) = false ∨
                  ∃ elems, at_path path raw = JArr elems)
    [["odpis"; "dane"; "dzial1"; "wspolnicySpzoo"];
     ["odpis"; "dane"; "dzial2"; "reprezentacja"; "sklad"];
     ["odpis"; "dane"; "dzial3"; "przedmiotDzialalnosci";
      "przedmiotPrzewazajacejDzialalnosci"];
     ["odpis"; "dane"; "dzial3"; "przedmiotDzialalnosci";
      "przedmiotPozostalejDzialalnosci"]].
Proof.
  intros H. apply transform_parts in H. cbv zeta in H.
  destruct H as (? & ? & ? & ? & ? & wspolnicy & sklad & przewazajaca &
    pozostala & shareholders & members & mainActivity & otherActivities &
    capital & Hw & Hs & Hp & Ho & _).
  split.
  - repeat (apply Forall_cons_2; [done|]). apply Forall_nil_2.
  - assert (∀ v l, or_ v (JArr []) = JArr l →
              truthy v = false ∨ ∃ elems, v = JArr elems) as Harr.
    { intros v l Hv. destruct (or_cases v (JArr [])) as [[E ?]|[_ ?]];
        [right|by left]. rewrite E in Hv. eauto. }
    repeat (apply Forall_cons_2; [eapply Harr; eassumption|]).
    apply Forall_nil_2.
Qed.

Lemma transform_requires_witness :
  Forall (λ path, nullish (at_path path
                             (Fixtures.with_capital "5000,00" "PLN")) = false)
    [["odpis"]; ["odpis"; "dane"]; ["odpis"; "dane"; "dzial1"];
     ["odpis"; "dane"; "dzial1"; "danePodmiotu"]; ["odpis"; "naglowekA"]].
Proof.
  apply (transform_requires "2026-01-01T00:00:00.000Z"
           (Fixtures.with_capital "5000,00" "PLN") Fixtures.record_5000
           eq_refl).
Defined.
End RecordFacts.

(** ** Typed payloads and the text of a record *)

Module TypeFacts.
Import Js Http RpcFacts TransformFacts Types.

Lemma string_elim v : string_ v = true → ∃ s, v = JStr s.
Proof. destruct v; try done. eauto. Qed.

Lemma object_elim members v :
  object members v = true →
  nullish v = false ∧ Forall (λ member, member v = true) members.
Proof.
  destruct v; try done. simpl. intros H. split; [done|].
  apply Forall_forall. intros member Hin.
  rewrite forallb_forall in H. apply H. by apply list_elem_of_In.
Qed.

Lemma field_elim p T v : field p T v = true → T (opt_get v p) = true.
Proof.
  destruct v; try done. simpl. by destruct (own p props).
Qed.

Lemma optional_elim p T v :
  optional p T v = true →
  opt_get v p = JUndefined ∨ T (opt_get v p) = true.
Proof.
  destruct v; try done. simpl.
  destruct (own p props) as [[]|]; simpl; auto.
Qed.

Lemma array_elim T v :
  array T v = true → ∃ elems, v = JArr elems ∧ forallb T elems = true.
Proof. destruct v; try done. eauto. Qed.

(** Taking a typing hypothesis apart. *)
Ltac take_members H :=
  apply object_elim in H as [? H];
  repeat match type of H with
         | Forall _ (_ :: _) =>
             let F := fresh "F" in
             apply Forall_cons in H as [F H]
         end;
  clear H.

Ltac typed :=
  repeat match goal with
         | H : field _ (object _) _ = true |- _ =>
             apply field_elim in H; take_members H
         | H : field _ _ _ = true |- _ => apply field_elim in H
         | H : optional _ _ _ = true |- _ => apply optional_elim in H
         end.

Lemma or_string v d :
  v = JUndefined ∨ string_ v = true → string_ (or_ v (JStr d)) = true.
Proof. intros [->|[s ->]%string_elim]; [done|]. unfold or_. by case_match. Qed.

Lemma or_nullable v :
  v = JUndefined ∨ string_ v = true → nullable string_ (or_ v JNull) = true.
Proof. intros [->|[s ->]%string_elim]; [done|]. unfold or_. by case_match. Qed.

Lemma or_array T v :
  v = JUndefined ∨ array T v = true →
  ∃ elems, or_ v (JArr []) = JArr elems ∧ forallb T elems = true.
Proof.
  intros [->|(elems & -> & H)%array_elim]; [by exists []|by exists elems].
Qed.

(** What [transformResponse] returns when the parts it reads are there. *)
Lemma transform_Ok nowIso raw wspolnicy sklad przewazajaca pozostala
    shareholders members mainActivity otherActivities capital :
  let odpis := opt_get raw "odpis" in
  let dane := opt_get odpis "dane" in
  let dzial1 := opt_get dane "dzial1" in
  let dzial2 := opt_get dane "dzial2" in
  let dzial3 := opt_get dane "dzial3" in
  let danePodmiotu := opt_get dzial1 "danePodmiotu" in
  let naglowekA := opt_get odpis "naglowekA" in
  let siedziba := at_path ["siedzibaIAdres"; "siedziba"] dzial1 in
  let adres := at_path ["siedzibaIAdres"; "adres"] dzial1 in
  let przedmiot := opt_get dzial3 "przedmiotDzialalnosci" in
  let wysokosc := at_path ["kapital"; "wysokoscKapitaluZakladowego"] dzial1 in
  nullish dane = false → nullish dzial1 = false →
  nullish danePodmiotu = false → nullish naglowekA = false →
  or_ (opt_get dzial1 "wspolnicySpzoo") (JArr []) = JArr wspolnicy →
  or_ (at_path ["reprezentacja"; "sklad"] dzial2) (JArr []) = JArr sklad →
  or_ (opt_get przedmiot "przedmiotPrzewazajacejDzialalnosci") (JArr []) =
    JArr przewazajaca →
  or_ (opt_get przedmiot "przedmiotPozostalejDzialalnosci") (JArr []) =
    JArr pozostala →
  mapM Krs.shareholder (filter Krs.has_names wspolnicy) = Ok shareholders →
  mapM Krs.boardMember (filter Krs.has_names sklad) = Ok members →
  mapM Krs.activity przewazajaca = Ok mainActivity →
  mapM Krs.activity pozostala = Ok otherActivities →
  (truthy wysokosc = false ∧ capital = JNull ∨
   ∃ wartosc,
     truthy wysokosc = true ∧ opt_get wysokosc "wartosc" = JStr wartosc ∧
     capital = JObj [("value", JStr (replace "," "." wartosc));
                     ("currency", opt_get wysokosc "waluta")]) →
  Krs.transformResponse nowIso raw =
  Ok (JObj [
    ("name", opt_get danePodmiotu "nazwa");
    ("krs", opt_get naglowekA "numerKRS");
    ("nip", or_ (at_path ["identyfikatory"; "nip"] danePodmiotu) JNull);
    ("regon", or_ (at_path ["identyfikatory"; "regon"] danePodmiotu) JNull);
    ("legalForm", opt_get danePodmiotu "formaPrawna");
    ("address", JObj [
       ("city", or_ (opt_get siedziba "miejscowosc") (JStr ""));
       ("voivodeship", or_ (opt_get siedziba "wojewodztwo") (JStr ""));
       ("street", or_ (opt_get adres "ulica") (JStr ""));
       ("building", or_ (opt_get adres "nrDomu") (JStr ""));
       ("unit", or_ (opt_get adres "nrLokalu") JNull);
       ("postalCode", or_ (opt_get adres "kodPocztowy") (JStr ""));
       ("country", or_ (opt_get siedziba "kraj") (JStr "POLSKA"))]);
    ("capital", capital);
    ("shareholders", JArr shareholders);
    ("representation", JObj [
       ("organName",
        or_ (at_path ["reprezentacja"; "nazwaOrganu"] dzial2)
          (JStr "ZARZĄD"));
       ("method",
        or_ (at_path ["reprezentacja"; "sposobReprezentacji"] dzial2)
          (JStr "Brak danych"));
       ("members", JArr members)]);
    ("mainActivity", JArr mainActivity);
    ("otherActivities", JArr otherActivities);
    ("registrationDate", opt_get naglowekA "dataRejestracjiWKRS");
    ("lastUpdate", opt_get naglowekA "stanZDnia");
    ("dataTimestamp",
     or_ (opt_get naglowekA "dataCzasOdpisu") (JStr nowIso))]).
Proof.
  cbv zeta. unfold at_path. cbn [fold_left].
  intros Hdane Hdzial1 Hpodmiot Hnaglowek Hw Hs Hp Ho Hsh Hme Hma Hoa Hcap.
  assert (nullish (opt_get raw "odpis") = false) as Hodpis
    by (by eapply opt_get_present).
  assert (nullish raw = false) as Hraw by (by eapply opt_get_present).
  unfold Krs.transformResponse.
  repeat first
    [ rewrite get_opt_get by assumption
    | rewrite Hw | rewrite Hs | rewrite Hp | rewrite Ho
    | rewrite Hsh | rewrite Hme | rewrite Hma | rewrite Hoa
    | progress cbn [as_array mbind result_bind] ].
  destruct Hcap as [[Hfalse ->]|(wartosc & Htrue & Hwartosc & ->)].
  - rewrite Hfalse. cbn [mbind result_bind].
    by rewrite !get_opt_get by assumption.
  - rewrite Htrue.
    match type of Htrue with
    | truthy (opt_get ?kapital _) = true =>
        assert (nullish (opt_get kapital "wysokoscKapitaluZakladowego")
                = false) as Hwys
          by (by destruct (opt_get kapital "wysokoscKapitaluZakladowego"));
        assert (nullish kapital = false) as Hkap
          by (by eapply opt_get_present)
    end.
    repeat first
      [ rewrite get_opt_get by assumption
      | rewrite Hwartosc
      | progress cbn [call_replace mbind result_bind] ].
    done.
Qed.

Lemma mapM_cons {A B} (f : A → result B) x l :
  mapM f (x :: l) = y ← f x; k ← mapM f l; mret (y :: k).
Proof. done. Qed.

Lemma mapM_nil {A B} (f : A → result B) : mapM f [] = Ok [].
Proof. done. Qed.

Lemma object_truthy members v : object members v = true → truthy v = true.
Proof. by destruct v. Qed.

Lemma full_name_typed x :
  nullish x = false →
  nullish (opt_get x "imiona") = false →
  nullish (opt_get x "nazwisko") = false →
  string_ (at_path ["imiona"; "imie"] x) = true →
  string_ (at_path ["nazwisko"; "nazwisko"] x) = true →
  ∃ name, Krs.full_name x = Ok name.
Proof.
  unfold at_path. cbn [fold_left].
  intros Hx Hi Hn [imie Himie]%string_elim [nazwisko Hnazwisko]%string_elim.
  unfold Krs.full_name.
  repeat first
    [ rewrite get_opt_get by assumption
    | rewrite Himie | rewrite Hnazwisko
    | progress cbn [ToString mbind result_bind] ].
  by eexists.
Qed.

Lemma mapM_typed (f : value → result value) (T T' : value → bool) l :
  (∀ x, T x = true → ∃ y, f x = Ok y ∧ T' y = true) →
  forallb T l = true →
  ∃ out, mapM f l = Ok out ∧ forallb T' out = true.
Proof.
  intros Hf. induction l as [|x l IH]; [by exists []|].
  cbn [forallb]. intros [Hx Hl]%andb_prop.
  destruct (IH Hl) as (out & Hout & Htyped).
  destruct (Hf x Hx) as (y & Hy & Hty).
  rewrite mapM_cons, Hy. cbn [mbind result_bind]. rewrite Hout.
  exists (y :: out). split; [done|]. cbn [forallb]. by rewrite Hty, Htyped.
Qed.

Lemma forallb_filter (T P : value → bool) l :
  forallb T l = true → forallb T (filter P l) = true.
Proof.
  induction l as [|x l IH]; [done|].
  cbn [forallb]. intros [Hx Hl]%andb_prop.
  rewrite filter_cons. destruct (decide _); [|by apply IH].
  cbn [forallb]. by rewrite Hx, IH.
Qed.

Lemma shareholder_typed x :
  object [
    field "nazwisko" (object [field "nazwisko" string_]);
    field "imiona" (object [field "imie" string_]);
    field "posiadaneUdzialy" string_] x = true →
  ∃ y, Krs.shareholder x = Ok y ∧
       object [field "name" string_; field "shares" string_] y = true.
Proof.
  intros Hx. take_members Hx. typed.
  destruct (full_name_typed x) as [name Hname]; try done.
  unfold Krs.shareholder. rewrite Hname.
  cbn [mbind result_bind]. rewrite get_opt_get by done.
  cbn [mbind result_bind].
  eexists. split; [reflexivity|]. simpl. rewrite andb_true_r.
  apply or_string. by right.
Qed.

Lemma boardMember_typed x :
  object [
    field "nazwisko" (object [field "nazwisko" string_]);
    field "imiona" (object [field "imie" string_]);
    field "funkcjaWOrganie" string_] x = true →
  ∃ y, Krs.boardMember x = Ok y ∧
       object [field "name" string_; field "function" string_] y = true.
Proof.
  intros Hx. take_members Hx. typed.
  destruct (full_name_typed x) as [name Hname]; try done.
  unfold Krs.boardMember. rewrite Hname.
  cbn [mbind result_bind]. rewrite get_opt_get by done.
  cbn [mbind result_bind].
  eexists. split; [reflexivity|]. simpl. rewrite andb_true_r.
  apply or_string. by right.
Qed.

Lemma activity_typed x :
  object [
    field "opis" string_;
    field "kodDzial" string_;
    field "kodKlasa" string_;
    field "kodPodklasa" string_] x = true →
  ∃ y, Krs.activity x = Ok y ∧
       object [field "code" string_; field "description" string_] y = true.
Proof.
  intros Hx. take_members Hx. typed.
  repeat match goal with
         | H : string_ _ = true |- _ =>
             let s := fresh "s" in
             let E := fresh "E" in
             pose proof H as [s E]%string_elim; revert H
         end.
  intros.
  unfold Krs.activity, Krs.buildPkdCode.
  repeat first
    [ rewrite get_opt_get by assumption
    | match goal with E : opt_get x _ = JStr _ |- _ => rewrite E end
    | progress cbn [ToString mbind result_bind] ].
  eexists. split; [reflexivity|]. done.
Qed.

Lemma optional_of_optional T v p q :
  v = JUndefined ∨ object [optional p T; optional q T] v = true →
  (opt_get v p = JUndefined ∨ T (opt_get v p) = true) ∧
  (opt_get v q = JUndefined ∨ T (opt_get v q) = true).
Proof.
  intros [->|H]; [by split; left|].
  take_members H. typed. done.
Qed.

Lemma CompanyData_intro name krs nip regon legalForm city voivodeship street
    building unit postalCode country capital shareholders organName method
    members mainActivity otherActivities registrationDate lastUpdate
    dataTimestamp :
  string_ name = true → string_ krs = true →
  nullable string_ nip = true → nullable string_ regon = true →
  string_ legalForm = true → string_ city = true →
  string_ voivodeship = true → string_ street = true →
  string_ building = true → nullable string_ unit = true →
  string_ postalCode = true → string_ country = true →
  nullable (object [field "value" string_; field "currency" string_])
    capital = true →
  forallb (object [field "name" string_; field "shares" string_])
    shareholders = true →
  string_ organName = true → string_ method = true →
  forallb (object [field "name" string_; field "function" string_])
    members = true →
  forallb (object [field "code" string_; field "description" string_])
    mainActivity = true →
  forallb (object [field "code" string_; field "description" string_])
    otherActivities = true →
  string_ registrationDate = true → string_ lastUpdate = true →
  string_ dataTimestamp = true →
  CompanyData (JObj [
    ("name", name); ("krs", krs); ("nip", nip); ("regon", regon);
    ("legalForm", legalForm);
    ("address", JObj [
       ("city", city); ("voivodeship", voivodeship); ("street", street);
       ("building", building); ("unit", unit); ("postalCode", postalCode);
       ("country", country)]);
    ("capital", capital);
    ("shareholders", JArr shareholders);
    ("representation", JObj [
       ("organName", organName); ("method", method);
       ("members", JArr members)]);
    ("mainActivity", JArr mainActivity);
    ("otherActivities", JArr otherActivities);
    ("registrationDate", registrationDate);
    ("lastUpdate", lastUpdate);
    ("dataTimestamp", dataTimestamp)]) = true.
Proof.
  intros. unfold CompanyData. lazy in *.
  repeat match goal with H : _ = true |- _ => rewrite H; clear H end.
  done.
Qed.

(** On a typed payload [transformResponse] returns a typed record. *)
Lemma transform_typed (nowIso : string) (raw : value) :
  KrsApiResponse raw = true →
  ∃ record,
    Krs.transformResponse nowIso raw = Ok record ∧
    CompanyData record = true.
Proof.
  intros Ht. unfold KrsApiResponse in Ht. take_members Ht. typed.
  match goal with
  | H : opt_get _ "wspolnicySpzoo" = JUndefined ∨ _ |- _ =>
      destruct (or_array _ _ H) as (wspolnicy & Hw & Tw); clear H
  end.
  match goal with
  | H : array _ (opt_get _ "sklad") = true |- _ =>
      destruct (or_array _ _ (or_intror H)) as (sklad & Hs & Ts); clear H
  end.
  match goal with
  | H : array _ (opt_get _ "przedmiotPrzewazajacejDzialalnosci") = true
    |- _ =>
      destruct (or_array _ _ (or_intror H)) as (przewazajaca & Hp & Tp);
      clear H
  end.
  match goal with
  | H : opt_get _ "przedmiotPozostalejDzialalnosci" = JUndefined ∨ _ |- _ =>
      destruct (or_array _ _ H) as (pozostala & Ho & To); clear H
  end.
  destruct (mapM_typed _ _ _ _ shareholder_typed
              (forallb_filter _ Krs.has_names _ Tw))
    as (shareholders & Hsh & Tsh).
  destruct (mapM_typed _ _ _ _ boardMember_typed
              (forallb_filter _ Krs.has_names _ Ts))
    as (members & Hme & Tme).
  destruct (mapM_typed _ _ _ _ activity_typed Tp)
    as (mainActivity & Hma & Tma).
  destruct (mapM_typed _ _ _ _ activity_typed To)
    as (otherActivities & Hoa & Toa).
  match goal with
  | H : opt_get _ "identyfikatory" = JUndefined ∨ _ |- _ =>
      apply optional_of_optional in H as [Hnip Hregon]
  end.
  assert (∃ capital,
    nullable (object [field "value" string_; field "currency" string_])
      capital = true ∧
    (truthy (at_path ["odpis"; "dane"; "dzial1"; "kapital";
                      "wysokoscKapitaluZakladowego"] raw) = false ∧
     capital = JNull ∨
     ∃ wartosc,
       truthy (at_path ["odpis"; "dane"; "dzial1"; "kapital";
                        "wysokoscKapitaluZakladowego"] raw) = true ∧
       at_path ["odpis"; "dane"; "dzial1"; "kapital";
                "wysokoscKapitaluZakladowego"; "wartosc"] raw =
         JStr wartosc ∧
       capital =
         JObj [("value", JStr (replace "," "." wartosc));
               ("currency",
                at_path ["odpis"; "dane"; "dzial1"; "kapital";
                         "wysokoscKapitaluZakladowego"; "waluta"] raw)]))
    as (capital & Tcap & Hcap).
  { unfold at_path. cbn [fold_left].
    match goal with
    | H : opt_get _ "kapital" = JUndefined ∨ _ |- _ =>
        destruct H as [->|H]; [exists JNull; split; [done|by left]|];
        take_members H; typed
    end.
    repeat match goal with
           | H : string_ _ = true |- _ =>
               let s := fresh "s" in
               let E := fresh "E" in
               pose proof H as [s E]%string_elim; revert H
           end.
    intros.
    match goal with
    | E : opt_get _ "wartosc" = JStr ?w |- _ =>
        exists (JObj [("value", JStr (replace "," "." w));
                      ("currency",
                       at_path ["odpis"; "dane"; "dzial1"; "kapital";
                                "wysokoscKapitaluZakladowego"; "waluta"]
                         raw)]);
        split; [|right; exists w; split_and!; [|done|done]]
    end.
    - unfold at_path. cbn [fold_left]. simpl.
      match goal with
      | H : string_ (opt_get _ "waluta") = true |- _ => by rewrite H
      end.
    - match goal with
      | H : nullish ?v = false |- truthy ?v = true => by destruct v
      end. }
  eexists. split.
  - eapply (transform_Ok nowIso raw wspolnicy sklad przewazajaca pozostala
              shareholders members mainActivity otherActivities capital);
      eassumption.
  - unfold at_path. cbn [fold_left].
    apply CompanyData_intro; try done;
      try (apply or_string; by right);
      try (by apply or_nullable).
    apply or_string.
    match goal with
    | H : opt_get _ "dataCzasOdpisu" = JUndefined ∨ _ |- _ => exact H
    end.
Qed.

(** X22.  [transformResponse] is type-safe: on a payload that has the
    type [KrsApiResponse] it does not throw, whatever time it is, and the
    record it returns has the type [CompanyData]. *)
Theorem transform_is_well_typed (nowIso : string) (raw : value) :
  KrsApiResponse raw = true →
  ∃ record,
    Krs.transformResponse nowIso raw = Ok record ∧
    CompanyData record = true.
Proof.
  intros Ht. destruct (transform_typed nowIso raw Ht) as (record & Hr & Hc).
  exists record. by split.
Qed.

Lemma transform_is_well_typed_witness :
  ∃ record,
    Krs.transformResponse "2026-01-01T00:00:00.000Z" Fixtures.complete =
      Ok record ∧
    CompanyData record = true.
Proof.
  apply (transform_is_well_typed "2026-01-01T00:00:00.000Z"
           Fixtures.complete).
  vm_compute. reflexivity.
Defined.

(** The text of the record made of the complete sample payload. *)
Example text_of_complete :
  Krs.transformResponse "2026-01-01T00:00:00.000Z" Fixtures.complete ≫=
    Text.formatCompanyAsText (λ _, false) =
  Ok (join newline [
    "=== ACME ==="; "";
    "KRS: 0000000001";
    "NIP: 1234567890";
    "Forma prawna: SPÓŁKA"; "";
    "📍 Adres:";
    "   PROSTA 1";
    "   00-001 WARSZAWA";
    "   MAZOWIECKIE, POLSKA"; "";
    "💰 Kapitał zakładowy: 5000.00 PLN"; "";
    "👥 ZARZĄD:";
    "   • JAN NOWAK - PREZES"; "";
    "🏭 Działalność przeważająca:";
    "   • 62.01.Z - PROGRAMOWANIE"; "";
    "📅 Data rejestracji: 01.02.2003";
    "📅 Stan na dzień: 04.05.2006"]).
Proof. vm_compute. reflexivity. Qed.

Lemma nullable_elim T v : nullable T v = true → v = JNull ∨ T v = true.
Proof. destruct v; auto. Qed.

Lemma mapM_total {A B} (f : A → result B) (P : A → bool) l :
  (∀ x, P x = true → ∃ y, f x = Ok y) →
  forallb P l = true → ∃ out, mapM f l = Ok out.
Proof.
  intros Hf. induction l as [|x l IH]; [by exists []|].
  cbn [forallb]. intros [Hx Hl]%andb_prop.
  destruct (IH Hl) as (out & Hout). destruct (Hf x Hx) as (y & Hy).
  rewrite mapM_cons, Hy. cbn [mbind result_bind]. rewrite Hout.
  by eexists.
Qed.

Lemma bullet_typed first second x :
  object [field first string_; field second string_] x = true →
  ∃ line, Text.bullet first second x = Ok line.
Proof.
  intros Hx. take_members Hx. typed.
  repeat match goal with
         | H : string_ _ = true |- _ => apply string_elim in H as [? H]
         end.
  unfold Text.bullet.
  repeat first
    [ rewrite get_opt_get by assumption
    | match goal with E : opt_get x _ = JStr _ |- _ => rewrite E end
    | progress cbn [ToString mbind result_bind] ].
  by eexists.
Qed.

Lemma optional_line (v : value) (line : string → list string)
    (lines : list string) e :
  nullable string_ v = true →
  (if truthy v then s ← ToString v; Ok (line s) else Ok lines) = Throw e →
  False.
Proof.
  intros [->|[s ->]%string_elim]%nullable_elim; [done|].
  simpl. by destruct (negb _).
Qed.

(** One step of running [formatCompanyAsText] on a typed record. *)
Ltac format_step :=
  first
    [ rewrite get_opt_get by assumption
    | match goal with
      | E : opt_get ?v ?p = JStr _ |- context [opt_get ?v ?p] => rewrite E
      | E : opt_get ?v ?p = JArr _ |- context [opt_get ?v ?p] => rewrite E
      | E : opt_get ?v ?p = JNull |- context [opt_get ?v ?p] => rewrite E
      | E : mapM _ _ = Ok _ |- _ => rewrite E
      | E : truthy ?v = true |- context [truthy ?v] => rewrite E
      end
    | progress cbn [ToString mbind result_bind mret result_ret truthy negb
                    app Text.length_positive Text.iterate Text.join_element]
    | rewrite !mapM_cons
    | rewrite mapM_nil
    | match goal with
      | |- context [match ?l with [] => Ok false | _ :: _ => Ok true end] =>
          destruct l
      end
    | match goal with
      | |- context [bool_decide ?P] => destruct (bool_decide P)
      | |- context [mbind _ (if truthy ?v then ?a else ?b)] =>
          let E := fresh "E" in
          destruct (if truthy v then a else b) eqn:E;
          [|by eapply optional_line in E]
      end ].

Lemma format_total positive positive' data :
  CompanyData data = true →
  match Text.formatCompanyAsText positive data with
  | Ok text => Text.formatCompanyAsText positive' data = Ok text
  | Throw _ => False
  end.
Proof.
  intros Ht. unfold CompanyData in Ht. take_members Ht. typed.
  repeat match goal with
         | H : string_ _ = true |- _ => apply string_elim in H as [? H]
         | H : array _ _ = true |- _ => apply array_elim in H as (? & H & ?)
         end.
  match goal with
  | H : forallb _ ?l = true, E : opt_get _ "members" = JArr ?l |- _ =>
      destruct (mapM_total (Text.bullet "name" "function") _ l
                  (bullet_typed "name" "function") H) as [bullets Hb]
  end.
  match goal with
  | H : forallb _ ?l = true, E : opt_get _ "mainActivity" = JArr ?l |- _ =>
      destruct (mapM_total (Text.bullet "code" "description") _ l
                  (bullet_typed "code" "description") H) as [bullets' Hb']
  end.
  match goal with
  | H : nullable string_ (opt_get _ "unit") = true |- _ =>
      apply nullable_elim in H as [H|[? H]%string_elim]
  end;
  match goal with
  | H : nullable (object _) (opt_get _ "capital") = true |- _ =>
      apply nullable_elim in H as [H|H];
      [|pose proof (object_truthy _ _ H); take_members H; typed]
  end;
  repeat match goal with
         | H : string_ _ = true |- _ => apply string_elim in H as [? H]
         end;
  unfold Text.formatCompanyAsText;
  repeat format_step.
  all: done.
Qed.

(** X23.  On a record of type [CompanyData], [formatCompanyAsText] does
    not throw; the text it returns does not depend on how strings compare
    with numbers. *)
Theorem text_of_a_record (data : value) :
  CompanyData data = true →
  ∃ text, ∀ positive, Text.formatCompanyAsText positive data = Ok text.
Proof.
  intros Ht.
  pose proof (format_total (λ _, false) (λ _, false) data Ht) as H0.
  destruct (Text.formatCompanyAsText (λ _, false) data) as [text|] eqn:E;
    [|done].
  exists text. intros positive.
  pose proof (format_total (λ _, false) positive data Ht) as H.
  by rewrite E in H.
Qed.

Lemma text_of_a_record_witness :
  ∃ text, ∀ positive,
    Text.formatCompanyAsText positive Fixtures.record_5000 = Ok text.
Proof.
  apply (text_of_a_record Fixtures.record_5000). vm_compute. reflexivity.
Defined.

(** X24.  For an authenticated user, a lookup that misses the cache and
    to which the registry answers with a status from 200 to 299 and a
    payload of type [KrsApiResponse]: [view_company] returns the text of
    the record followed by the next steps, the record itself as structured
    content and the view id, without an error flag, and the record's text
    is cached for 3600 seconds. *)
Theorem view_company_succeeds (positive : string → bool)
    (user viewUUID : string) (fetch : string → Krs.fetch_outcome) (now : Z)
    (nowIso krs : string) (type : option Krs.extract_type)
    (kv : gmap string Kv.kv_entry) (status : Z) (raw : value) :
  let key := Krs.cacheKey krs (default Krs.aktualny type) in
  user ≠ "" →
  Krs.lookup kv key now = None →
  fetch (Krs.url krs (default Krs.aktualny type)) =
    Krs.FetchResponse status (Ok raw) →
  200 ≤ status ≤ 299 →
  KrsApiResponse raw = true →
  ∃ record text stored,
    Krs.transformResponse nowIso raw = Ok record ∧
    CompanyData record = true ∧
    Text.formatCompanyAsText positive record = Ok text ∧
    JSON_stringify record = Some stored ∧
    Server.view_company (Text.formatCompanyAsText positive) (Some user)
      viewUUID fetch now nowIso krs type kv =
    (Ok (JObj [
       ("content", JArr [JObj [("type", JStr "text");
                               ("text", JStr (text +:+ Server.next_steps))]]);
       ("structuredContent", record);
       ("_meta", JObj [("viewUUID", JStr viewUUID)])]),
     Kv.put kv key stored 3600 now).
Proof.
  intros key Huser Hmiss Hfetch [Hlo Hhi] Hraw.
  destruct (transform_typed nowIso raw Hraw) as (record & Ht & Hrec).
  pose proof (format_total positive positive record Hrec) as Htext.
  destruct (Text.formatCompanyAsText positive record) as [text|] eqn:Hf;
    [clear Htext|done].
  assert (∃ stored, JSON_stringify record = Some stored) as [stored Hs].
  { destruct record; try done. by eexists. }
  exists record, text, stored. split_and!; try done.
  unfold Server.view_company. simpl.
  rewrite (bool_decide_eq_false_2 _ Huser). simpl.
  unfold Krs.getCompany. fold key. rewrite Hmiss, Hfetch.
  rewrite (proj2 (Z.leb_le _ _) Hlo), (proj2 (Z.leb_le _ _) Hhi). simpl.
  rewrite Ht. unfold Krs.store. rewrite Hs. simpl. by rewrite Hf.
Qed.

Lemma view_company_succeeds_witness :
  let up := λ _, Krs.FetchResponse 200 (Ok Fixtures.complete) in
  ∃ record text stored,
    Krs.transformResponse "2026-01-01T00:00:00.000Z" Fixtures.complete =
      Ok record ∧
    CompanyData record = true ∧
    Text.formatCompanyAsText (λ _, false) record = Ok text ∧
    JSON_stringify record = Some stored ∧
    Server.view_company (Text.formatCompanyAsText (λ _, false)) (Some "u1")
      "uuid" up 1000 "2026-01-01T00:00:00.000Z" "0000000001" None ∅ =
    (Ok (JObj [
       ("content", JArr [JObj [("type", JStr "text");
                               ("text", JStr (text +:+ Server.next_steps))]]);
       ("structuredContent", record);
       ("_meta", JObj [("viewUUID", JStr "uuid")])]),
     Kv.put ∅ (Krs.cacheKey "0000000001" Krs.aktualny) stored 3600 1000).
Proof.
  intros up.
  apply (view_company_succeeds (λ _, false) "u1" "uuid" up 1000
           "2026-01-01T00:00:00.000Z" "0000000001" None ∅ 200
           Fixtures.complete).
  - discriminate.
  - reflexivity.
  - reflexivity.
  - lia.
  - vm_compute. reflexivity.
Defined.
End TypeFacts.

(** ** Capabilities and widgets *)

Module WidgetFacts.
Import Js Http RpcFacts StringFacts JsonFacts.

(** X25.  [hasUISupport] never throws, whatever it is given, and answers
    [true] exactly when the capabilities hold, under [extensions] and the
    MCP Apps extension id, an array [mimeTypes] that contains the widgets'
    MIME type. *)
Theorem hasUISupport_reads_mime_types (clientCapabilities : value) :
  ∃ supported,
    Ui.hasUISupport clientCapabilities = Ok supported ∧
    (supported = true ↔
     ∃ mimeTypes,
       at_path ["extensions"; Ui.UI_EXTENSION_ID; "mimeTypes"]
         clientCapabilities = JArr mimeTypes ∧
       JStr Rpc.UI_MIME_TYPE ∈ mimeTypes).
Proof.
  assert (∀ elems,
    existsb (λ x, value_eqb_str x Rpc.UI_MIME_TYPE) elems = true ↔
    JStr Rpc.UI_MIME_TYPE ∈ elems) as Hin.
  { intros elems. rewrite existsb_exists. split.
    - intros (x & Hx & Heq). apply list_elem_of_In in Hx.
      destruct x; try done. simpl in Heq. apply bool_decide_eq_true in Heq.
      by subst.
    - intros Hx. exists (JStr Rpc.UI_MIME_TYPE).
      split; [by apply list_elem_of_In|]. cbn [value_eqb_str].
      by apply bool_decide_eq_true_2. }
  assert (∀ b : bool, (∃ l : list value, JUndefined = JArr l ∧ b) → False)
    as Hno by (by intros ? (? & ? & ?)).
  unfold Ui.hasUISupport, at_path. cbn [fold_left].
  destruct clientCapabilities as [| |b|n|s|elems|props];
    try (eexists; split; [reflexivity|]; split; [done|];
         by intros (? & ? & ?)).
  - destruct b; eexists; (split; [reflexivity|]); split; try done;
      by intros (? & ? & ?).
  - cbn [truthy Ui.typeof_object negb orb get opt_get].
    destruct (n =? 0); eexists; (split; [reflexivity|]); split; try done;
      by intros (? & ? & ?).
  - cbn [truthy]. destruct (negb _); eexists; (split; [reflexivity|]);
      split; try done; by intros (? & ? & ?).
  - cbn [truthy Ui.typeof_object negb orb get opt_get mbind result_bind].
    set (extensions := default JUndefined (own "extensions" props)).
    destruct (truthy extensions) eqn:He; cbn [negb].
    2:{ eexists. split; [reflexivity|]. split; [done|].
        intros (l & Hl & _). destruct extensions; try done.
        all: simpl in Hl; try done. }
    rewrite get_opt_get by (by destruct extensions).
    cbn [mbind result_bind].
    set (ui := opt_get extensions Ui.UI_EXTENSION_ID).
    destruct (truthy ui) eqn:Hu; cbn [negb].
    2:{ eexists. split; [reflexivity|]. split; [done|].
        intros (l & Hl & _). destruct ui; try done. }
    rewrite get_opt_get by (by destruct ui).
    cbn [mbind result_bind].
    destruct (opt_get ui "mimeTypes") as [| | | | |types|] eqn:Hm;
      try (eexists; split; [reflexivity|]; split; [done|];
           by intros (? & ? & ?)).
    eexists. split; [reflexivity|]. rewrite Hin. split.
    + intros Hx. by exists types.
    + by intros (l & [= <-] & Hx).
Qed.

Lemma card_structured props st data :
  own "structuredContent" props = Some data → truthy data = true →
  Widget.ontoolresult (JObj props) st =
  {| Widget.data := data; Widget.loading := false; Widget.error := JNull |}.
Proof.
  intros Hown Hdata. unfold Widget.ontoolresult. rewrite !get_object, Hown.
  cbn [default mbind result_bind]. unfold id. by rewrite Hdata.
Qed.

Lemma card_error message st :
  Widget.ontoolresult
    (Rpc.tool_result (JStr message) [("isError", JBool true)]) st =
  {| Widget.data := Widget.data st; Widget.loading := false;
     Widget.error := JStr message |}.
Proof. vm_compute. reflexivity. Qed.

(** X26.  What the company card shows after [view_company]: handed the
    tool result of an authenticated call, it stops loading and holds the
    record with no error when the lookup and the text rendering succeeded,
    and otherwise keeps its data and holds the message [Error looking up
    KRS ...] with the cause.  It never falls back to [Failed to parse
    company data]. *)
Theorem card_after_view_company (format : value → result string)
    (user viewUUID : string) (fetch : string → Krs.fetch_outcome) (now : Z)
    (nowIso krs : string) (type : option Krs.extract_type)
    (kv : gmap string Kv.kv_entry) (st : Widget.card) :
  user ≠ "" →
  ∃ result,
    fst (Server.view_company format (Some user) viewUUID fetch now nowIso
           krs type kv) = Ok result ∧
    match
      data ← fst (Krs.getCompany fetch now nowIso krs
                    (default Krs.aktualny type) kv);
      _ ← format data;
      Ok data
    with
    | Ok data =>
        truthy data = true →
        Widget.ontoolresult result st =
        {| Widget.data := data; Widget.loading := false;
           Widget.error := JNull |}
    | Throw e =>
        Widget.ontoolresult result st =
        {| Widget.data := Widget.data st; Widget.loading := false;
           Widget.error :=
             JStr ("Error looking up KRS " +:+ krs +:+ ": "
                   +:+ exn_message e) |}
    end.
Proof.
  intros Huser. unfold Server.view_company. simpl.
  rewrite (bool_decide_eq_false_2 _ Huser). simpl.
  destruct (Krs.getCompany _ _ _ _ _ _) as [[data|e] kv']; simpl.
  - destruct (format data) as [text|e]; simpl.
    + eexists. split; [done|]. intros Hdata.
      by apply card_structured.
    + eexists. split; [done|]. apply card_error.
  - eexists. split; [done|]. apply card_error.
Qed.

Lemma card_after_view_company_witness :
  ∃ result,
    fst (Server.view_company (λ _, Ok "") (Some "u1") "uuid"
           (λ _, Krs.FetchResponse 404 (Ok JNull)) 0
           "2026-01-01T00:00:00.000Z" "0000000000" None ∅) = Ok result ∧
    Widget.ontoolresult result
      {| Widget.data := JNull; Widget.loading := true;
         Widget.error := JNull |} =
    {| Widget.data := JNull; Widget.loading := false;
       Widget.error :=
         JStr "Error looking up KRS 0000000000: Company with KRS 0000000000 not found in registry" |}.
Proof.
  destruct (card_after_view_company (λ _, Ok "") "u1" "uuid"
              (λ _, Krs.FetchResponse 404 (Ok JNull)) 0
              "2026-01-01T00:00:00.000Z" "0000000000" None ∅
              {| Widget.data := JNull; Widget.loading := true;
                 Widget.error := JNull |})
    as (result & Hr & Hcard); [discriminate|].
  exists result. split; [exact Hr|exact Hcard].
Defined.

(** X27.  What the widget template extracts from an answer of
    [example-tool]: the structured result, with the processed message, the
    time and the user id, when the tool succeeded; and [null] when the
    tool failed, because the error text is no JSON. *)
Theorem template_reads_example_tool (env : Env) (nowIso userId : string)
    (auth : option string) (props : list (string * value)) :
  let id := default JUndefined (own "id" props) in
  let params := or_ (default JUndefined (own "params" props)) (JObj []) in
  let input := or_ (opt_get (opt_get params "arguments") "input") (JStr "") in
  own "jsonrpc" props = Some (JStr "2.0") →
  own "method" props = Some (JStr "tools/call") →
  opt_get params "name" = JStr "example-tool" →
  ∃ result,
    Rpc.handleHTTPTransport env nowIso userId
      {| authorization := auth; json := Ok (JObj props) |} =
      Rpc.jsonRpcResponse id result None ∧
    match ToString input with
    | Ok processed =>
        Widget.extractData result =
        JObj [("message", JStr ("Processed: " +:+ processed));
              ("timestamp", JStr nowIso); ("userId", JStr userId)]
    | Throw _ => Widget.extractData result = JNull
    end.
Proof.
  intros id params input Hj Hm Hname.
  rewrite (tools_call_transport env nowIso userId auth props Hj Hm).
  rewrite handleToolsCall_unfold. cbv zeta. fold params. fold input id.
  rewrite Hname. simpl.
  destruct (ToString input) as [processed|error]; simpl.
  - eexists. split; [done|]. vm_compute. reflexivity.
  - eexists. split; [done|]. vm_compute. reflexivity.
Qed.

Lemma template_reads_example_tool_witness :
  let env := {| validateApiKey := λ _, Ok None;
                loadHtml := λ _, Ok "<html></html>" |} in
  ∃ result,
    Rpc.handleHTTPTransport env "2026-01-01T00:00:00.000Z" "u1"
      {| authorization := None;
         json := Ok (JObj [("jsonrpc", JStr "2.0"); ("id", JNum 1);
                           ("method", JStr "tools/call");
                           ("params", JObj [
                              ("name", JStr "example-tool");
                              ("arguments",
                               JObj [("input", JStr "hi")])])]) |} =
      Rpc.jsonRpcResponse (JNum 1) result None ∧
    Widget.extractData result =
    JObj [("message", JStr "Processed: hi");
          ("timestamp", JStr "2026-01-01T00:00:00.000Z");
          ("userId", JStr "u1")].
Proof.
  intros env.
  apply (template_reads_example_tool env "2026-01-01T00:00:00.000Z" "u1" None
           [("jsonrpc", JStr "2.0"); ("id", JNum 1);
            ("method", JStr "tools/call");
            ("params", JObj [("name", JStr "example-tool");
                             ("arguments", JObj [("input", JStr "hi")])])]);
    reflexivity.
Defined.
End WidgetFacts.

(** ** What goes over the wire *)

Module WireFacts.
Import Js Http StringFacts RpcFacts JsonFacts.

(** X28.  Whatever the message (an exception's text, a tool name taken
    from the request), the body of [jsonError] and the body of an error
    envelope are JSON texts, and parsing them gives back the message
    unchanged, with the request's id. *)
Theorem error_bodies_are_json (message : string) (status code : Z)
    (id : value) :
  (∃ text,
     body (Rpc.jsonError message status) = Some text ∧
     JSON_parse text = Ok (JObj [("error", JStr message)])) ∧
  (is_json id = true →
   ∃ text,
     body (Rpc.jsonRpcResponse id JNull (Some (code, message))) = Some text ∧
     JSON_parse text =
       Ok (JObj [("jsonrpc", JStr "2.0"); ("id", id);
                 ("error", JObj [("code", JNum code);
                                 ("message", JStr message)])])).
Proof.
  split.
  - destruct (JSON_round_trip (JObj [("error", JStr message)]))
      as (text & Hs & _ & Hp); [done|].
    exists text. by split.
  - intros Hid.
    destruct (JSON_round_trip
                (JObj [("jsonrpc", JStr "2.0"); ("id", id);
                       ("error", JObj [("code", JNum code);
                                       ("message", JStr message)])]))
      as (text & Hs & _ & Hp).
    { apply is_json_obj. split.
      - simpl.
        repeat (apply NoDup_cons_2;
                [rewrite ?elem_of_cons, ?elem_of_nil; naive_solver|]).
        apply NoDup_nil_2.
      - repeat (apply Forall_cons_2; [done|]). apply Forall_nil_2. }
    exists text. by split.
Qed.

(** X29.  On the key lane the user id in the result of [example-tool] is
    the id of the key's owner, as [validateApiKey] gave it: for a valid
    key and a call with an input that has a text, the worker answers with
    the processed input, the time and that id, whatever else the request
    says. *)
Theorem tool_result_names_the_key_owner (oauth : Request → result Response)
    (env : Env) (now : Z) (nowIso : string) (request : Request)
    (cache : LRU.LRUCache string Router.McpServer)
    (header userId email processed : string)
    (props : list (string * value)) :
  let id := default JUndefined (own "id" props) in
  let params := or_ (default JUndefined (own "params" props)) (JObj []) in
  let input := or_ (opt_get (opt_get params "arguments") "input") (JStr "") in
  let result := JObj [("message", JStr ("Processed: " +:+ processed));
                      ("timestamp", JStr nowIso);
                      ("userId", JStr userId)] in
  authorization request = Some header →
  Router.isApiKeyRequest "/mcp" (Some header) = true →
  validateApiKey env (replace "Bearer " "" header) =
    Ok (Some (userId, email)) →
  json request = Ok (JObj props) →
  own "jsonrpc" props = Some (JStr "2.0") →
  own "method" props = Some (JStr "tools/call") →
  opt_get params "name" = JStr "example-tool" →
  ToString input = Ok processed →
  Router.response (Router.fetch oauth env now nowIso request "/mcp" cache) =
  Rpc.jsonRpcResponse id
    (Rpc.tool_result (Rpc.text_of (JSON_stringify_2 result))
       [("structuredContent", result)]) None.
Proof.
  intros id params input result Hauth Hlane Hvalid Hjson Hj Hm Hname Hin.
  unfold Router.fetch. rewrite Hauth, Hlane. simpl.
  unfold Router.handleApiKeyRequest. rewrite Hauth. simpl.
  unfold Router.isApiKeyRequest in Hlane. simpl in Hlane.
  case_bool_decide as Hempty; [done|].
  rewrite bool_decide_eq_false_2.
  2:{ intros Heq. rewrite Heq in Hlane. done. }
  unfold Router.validate. rewrite Hvalid. unfold Router.validated.
  destruct (Router.getOrCreateServer userId email now cache)
    as [[server cache'] evictions]. simpl.
  destruct request as [auth body]. simpl in *. subst body.
  rewrite (tools_call_transport env nowIso userId auth props Hj Hm).
  rewrite handleToolsCall_unfold. cbv zeta. fold params. fold input id.
  rewrite Hname, Hin. simpl. done.
Qed.

Lemma tool_result_names_the_key_owner_witness :
  let env := {| validateApiKey := λ _, Ok (Some ("u1", "u1@example.com"));
                loadHtml := λ _, Ok "<html></html>" |} in
  let props := [("jsonrpc", JStr "2.0"); ("id", JNum 1);
                ("method", JStr "tools/call");
                ("params", JObj [
                   ("name", JStr "example-tool");
                   ("arguments", JObj [("input", JStr "hi");
                                       ("userId", JStr "someone")])])] in
  let result := JObj [("message", JStr "Processed: hi");
                      ("timestamp", JStr "2026-01-01T00:00:00.000Z");
                      ("userId", JStr "u1")] in
  Router.response
    (Router.fetch (λ _, Ok {| status := 404; body := None |}) env 0
       "2026-01-01T00:00:00.000Z"
       {| authorization := Some "Bearer wtyk_abc";
          json := Ok (JObj props) |}
       "/mcp" Router.serverCache) =
  Rpc.jsonRpcResponse (JNum 1)
    (Rpc.tool_result (Rpc.text_of (JSON_stringify_2 result))
       [("structuredContent", result)]) None.
Proof.
  intros env props result.
  apply (tool_result_names_the_key_owner
           (λ _, Ok {| status := 404; body := None |}) env 0
           "2026-01-01T00:00:00.000Z"
           {| authorization := Some "Bearer wtyk_abc";
              json := Ok (JObj props) |}
           Router.serverCache "Bearer wtyk_abc" "u1" "u1@example.com" "hi"
           props); reflexivity.
Defined.
End WireFacts.
